(** * Lead Generator: the result handling of [streamlit_app.py]

    A shallow embedding of the pure parts of the Streamlit script
    ([streamlit_app.py]) and of the record schema ([crew.py]):
    the usage-metrics parsing loop and the cost of a run, the parse of
    the crew's output, the score metrics, the sort, the lead display
    loop, the markdown report and the run-button gate.

    Conventions.
    - A Python [str] is a Rocq [string]; a character is its code point,
      so the model covers the strings whose code points are below 256.
    - A Python exception is a value of [exn]; code that can raise returns
      a [result]. *)

From Stdlib Require Import ZArith List Bool Ascii String Lia.
From Stdlib Require Import DecimalString DecimalZ QArith.
From Stdlib Require Import Floats.SpecFloat.
From stdpp Require Import gmap strings sorting.

Local Open Scope string_scope.
Local Open Scope Z_scope.

(** ** Exceptions and results *)

Inductive exn : Type :=
  | ValueError (msg : string)
  | TypeError (msg : string)
  | AttributeError (msg : string)
  | OverflowError (msg : string)
  | StreamlitAPIException (msg : string).

(** [str(e)] of an exception built with one message argument. *)
Definition exn_str (e : exn) : string :=
  match e with
  | ValueError m | TypeError m | AttributeError m
  | OverflowError m | StreamlitAPIException m => m
  end.

Inductive result (A : Type) : Type :=
  | Ok (a : A)
  | Raise (e : exn).
Arguments Ok {A} a.
Arguments Raise {A} e.

(** [result] is the error monad: [x ← r; k] runs [k] unless [r] raised. *)
#[global] Instance result_ret : MRet result := @Ok.
#[global] Instance result_bind : MBind result := fun A B k r =>
  match r with
  | Ok a => k a
  | Raise e => Raise e
  end.

Definition raises {A} (r : result A) : bool :=
  match r with Ok _ => false | Raise _ => true end.

(** ** Python strings *)

Module PyStr.

Definition code (c : ascii) : Z := Z.of_N (N_of_ascii c).

Definition in_range (lo hi : Z) (c : ascii) : bool :=
  (lo <=? code c) && (code c <=? hi).

(** [str.isspace] on one character (code points below 256): the
    separators of [str.split()] without argument. *)
Definition isspace (c : ascii) : bool :=
  in_range 9 13 c || in_range 28 32 c || (code c =? 133) || (code c =? 160).

(** The white space that [int()] and [float()] strip from both ends of a
    [str]: the C white space, and the non-ASCII spaces, which CPython
    first rewrites to a blank. *)
Definition is_strip_space (c : ascii) : bool :=
  in_range 9 13 c || (code c =? 32) || (code c =? 133) || (code c =? 160).

Definition isdigit (c : ascii) : bool := in_range 48 57 c.
Definition digit_value (c : ascii) : Z := code c - 48.

(** [s + c] for a one-character [c]. *)
Definition snoc (s : string) (c : ascii) : string := s ++ String c "".

(** The word in progress, if any, becomes an item of the result. *)
Definition flush (cur : option string) : list string :=
  match cur with
  | Some w => [w]
  | None => []
  end.

(** [s.split()]: the maximal runs of characters that are not white
    space, in order; no item is empty. [cur] is the run in progress. *)
Fixpoint split_from (cur : option string) (s : string) : list string :=
  match s with
  | "" => flush cur
  | String c s' =>
      if isspace c then flush cur ++ split_from None s'
      else split_from (Some (snoc (default "" cur) c)) s'
  end.

Definition split (s : string) : list string := split_from None s.

(** [sep in s] for a one-character [sep]. *)
Fixpoint contains (sep : ascii) (s : string) : bool :=
  match s with
  | "" => false
  | String c s' => Ascii.eqb c sep || contains sep s'
  end.

(** [s.count(sep)] for a one-character [sep]. *)
Fixpoint count (sep : ascii) (s : string) : nat :=
  match s with
  | "" => O
  | String c s' => if Ascii.eqb c sep then S (count sep s') else count sep s'
  end.

(** [s.split(sep)] for a one-character [sep]: every occurrence of [sep]
    cuts, so [n] occurrences give [n + 1] items (some may be empty). *)
Fixpoint split_on (sep : ascii) (s : string) : list string :=
  match s with
  | "" => [""]
  | String c s' =>
      if Ascii.eqb c sep then "" :: split_on sep s'
      else match split_on sep s' with
           | w :: ws => String c w :: ws
           | [] => [String c ""]
           end
  end.

Fixpoint lstrip (s : string) : string :=
  match s with
  | "" => ""
  | String c s' => if is_strip_space c then lstrip s' else s
  end.

Fixpoint rstrip (s : string) : string :=
  match s with
  | "" => ""
  | String c s' =>
      match rstrip s' with
      | "" => if is_strip_space c then "" else String c ""
      | r => String c r
      end
  end.

Definition strip (s : string) : string := rstrip (lstrip s).

(** The default of [sys.get_int_max_str_digits()] (CPython 3.11). *)
Definition int_max_str_digits : nat := 4300.

(** The digits of a base-10 literal, with single underscores allowed
    between digits only. [prev_us] says that the previous character was
    an underscore (or that no character was read yet); [acc] is the value
    and [ndig] the number of digits read so far. *)
Fixpoint int_digits (prev_us : bool) (acc : Z) (ndig : nat) (s : string)
  : option (Z * nat) :=
  match s with
  | "" => if prev_us then None else Some (acc, ndig)
  | String c s' =>
      if isdigit c then int_digits false (10 * acc + digit_value c) (S ndig) s'
      else if Ascii.eqb c "_" then
        if prev_us then None else int_digits true acc ndig s'
      else None
  end.

(** A leading sign: [(negative, rest)]. *)
Definition take_sign (s : string) : bool * string :=
  match s with
  | String "-" s' => (true, s')
  | String "+" s' => (false, s')
  | _ => (false, s)
  end.

(** [int(s)] for a [str] [s]: [None] is [ValueError]. *)
Definition py_int (s : string) : option Z :=
  let (neg, body) := take_sign (strip s) in
  match int_digits true 0 0 body with
  | Some (n, ndig) =>
      if (int_max_str_digits <? ndig)%nat then None
      else Some (if neg then - n else n)
  | None => None
  end.

End PyStr.

(** ** The usage-metrics section (streamlit_app.py, lines 296-316) *)

Module Metrics.

(** A value of [metrics_dict]: the [int] or the raw text. *)
Inductive metric_value : Type :=
  | MInt (n : Z)
  | MStr (s : string).

Definition unpack_error : exn :=
  ValueError "too many values to unpack (expected 2)".

(** [try: metrics_dict[key] = int(value)
     except ValueError: metrics_dict[key] = value] *)
Definition coerce (value : string) : metric_value :=
  match PyStr.py_int value with
  | Some n => MInt n
  | None => MStr value
  end.

(** The body of the loop for one [item]. The unpacking
    [key, value = item.split("=")] is outside the [try] and raises when
    the split gives more than two parts. *)
Definition parse_item (metrics_dict : gmap string metric_value) (item : string)
  : result (gmap string metric_value) :=
  if PyStr.contains "=" item then
    match PyStr.split_on "=" item with
    | [key; value] => Ok (<[key := coerce value]> metrics_dict)
    | _ => Raise unpack_error
    end
  else Ok metrics_dict.

Fixpoint parse_items (metrics_dict : gmap string metric_value)
    (items : list string) : result (gmap string metric_value) :=
  match items with
  | [] => Ok metrics_dict
  | item :: rest =>
      d ← parse_item metrics_dict item; parse_items d rest
  end.

(** [metrics_dict = {}; for item in parse_string.split(): ...] *)
Definition parse_metrics (parse_string : string)
  : result (gmap string metric_value) :=
  parse_items ∅ (PyStr.split parse_string).

(** [metrics_dict.get(key, 0)] *)
Definition get0 (metrics_dict : gmap string metric_value) (key : string)
  : metric_value :=
  default (MInt 0) (metrics_dict !! key).

Record token_counts : Type := {
  input_tokens : metric_value;
  output_tokens : metric_value;
  total_tokens : metric_value
}.

Definition extract_counts (metrics_dict : gmap string metric_value)
  : token_counts :=
  {| input_tokens := get0 metrics_dict "prompt_tokens";
     output_tokens := get0 metrics_dict "completion_tokens";
     total_tokens := get0 metrics_dict "total_tokens" |}.

(** Lines 296-316 as one function of [str(metrics)]. *)
Definition ingest (metrics_str : string) : result token_counts :=
  d ← parse_metrics metrics_str; Ok (extract_counts d).

End Metrics.

(** ** Python floats

    A Python [float] is an IEEE 754 binary64 number, here a
    [spec_float] with [prec = 53] and [emax = 1024]; conversions round to
    nearest, ties to even, as CPython's do. *)

Module PyFloat.

Definition prec : Z := 53.
Definition emax : Z := 1024.

(** The binary64 number nearest to the integer [n]. *)
Definition of_Z (n : Z) : spec_float := binary_normalize prec emax n 0 false.

Definition zero : spec_float := S754_zero false.
Definition add : spec_float -> spec_float -> spec_float := SFadd prec emax.
Definition div : spec_float -> spec_float -> spec_float := SFdiv prec emax.
Definition ltb : spec_float -> spec_float -> bool := SFltb.
Definition leb : spec_float -> spec_float -> bool := SFleb.
Definition eqb : spec_float -> spec_float -> bool := SFeqb.

Definition is_nan (f : spec_float) : bool :=
  match f with S754_nan => true | _ => false end.

(** [float(n)] for an [int] [n]. *)
Definition of_int (n : Z) : result spec_float :=
  match of_Z n with
  | S754_infinity _ => Raise (OverflowError "int too large to convert to float")
  | f => Ok f
  end.

(** The binary64 number nearest to [(-1)^neg * d * 10^e], for [0 <= d]:
    an integer is rounded directly, a quotient [d / 10^(-e)] is rounded
    from its integer quotient and the position of the remainder. An
    overflow gives an infinity, an underflow a zero. *)
Definition of_decimal (neg : bool) (d e : Z) : spec_float :=
  if d =? 0 then S754_zero neg
  else if 0 <=? e then
    binary_normalize prec emax ((if neg then -1 else 1) * (d * 10 ^ e)) 0 false
  else
    let '(q, e', loc) := SFdiv_core_binary prec emax d 0 (10 ^ (- e)) 0 in
    binary_round_aux prec emax neg q e' loc.

(** The maximal prefix of digits of [s]: the value [10^k * acc + digits],
    the number [k] of digits read, and the rest. *)
Fixpoint take_digits (acc : Z) (s : string) : Z * nat * string :=
  match s with
  | String c s' =>
      if PyStr.isdigit c then
        let '(v, k, r) := take_digits (10 * acc + PyStr.digit_value c) s' in
        (v, S k, r)
      else (acc, O, s)
  | "" => (acc, O, "")
  end.

Definition is_exp_mark (c : ascii) : bool := Ascii.eqb c "e" || Ascii.eqb c "E".

(** An unsigned decimal literal [digits [. digits] [(e|E) [sign] digits]]
    with at least one digit before the exponent: the pair [(d, e)] of
    its value [d * 10^e]. The whole of [s] must be the literal. *)
Definition parse_decimal (s : string) : option (Z * Z) :=
  let '(ip, ni, r1) := take_digits 0 s in
  let '(d, nf, r2) :=
    match r1 with
    | String "." r => take_digits ip r
    | _ => (ip, O, r1)
    end in
  if (ni + nf =? 0)%nat then None
  else match r2 with
       | "" => Some (d, - Z.of_nat nf)
       | String c r3 =>
           if is_exp_mark c then
             let (eneg, r4) := PyStr.take_sign r3 in
             let '(ex, ne, r5) := take_digits 0 r4 in
             if (ne =? 0)%nat then None
             else match r5 with
                  | "" => Some (d, (if eneg then - ex else ex) - Z.of_nat nf)
                  | _ => None
                  end
           else None
       end.

(** ASCII lower case of one character. *)
Definition lower (c : ascii) : ascii :=
  if PyStr.in_range 65 90 c then ascii_of_N (N_of_ascii c + 32) else c.

Fixpoint lower_str (s : string) : string :=
  match s with
  | "" => ""
  | String c s' => String (lower c) (lower_str s')
  end.

(** The literal without its underscores; [None] when an underscore is
    not between two digits. [prev] is the previous character. *)
Fixpoint drop_underscores (prev : option ascii) (s : string) : option string :=
  match s with
  | "" =>
      match prev with
      | Some "_"%char => None
      | _ => Some ""
      end
  | String c s' =>
      if Ascii.eqb c "_" then
        match prev with
        | Some p => if PyStr.isdigit p then drop_underscores (Some c) s' else None
        | None => None
        end
      else
        match prev with
        | Some "_"%char =>
            if PyStr.isdigit c then String c <$> drop_underscores (Some c) s'
            else None
        | _ => String c <$> drop_underscores (Some c) s'
        end
  end.

(** [float(s)] for a [str] [s]: [None] is [ValueError]. *)
Definition of_string (s : string) : option spec_float :=
  body ← drop_underscores None (PyStr.strip s);
  let (neg, num) := PyStr.take_sign body in
  let word := lower_str num in
  if String.eqb word "inf" || String.eqb word "infinity" then
    Some (S754_infinity neg)
  else if String.eqb word "nan" then Some S754_nan
  else match parse_decimal num with
       | Some (d, e) => Some (of_decimal neg d e)
       | None => None
       end.

End PyFloat.

(** ** JSON values: what [json.loads] returns

    [json.loads] gives [None], [bool], [int], [str], [list] and [dict]
    objects, and [float] objects for numbers written with a fraction or an
    exponent. The schema of a lead has no such number, and this model
    leaves them out: a JSON number is an [int]. A [dict] keeps its items
    in insertion order, and its keys are distinct. *)

Module Json.

#[local] Unset Elimination Schemes.
Inductive json : Type :=
  | JNull
  | JBool (b : bool)
  | JInt (n : Z)
  | JStr (s : string)
  | JList (l : list json)
  | JDict (d : list (string * json)).
#[local] Set Elimination Schemes.

Abbreviation dict := (list (string * json)).

(** [type(v).__name__] *)
Definition type_name (v : json) : string :=
  match v with
  | JNull => "NoneType"
  | JBool _ => "bool"
  | JInt _ => "int"
  | JStr _ => "str"
  | JList _ => "list"
  | JDict _ => "dict"
  end.

(** [isinstance(v, dict)] *)
Definition is_dict (v : json) : bool :=
  match v with JDict _ => true | _ => false end.

(** [bool(v)] *)
Definition truthy (v : json) : bool :=
  match v with
  | JNull => false
  | JBool b => b
  | JInt n => negb (n =? 0)
  | JStr s => negb (String.eqb s "")
  | JList l => match l with [] => false | _ => true end
  | JDict d => match d with [] => false | _ => true end
  end.

(** [d[key]] when [key in d]. *)
Fixpoint lookup (d : dict) (key : string) : option json :=
  match d with
  | [] => None
  | (k, v) :: d' => if String.eqb k key then Some v else lookup d' key
  end.

(** [d.get(key, dflt)] *)
Definition get (d : dict) (key : string) (dflt : json) : json :=
  default dflt (lookup d key).

Definition nl : string := String (ascii_of_nat 10) "".
Definition dquote : ascii := ascii_of_nat 34.
Definition squote : ascii := ascii_of_nat 39.
Definition backslash : ascii := ascii_of_nat 92.

Definition hex_digit (n : Z) : ascii :=
  if n <? 10 then ascii_of_N (Z.to_N (48 + n)) else ascii_of_N (Z.to_N (87 + n)).

(** Two lower-case hexadecimal digits of a code point below 256. *)
Definition hex2 (c : ascii) : string :=
  String (hex_digit (PyStr.code c / 16)) (String (hex_digit (PyStr.code c mod 16)) "").

(** [str(n)] for an [int]. *)
Definition str_of_Z (n : Z) : string :=
  DecimalString.NilEmpty.string_of_int (Z.to_int n).

(** [str.isprintable] on one character (code points below 256). *)
Definition isprintable (c : ascii) : bool :=
  PyStr.in_range 32 126 c
  || (PyStr.in_range 161 255 c && negb (PyStr.code c =? 173)).

(** One character of [repr(s)], inside the quotes [q]. *)
Definition repr_char (q c : ascii) : string :=
  if Ascii.eqb c q || Ascii.eqb c backslash then String backslash (String c "")
  else if PyStr.code c =? 9 then String backslash "t"
  else if PyStr.code c =? 10 then String backslash "n"
  else if PyStr.code c =? 13 then String backslash "r"
  else if isprintable c then String c ""
  else String backslash (String "x" (hex2 c)).

Fixpoint repr_chars (q : ascii) (s : string) : string :=
  match s with
  | "" => ""
  | String c s' => repr_char q c ++ repr_chars q s'
  end.

(** [repr(s)] for a [str]: single quotes, unless the text has a single
    quote and no double quote. *)
Definition repr_str (s : string) : string :=
  let q := if PyStr.contains squote s && negb (PyStr.contains dquote s)
           then dquote else squote in
  String q (repr_chars q s ++ String q "").

(** [sep.join(items)] *)
Fixpoint join (sep : string) (items : list string) : string :=
  match items with
  | [] => ""
  | [x] => x
  | x :: rest => x ++ sep ++ join sep rest
  end.

(** [repr(v)] *)
Fixpoint repr (v : json) : string :=
  match v with
  | JNull => "None"
  | JBool true => "True"
  | JBool false => "False"
  | JInt n => str_of_Z n
  | JStr s => repr_str s
  | JList l => "[" ++ join ", " (map repr l) ++ "]"
  | JDict d =>
      "{" ++ join ", " (map (fun kv => repr_str (fst kv) ++ ": " ++ repr (snd kv)) d)
          ++ "}"
  end.

(** [str(v)], which is what an f-string field [{v}] gives. *)
Definition str (v : json) : string :=
  match v with
  | JStr s => s
  | _ => repr v
  end.

(** [float(v)] *)
Definition py_float (v : json) : result spec_float :=
  match v with
  | JBool b => Ok (PyFloat.of_Z (if b then 1 else 0))
  | JInt n => PyFloat.of_int n
  | JStr s =>
      match PyFloat.of_string s with
      | Some f => Ok f
      | None =>
          Raise (ValueError ("could not convert string to float: " ++ repr_str s))
      end
  | _ =>
      Raise (TypeError ("float() argument must be a string or a real number, not '"
                        ++ type_name v ++ "'"))
  end.

(** The [dict] items met by [for person in v: if isinstance(person, dict)].
    A [list] gives its items, a [str] its characters and a [dict] its keys,
    none of which is a [dict]; the other objects are not iterable. *)
Definition iter_dicts (v : json) : result (list dict) :=
  match v with
  | JList l =>
      Ok (omap (fun x => match x with JDict d => Some d | _ => None end) l)
  | JStr _ | JDict _ => Ok []
  | _ => Raise (TypeError ("'" ++ type_name v ++ "' object is not iterable"))
  end.

End Json.

(** ** [list.sort] (CPython, Objects/listobject.c)

    The sort compares keys with [<] only. It takes the natural run at
    the front of the list ([count_run]; a strictly descending run is
    reversed in place) and inserts every later item into the sorted
    front by binary search ([binarysort]). This is the whole algorithm
    for a list of fewer than 64 items; a longer list is cut into such
    runs, which are then merged, and the result is the same list whenever
    [<] is a strict weak order on the keys. *)

Module ListSort.

Section Sort.

Context {A : Type} (lt : A -> A -> bool).

(** The rest of a run after [prev]: the items go on while [x < prev]
    agrees with [desc]. *)
Fixpoint take_run (desc : bool) (prev : A) (l : list A) : list A * list A :=
  match l with
  | [] => ([], [])
  | x :: l' =>
      if Bool.eqb (lt x prev) desc then
        let (run, rest) := take_run desc x l' in (x :: run, rest)
      else ([], l)
  end.

(** The natural run at the front, in ascending order, and the rest. *)
Definition count_run (l : list A) : list A * list A :=
  match l with
  | x :: y :: l' =>
      let desc := lt y x in
      let (run, rest) := take_run desc y l' in
      if desc then (rev (x :: y :: run), rest) else (x :: y :: run, rest)
  | _ => (l, [])
  end.

(** The binary search of [binarysort]: with [l < r],
    [p = l + ((r - l) >> 1)]; [pivot < a[p]] moves [r] to [p], otherwise
    [l] moves to [p + 1]; the loop ends when [l = r]. *)
Fixpoint bisect (fuel : nat) (a : list A) (pivot : A) (l r : nat) : nat :=
  match fuel with
  | O => l
  | S fuel' =>
      if (l <? r)%nat then
        let p := (l + (r - l) / 2)%nat in
        match a !! p with
        | Some x =>
            if lt pivot x then bisect fuel' a pivot l p
            else bisect fuel' a pivot (S p) r
        | None => l
        end
      else l
  end.

(** [pivot] goes to the place found in the sorted front [a]. *)
Definition insert_pivot (a : list A) (pivot : A) : list A :=
  let i := bisect (S (length a)) a pivot 0 (length a) in
  take i a ++ pivot :: drop i a.

Definition binarysort (front rest : list A) : list A :=
  fold_left insert_pivot rest front.

Definition sort (l : list A) : list A :=
  let (run, rest) := count_run l in binarysort run rest.

End Sort.

(** An item with its key. *)
Definition with_key {A K : Type} (key : A -> result K) (x : A) : result (K * A) :=
  k ← key x; Ok (k, x).

(** [sorted(l, key=key, reverse=reverse)]: the keys are computed first,
    in order, and an exception of [key] ends the call. A reverse sort
    reverses the list, sorts it, and reverses the result. *)
Definition py_sorted {A K : Type} (lt : K -> K -> bool) (key : A -> result K)
    (reverse : bool) (l : list A) : result (list A) :=
  keyed ← mapM (with_key key) l;
  let input := if reverse then rev keyed else keyed in
  let output := sort (fun a b => lt (fst a) (fst b)) input in
  Ok (map snd (if reverse then rev output else output)).

End ListSort.

(** ** The record schema (crew.py, [LeadOutput]) *)

Module Schema.
Import Json.

(** Every field is [Optional[...]]: [None] stands for a null field. *)
Record LeadOutput : Type := {
  company_name : option string;
  annual_revenue : option string;
  location : option (list (string * string));
  website_url : option string;
  review : option string;
  num_employees : option Z;
  key_decision_makers : option (list (list (string * string)));
  score : option Z
}.

Definition declared_fields : list string :=
  ["company_name"; "annual_revenue"; "location"; "website_url"; "review";
   "num_employees"; "key_decision_makers"; "score"].

Definition opt {A} (f : A -> json) (o : option A) : json :=
  match o with
  | Some a => f a
  | None => JNull
  end.

Definition str_dict (d : list (string * string)) : json :=
  JDict (map (fun kv => (fst kv, JStr (snd kv))) d).

(** The structure of a record ([model_dump]): one item per declared
    field, in the order of declaration, [null] for [None]. *)
Definition model_dump (r : LeadOutput) : Json.dict :=
  [("company_name", opt JStr (company_name r));
   ("annual_revenue", opt JStr (annual_revenue r));
   ("location", opt str_dict (location r));
   ("website_url", opt JStr (website_url r));
   ("review", opt JStr (review r));
   ("num_employees", opt JInt (num_employees r));
   ("key_decision_makers", opt (fun l => JList (map str_dict l)) (key_decision_makers r));
   ("score", opt JInt (score r))].

(** The structures of a sequence of records. *)
Definition dump_all (records : list LeadOutput) : list json :=
  map (fun r => JDict (model_dump r)) records.

End Schema.

(** ** The result section of the script (streamlit_app.py, lines 153-281) *)

Module App.
Import Json.

(** The widgets whose content depends on the results; a text field of
    a widget is the text put into the hole of the f-string. *)
Inductive color : Type := Green | Orange | Gray.

Inductive widget : Type :=
  | MetricTotalLeads (total_leads : nat)
  | MetricAverageScore (avg_score : spec_float)
  | MetricHighQuality (count : nat)
  | Expander (idx : nat) (company_name score : string)
  | Header (header_color : color) (company_name : string)
  | AnnualRevenue (text : string)
  | Location (text : string)
  | Website (link : option string)
  | NumEmployees (text : string)
  | MatchScore (text : string)
  | Progress (value : spec_float)
  | BusinessOverview (body : json)
  | Recommendations (body : json)
  | DecisionMakersHeading
  | DecisionMaker (name role : string) (linkedin : option string)
  | RawData (results_list : list json).

(** Code that draws widgets and may raise: the widgets drawn so far stay
    on the page when an exception ends the block. *)
Definition ui (A : Type) : Type := (list widget * result A)%type.

#[global] Instance ui_ret : MRet ui := fun A a => ([], Ok a).
#[global] Instance ui_bind : MBind ui := fun A B k m =>
  match m with
  | (w, Ok a) => let (w', r) := k a in ((w ++ w')%list, r)
  | (w, Raise e) => (w, Raise e)
  end.

Definition emit (w : widget) : ui unit := ([w], Ok tt).
Definition lift {A} (r : result A) : ui A := ([], r).

(** [float(lead.get('score', 0))] *)
Definition lead_score (lead : dict) : result spec_float :=
  py_float (get lead "score" (JInt 0)).

(** [sum(float(lead.get('score', 0)) for lead in results_list
         if isinstance(lead, dict))], from [acc]. *)
Fixpoint sum_scores (acc : spec_float) (l : list json) : result spec_float :=
  match l with
  | [] => Ok acc
  | JDict lead :: rest =>
      s ← lead_score lead; sum_scores (PyFloat.add acc s) rest
  | _ :: rest => sum_scores acc rest
  end.

(** Line 159. The [int] results ([0] for an empty sum or an empty list)
    are written as the [float] of the same value. *)
Definition avg_score (results_list : list json) : result spec_float :=
  let total_leads := length results_list in
  if (0 <? total_leads)%nat then
    total ← sum_scores PyFloat.zero results_list;
    Ok (PyFloat.div total (PyFloat.of_Z (Z.of_nat total_leads)))
  else Ok PyFloat.zero.

(** Line 168: the leads with [float(lead.get('score', 0)) >= 7]. *)
Fixpoint high_quality (l : list json) : result nat :=
  match l with
  | [] => Ok O
  | JDict lead :: rest =>
      s ← lead_score lead;
      n ← high_quality rest;
      Ok (if PyFloat.leb (PyFloat.of_Z 7) s then S n else n)
  | _ :: rest => high_quality rest
  end.

(** The sort key of line 173; the [int] key [0] of an item that is not a
    [dict] compares with a [float] as [0.0] does. *)
Definition sort_key (x : json) : result spec_float :=
  match x with
  | JDict lead => lead_score lead
  | _ => Ok PyFloat.zero
  end.

(** Lines 171-175. *)
Definition sort_leads (results_list : list json) : result (list json) :=
  ListSort.py_sorted PyFloat.ltb sort_key true results_list.

Definition header_color_of (score : spec_float) : color :=
  if PyFloat.leb (PyFloat.of_Z 8) score then Green
  else if PyFloat.leb (PyFloat.of_Z 6) score then Orange
  else Gray.

(** [st.progress(value)] for a [float]: Streamlit raises unless
    [0.0 <= value <= 1.0] (the message goes on with the value). *)
Definition st_progress (value : spec_float) : ui unit :=
  if PyFloat.leb PyFloat.zero value && PyFloat.leb value (PyFloat.of_Z 1)
  then emit (Progress value)
  else lift (Raise (StreamlitAPIException
                      "Progress Value has invalid value [0.0, 1.0]")).

(** Lines 201-205. *)
Definition location_text (lead : dict) : string :=
  match get lead "location" (JDict []) with
  | JDict location =>
      str (get location "city" (JStr "N/A")) ++ ", "
      ++ str (get location "country" (JStr "N/A"))
  | location => str (if truthy location then location else JStr "N/A")
  end.

(** [x if x != sentinel else None], for a [str] sentinel. *)
Definition unless (sentinel : string) (v : json) : option string :=
  match v with
  | JStr s => if String.eqb s sentinel then None else Some s
  | _ => Some (str v)
  end.

(** Lines 229-234, for one [person] that is a [dict]. *)
Definition render_person (person : dict) : ui unit :=
  emit (DecisionMaker (str (get person "name" (JStr "N/A")))
                      (str (get person "role" (JStr "N/A")))
                      (unless "#" (get person "linkedin" (JStr "#")))).

Fixpoint render_people (people : list dict) : ui unit :=
  match people with
  | [] => mret tt
  | person :: rest => render_person person;; render_people rest
  end.

(** Lines 224-234. *)
Definition render_decision_makers (lead : dict) : ui unit :=
  let kdm := get lead "key_decision_makers" (JList []) in
  if truthy kdm then
    emit DecisionMakersHeading;;
    people ← lift (iter_dicts kdm);
    render_people people
  else mret tt.

(** Lines 183-234: the expander of one lead that is a [dict]. *)
Definition render_lead (idx : nat) (lead : dict) : ui unit :=
  emit (Expander idx (str (get lead "company_name" (JStr "Unknown Company")))
                     (str (get lead "score" (JStr "N/A"))));;
  score ← lift (lead_score lead);
  emit (Header (header_color_of score) (str (get lead "company_name" (JStr "N/A"))));;
  emit (AnnualRevenue (str (get lead "annual_revenue" (JStr "N/A"))));;
  emit (Location (location_text lead));;
  emit (Website (unless "N/A" (get lead "website_url" (JStr "N/A"))));;
  emit (NumEmployees (str (get lead "num_employees" (JStr "N/A"))));;
  emit (MatchScore (str (get lead "score" (JStr "N/A"))));;
  progress ← lift (lead_score lead);
  st_progress (PyFloat.div progress (PyFloat.of_Z 10));;
  emit (BusinessOverview (get lead "review" (JStr "N/A")));;
  match lookup lead "recommendations" with
  | Some r => emit (Recommendations r)
  | None => mret tt
  end;;
  render_decision_makers lead.

(** Lines 178-234: [for idx, lead in enumerate(results_list, 1)], the
    items that are not a [dict] being passed over. *)
Fixpoint render_from (idx : nat) (l : list json) : ui unit :=
  match l with
  | [] => mret tt
  | JDict lead :: rest => render_lead idx lead;; render_from (S idx) rest
  | _ :: rest => render_from (S idx) rest
  end.

(** Lines 157-238, for a non-empty [results_list]: the metrics, the sort,
    the leads and the raw data. The value is the sorted list, which is
    what [results_list] holds afterwards. *)
Definition display (results_list : list json) : ui (list json) :=
  avg ← lift (avg_score results_list);
  emit (MetricTotalLeads (length results_list));;
  emit (MetricAverageScore avg);;
  high ← lift (high_quality results_list);
  emit (MetricHighQuality high);;
  sorted ← lift (sort_leads results_list);
  render_from 1 sorted;;
  emit (RawData sorted);;
  mret sorted.

(** The leads that got their expander. *)
Definition rendered (w : list widget) : list (nat * string) :=
  omap (fun x => match x with Expander idx name _ => Some (idx, name) | _ => None end) w.

End App.

(** ** The downloadable report (streamlit_app.py, lines 246-274) *)

Module Report.
Import Json.

Fixpoint spaces (n : nat) : string :=
  match n with
  | O => ""
  | S n' => String " " (spaces n')
  end.

(** One character of a JSON string, as [json.dumps] writes it with
    [ensure_ascii]: a short escape, the character itself from the blank
    to the tilde, or [\u00XX]. *)
Definition escape_char (c : ascii) : string :=
  if Ascii.eqb c dquote || Ascii.eqb c backslash then String backslash (String c "")
  else if PyStr.code c =? 8 then String backslash "b"
  else if PyStr.code c =? 12 then String backslash "f"
  else if PyStr.code c =? 10 then String backslash "n"
  else if PyStr.code c =? 13 then String backslash "r"
  else if PyStr.code c =? 9 then String backslash "t"
  else if PyStr.in_range 32 126 c then String c ""
  else String backslash ("u00" ++ hex2 c).

Fixpoint escape (s : string) : string :=
  match s with
  | "" => ""
  | String c s' => escape_char c ++ escape s'
  end.

Definition encode_str (s : string) : string :=
  String dquote (escape s ++ String dquote "").

(** [json.dumps(v, indent=2)], for a value at nesting depth [level]: an
    empty container on one line, otherwise one item per line, two more
    blanks per level. *)
Fixpoint dumps_at (level : nat) (v : json) : string :=
  let inner := nl ++ spaces (2 * S level) in
  let close := nl ++ spaces (2 * level) in
  match v with
  | JNull => "null"
  | JBool true => "true"
  | JBool false => "false"
  | JInt n => str_of_Z n
  | JStr s => encode_str s
  | JList [] => "[]"
  | JList l =>
      "[" ++ inner ++ join ("," ++ inner) (map (dumps_at (S level)) l) ++ close ++ "]"
  | JDict [] => "{}"
  | JDict d =>
      "{" ++ inner
      ++ join ("," ++ inner)
           (map (fun kv => encode_str (fst kv) ++ ": " ++ dumps_at (S level) (snd kv)) d)
      ++ close ++ "}"
  end.

Definition dumps (v : json) : string := dumps_at 0 v.

(** Line 263, for one [person] that is a [dict]. *)
Definition person_line (person : dict) : string :=
  "- " ++ str (get person "name" (JStr "N/A"))
  ++ " (" ++ str (get person "role" (JStr "N/A")) ++ "): "
  ++ str (get person "linkedin" (JStr "N/A")) ++ nl.

(** Lines 258-264. *)
Definition decision_makers (lead : dict) : result string :=
  let kdm := get lead "key_decision_makers" (JList []) in
  if truthy kdm then
    people ← iter_dicts kdm;
    Ok ("### Key Decision Makers" ++ nl
        ++ String.concat "" (map person_line people) ++ nl)
  else Ok "".

(** Lines 250-266: the text added for one item. [lead.get] raises
    [AttributeError] when the item is not a [dict]. *)
Definition lead_section (lead : json) : result string :=
  match lead with
  | JDict d =>
      kdm ← decision_makers d;
      Ok ("## " ++ str (get d "company_name" (JStr "N/A")) ++ nl ++ nl
          ++ "- **Annual Revenue:** " ++ str (get d "annual_revenue" (JStr "N/A")) ++ nl
          ++ "- **Website:** " ++ str (get d "website_url" (JStr "N/A")) ++ nl
          ++ "- **Review:** " ++ str (get d "review" (JStr "N/A")) ++ nl
          ++ "- **Number of Employees:** " ++ str (get d "num_employees" (JStr "N/A")) ++ nl
          ++ "- **Score:** " ++ str (get d "score" (JStr "N/A")) ++ "/10" ++ nl ++ nl
          ++ kdm
          ++ "---" ++ nl ++ nl)
  | _ =>
      Raise (AttributeError ("'" ++ type_name lead ++ "' object has no attribute 'get'"))
  end.

Fixpoint lead_sections (l : list json) : result string :=
  match l with
  | [] => Ok ""
  | lead :: rest =>
      s ← lead_section lead; t ← lead_sections rest; Ok (s ++ t)
  end.

Definition title : string := "# Lead Generation Report" ++ nl ++ nl.
Definition raw_heading : string :=
  nl ++ "## Raw JSON Data" ++ nl ++ nl ++ "```json" ++ nl.
Definition raw_end : string := nl ++ "```" ++ nl.

(** The body of the [try]. *)
Definition build (results_list : list json) : result string :=
  sections ← lead_sections results_list;
  Ok (title ++ sections ++ raw_heading ++ dumps (JList results_list) ++ raw_end).

Definition error_prefix : string := "Error generating report: ".

(** [download_data] after the [try]/[except]. *)
Definition download_data (results_list : list json) : string :=
  match build results_list with
  | Ok text => text
  | Raise e => error_prefix ++ exn_str e
  end.

End Report.

(** ** The run button (streamlit_app.py, lines 110-281) *)

Module Handler.
Import Json.

(** The calls of the handler that depend on its inputs, in order; the
    fixed captions ([st.success], the headings, the status label) are
    left out, and the warning about the key is given without its sign.
    [Kickoff] is the construction of the crew and the call of
    [lead_gen_crew.kickoff], the only place where the agents, and through
    them the search and scrape tools and the model, are invoked. *)
Inductive event : Type :=
  | StError (text : string)
  | StWarning (text : string)
  | Kickoff (industry country : string)
  | Widgets (w : list App.widget)
  | ErrorDisplaying (e : exn)
  | DownloadButton (data file_name : string)
  | StStop.

(** The variable [results_list] when the report is built: the sorted
    list when the display got as far as the sort. *)
Definition results_for_report (results_list : list json) : list json :=
  match App.avg_score results_list, App.high_quality results_list,
        App.sort_leads results_list with
  | Ok _, Ok _, Ok sorted => sorted
  | _, _, _ => results_list
  end.

(** Lines 153-281, once [results_list] is parsed. *)
Definition show_results (industry country : string) (results_list : list json)
  : list event :=
  match results_list with
  | [] => [StWarning "No leads were found in the results"; StStop]
  | _ =>
      let (w, r) := App.display results_list in
      Widgets w
      :: match r with Ok _ => [] | Raise e => [ErrorDisplaying e] end
      ++ [DownloadButton (Report.download_data (results_for_report results_list))
            ("lead_generation_report_" ++ industry ++ "_" ++ country ++ ".md")]
  end.

(** [not s] for a [str]. *)
Definition is_empty (s : string) : bool := String.eqb s "".

(** Lines 110-281. [api_key] is [os.environ.get("OPENAI_API_KEY")];
    [kickoff] stands for the run of the crew and the parse of its last
    raw output into a list. *)
Definition on_run (industry country : string) (api_key : option string)
    (kickoff : string -> string -> result (list json)) : list event :=
  if is_empty industry || is_empty country then
    [StError "Please enter an industry and country"]
  else if is_empty (default "" api_key) then
    [StWarning "Please enter your OpenAI API key in the sidebar to continue"]
  else
    Kickoff industry country
    :: match kickoff industry country with
       | Ok results_list => show_results industry country results_list
       | Raise e => [StError ("An error occurred: " ++ exn_str e); StStop]
       end.

(** The external capabilities invoked by a run. *)
Definition is_invocation (ev : event) : bool :=
  match ev with Kickoff _ _ => true | _ => false end.

Definition invocations (trace : list event) : list event :=
  List.filter is_invocation trace.

End Handler.

(** ** The usage accountant ([src.utils.pricing.ModelsPricing]) *)

Module ModelsPricing.

Section Rates.

(** The static rates per token of the model in use. *)
Variables rate_in rate_out : Q.

(** The counters of one accountant. *)
Record state : Type := {
  input_tokens : Z;
  output_tokens : Z
}.

Record usage_summary : Type := {
  summary_input_tokens : Z;
  summary_output_tokens : Z;
  total_cost : Q
}.

(** Modelled from the spec: [ModelsPricing()], a fresh accountant; the
    class is imported from [src/utils/pricing.py], which is not among the
    sources. *)
Definition fresh : state := {| input_tokens := 0; output_tokens := 0 |}.

(** Modelled from the spec: [track_usage(input_tokens, output_tokens)]
    of the missing [ModelsPricing], which accumulates the counts. *)
Definition track_usage (st : state) (input output : Z) : state :=
  {| input_tokens := input_tokens st + input;
     output_tokens := output_tokens st + output |}.

(** Modelled from the spec: [reset()] of the missing [ModelsPricing]. *)
Definition reset (st : state) : state := fresh.

(** Modelled from the spec: [get_usage_summary()] of the missing
    [ModelsPricing], with
    [total_cost = input_tokens * rate_in + output_tokens * rate_out]. *)
Definition get_usage_summary (st : state) : usage_summary :=
  {| summary_input_tokens := input_tokens st;
     summary_output_tokens := output_tokens st;
     total_cost := (inject_Z (input_tokens st) * rate_in
                    + inject_Z (output_tokens st) * rate_out)%Q |}.

End Rates.

End ModelsPricing.

(** ** Reading the dump back ([json.loads]) *)

Module JsonParse.
Import Json.

(** The white space of JSON. *)
Definition is_ws (c : ascii) : bool :=
  (PyStr.code c =? 32) || (PyStr.code c =? 9) || (PyStr.code c =? 10)
  || (PyStr.code c =? 13).

Fixpoint skip_ws (s : string) : string :=
  match s with
  | String c s' => if is_ws c then skip_ws s' else s
  | "" => ""
  end.

Definition hex_value (c : ascii) : option Z :=
  if PyStr.isdigit c then Some (PyStr.code c - 48)
  else if PyStr.in_range 97 102 c then Some (PyStr.code c - 87)
  else if PyStr.in_range 65 70 c then Some (PyStr.code c - 55)
  else None.

(** The character written [ꯍ], when its code point is below 256. *)
Definition unicode_escape (a b c d : ascii) : option ascii :=
  va ← hex_value a; vb ← hex_value b; vc ← hex_value c; vd ← hex_value d;
  let n := ((va * 16 + vb) * 16 + vc) * 16 + vd in
  if n <? 256 then Some (ascii_of_N (Z.to_N n)) else None.

(** The character written [\e], for a one-letter escape. *)
Definition short_escape (e : ascii) : option ascii :=
  if Ascii.eqb e dquote then Some dquote
  else if Ascii.eqb e backslash then Some backslash
  else if Ascii.eqb e "/" then Some "/"%char
  else if Ascii.eqb e "b" then Some (ascii_of_nat 8)
  else if Ascii.eqb e "f" then Some (ascii_of_nat 12)
  else if Ascii.eqb e "n" then Some (ascii_of_nat 10)
  else if Ascii.eqb e "r" then Some (ascii_of_nat 13)
  else if Ascii.eqb e "t" then Some (ascii_of_nat 9)
  else None.

(** The text of a string after its opening quote, and what follows
    the closing quote. A control character is refused. *)
Fixpoint parse_chars (s : string) : option (string * string) :=
  match s with
  | "" => None
  | String c s' =>
      if Ascii.eqb c dquote then Some ("", s')
      else if Ascii.eqb c backslash then
        match s' with
        | String "u" (String h1 (String h2 (String h3 (String h4 s'')))) =>
            x ← unicode_escape h1 h2 h3 h4;
            '(t, rest) ← parse_chars s'';
            Some (String x t, rest)
        | String e s'' =>
            x ← short_escape e;
            '(t, rest) ← parse_chars s'';
            Some (String x t, rest)
        | "" => None
        end
      else if PyStr.code c <? 32 then None
      else
        '(t, rest) ← parse_chars s';
        Some (String c t, rest)
  end.

Definition starts_fraction (s : string) : bool :=
  match s with
  | String c _ => Ascii.eqb c "." || Ascii.eqb c "e" || Ascii.eqb c "E"
  | "" => false
  end.

Definition leading_zero (s : string) (ndigits : nat) : bool :=
  match s with
  | String "0" _ => (1 <? ndigits)%nat
  | _ => false
  end.

(** A leading minus: [(negative, rest)]. *)
Definition take_minus (s : string) : bool * string :=
  match s with
  | String "-" r => (true, r)
  | _ => (false, s)
  end.

(** An integer (an optional minus, then 0 or digits that do not begin
    with 0) and the rest. A number that goes on
    with a fraction or an exponent is a [float], which this model does
    not have; the integer is converted by [int], with its limit. *)
Definition parse_number (s : string) : option (Z * string) :=
  let (neg, body) := take_minus s in
  let '(v, ndigits, rest) := PyFloat.take_digits 0 body in
  if (ndigits =? 0)%nat || leading_zero body ndigits || starts_fraction rest
     || (PyStr.int_max_str_digits <? ndigits)%nat
  then None
  else Some (if neg then - v else v, rest).

(** [d[key] = v] *)
Fixpoint dict_set (d : dict) (key : string) (v : json) : dict :=
  match d with
  | [] => [(key, v)]
  | (k, x) :: d' =>
      if String.eqb k key then (k, v) :: d' else (k, x) :: dict_set d' key v
  end.

(** [dict(pairs)] *)
Definition dict_of_pairs (pairs : list (string * json)) : dict :=
  fold_left (fun d kv => dict_set d (fst kv) (snd kv)) pairs [].

(** [s] without the prefix [p]. *)
Fixpoint strip_prefix (p s : string) : option string :=
  match p with
  | "" => Some s
  | String a p' =>
      match s with
      | String b s' => if Ascii.eqb a b then strip_prefix p' s' else None
      | "" => None
      end
  end.

(** What follows the character [c] at the head of [s]. *)
Definition head_is (c : ascii) (s : string) : option string :=
  match s with
  | String x r => if Ascii.eqb x c then Some r else None
  | "" => None
  end.

(** A value at the start of [s], after white space, and the rest.
    [fuel] bounds the number of values and items read. *)
Fixpoint parse_value (fuel : nat) (s : string) : option (json * string) :=
  match fuel with
  | O => None
  | S fuel' =>
      match skip_ws s with
      | "" => None
      | String c r as s' =>
          if Ascii.eqb c "[" then
            match head_is "]" (skip_ws r) with
            | Some r' => Some (JList [], r')
            | None => '(l, r') ← parse_items fuel' r; Some (JList l, r')
            end
          else if Ascii.eqb c "{" then
            match head_is "}" (skip_ws r) with
            | Some r' => Some (JDict [], r')
            | None =>
                '(d, r') ← parse_members fuel' r;
                Some (JDict (dict_of_pairs d), r')
            end
          else if Ascii.eqb c dquote then
            '(t, r') ← parse_chars r; Some (JStr t, r')
          else if Ascii.eqb c "n" then
            r' ← strip_prefix "null" s'; Some (JNull, r')
          else if Ascii.eqb c "t" then
            r' ← strip_prefix "true" s'; Some (JBool true, r')
          else if Ascii.eqb c "f" then
            r' ← strip_prefix "false" s'; Some (JBool false, r')
          else
            '(n, r') ← parse_number s'; Some (JInt n, r')
      end
  end
with parse_items (fuel : nat) (s : string) : option (list json * string) :=
  match fuel with
  | O => None
  | S fuel' =>
      '(v, r) ← parse_value fuel' s;
      match head_is "," (skip_ws r) with
      | Some r' => '(l, r'') ← parse_items fuel' r'; Some (v :: l, r'')
      | None =>
          match head_is "]" (skip_ws r) with
          | Some r' => Some ([v], r')
          | None => None
          end
      end
  end
with parse_members (fuel : nat) (s : string)
  : option (list (string * json) * string) :=
  match fuel with
  | O => None
  | S fuel' =>
      r0 ← head_is dquote (skip_ws s);
      '(key, r1) ← parse_chars r0;
      r2 ← head_is ":" (skip_ws r1);
      '(v, r3) ← parse_value fuel' r2;
      match head_is "," (skip_ws r3) with
      | Some r4 => '(d, r5) ← parse_members fuel' r4; Some ((key, v) :: d, r5)
      | None =>
          match head_is "}" (skip_ws r3) with
          | Some r4 => Some ([(key, v)], r4)
          | None => None
          end
      end
  end.

(** [json.loads(s)]: [None] stands for an exception, and for a value
    with a [float] or with a character above code point 255. *)
Definition loads (s : string) : option json :=
  '(v, rest) ← parse_value (String.length s) s;
  match skip_ws rest with
  | "" => Some v
  | _ => None
  end.

End JsonParse.

(** ** Reading the report back *)

Module Extract.
Import Json.

Definition has_prefix (p s : string) : bool := String.prefix p s.

Fixpoint drop_chars (n : nat) (s : string) : string :=
  match n, s with
  | S n', String _ s' => drop_chars n' s'
  | _, _ => s
  end.

(** What follows the last occurrence of [marker] in [text]. *)
Fixpoint after_last (marker text : string) : option string :=
  match text with
  | "" => None
  | String _ text' =>
      match after_last marker text' with
      | Some r => Some r
      | None =>
          if has_prefix marker text
          then Some (drop_chars (String.length marker) text)
          else None
      end
  end.

(** [text] without [suffix] at its end. *)
Fixpoint before_suffix (suffix text : string) : option string :=
  if String.eqb text suffix then Some ""
  else match text with
       | "" => None
       | String c text' => String c <$> before_suffix suffix text'
       end.

(** Modelled from the spec: the extraction of the structured dump
    embedded in a report, which the repository does not have. The dump
    is what stands between the last heading of the raw data with its
    opening fence and the closing fence at the end of the text, read
    as JSON; it has to be a list. *)
Definition extract_dump (text : string) : option (list json) :=
  rest ← after_last Report.raw_heading text;
  body ← before_suffix Report.raw_end rest;
  match JsonParse.loads body with
  | Some (JList l) => Some l
  | _ => None
  end.

End Extract.

(** ** The rank of a float (used to state the order of the floats) *)

Module FloatRank.

(** A number that is not a NaN, placed in three integers compared from
    left to right: the class (infinities, sign, zero), then the exponent,
    then the mantissa. *)
Definition rank (f : spec_float) : Z * Z * Z :=
  match f with
  | S754_infinity true => (-2, 0, 0)
  | S754_finite true m e => (-1, - e, - Z.pos m)
  | S754_zero _ | S754_nan => (0, 0, 0)
  | S754_finite false m e => (1, e, Z.pos m)
  | S754_infinity false => (2, 0, 0)
  end.

Definition lex_lt (a b : Z * Z * Z) : Prop :=
  let '(a1, a2, a3) := a in
  let '(b1, b2, b3) := b in
  a1 < b1 \/ (a1 = b1 /\ (a2 < b2 \/ (a2 = b2 /\ a3 < b3))).

End FloatRank.

(** ** Classes of leads, used to state the properties *)

Module Leads.
Import Json.

(** The lead has the score [k]: its sort key is the float [k]. *)
Definition has_score (k : spec_float) (x : json) : bool :=
  match App.sort_key x with
  | Ok f => PyFloat.eqb f k
  | Raise _ => false
  end.

(** The sort key of the item is a number: [float] converts the score,
    and not to a NaN. *)
Definition number_key (x : json) : bool :=
  match App.sort_key x with
  | Ok f => negb (PyFloat.is_nan f)
  | Raise _ => false
  end.

Definition lead (name : string) (score : json) : json :=
  JDict [("company_name", JStr name); ("score", score)].

Definition company (x : json) : string :=
  match x with
  | JDict d => str (get d "company_name" (JStr "N/A"))
  | _ => ""
  end.

(** Seven leads, the fourth with a score that [float] converts to a
    NaN; the first and the third have the same score. *)
Definition nan_leads : list json :=
  [lead "A" (JInt 2); lead "Z" (JInt 0); lead "B" (JInt 2);
   lead "C" (JStr "nan"); lead "D" (JInt 9); lead "E" (JInt 9);
   lead "F" (JInt 1)].

End Leads.

(** ** What the display needs from an item *)

Module Drawable.
Import Json.

(** [st.progress] accepts the score divided by 10. *)
Definition progress_ok (score : spec_float) : bool :=
  let value := PyFloat.div score (PyFloat.of_Z 10) in
  PyFloat.leb PyFloat.zero value && PyFloat.leb value (PyFloat.of_Z 1).

(** The decision makers are absent, falsy, or can be iterated. *)
Definition people_ok (lead : dict) : bool :=
  let kdm := get lead "key_decision_makers" (JList []) in
  negb (truthy kdm) || negb (raises (iter_dicts kdm)).

(** The display loop draws the item without an exception: it is not a
    [dict], or its score converts to a float that the progress bar
    accepts and its decision makers can be iterated. A missing key is
    never an obstacle. *)
Definition drawable (x : json) : bool :=
  match x with
  | JDict lead =>
      match App.lead_score lead with
      | Ok score => progress_ok score && people_ok lead
      | Raise _ => false
      end
  | _ => true
  end.

(** The expanders of the display loop from the index [idx] on: one per
    [dict], numbered by its place in the list. *)
Fixpoint expanders (idx : nat) (l : list json) : list (nat * string) :=
  match l with
  | [] => []
  | JDict lead :: rest =>
      (idx, str (get lead "company_name" (JStr "Unknown Company")))
      :: expanders (S idx) rest
  | _ :: rest => expanders (S idx) rest
  end.

(** Two leads: a complete one, and one whose score is a word. *)
Definition bad_score_leads : list json :=
  [JDict [("company_name", JStr "Acme"); ("annual_revenue", JStr "$5M");
          ("location", JDict [("city", JStr "Oslo"); ("country", JStr "Norway")]);
          ("website_url", JStr "https://acme.example"); ("review", JStr "Payments");
          ("num_employees", JInt 40); ("key_decision_makers", JList []);
          ("score", JInt 8)];
   JDict [("company_name", JStr "Bolt"); ("score", JStr "high")]].

(** A record of the schema with no score. *)
Definition unscored : Schema.LeadOutput :=
  {| Schema.company_name := Some "Acme";
     Schema.annual_revenue := Some "$5M";
     Schema.location := Some [("city", "Oslo"); ("country", "Norway")];
     Schema.website_url := Some "https://acme.example";
     Schema.review := Some "Payments";
     Schema.num_employees := Some 40;
     Schema.key_decision_makers := Some [[("name", "Ann"); ("role", "CEO")]];
     Schema.score := None |}.

(** A record of the schema with every field, whose review quotes the
    heading and the fence of the raw data. *)
Definition quoting : Schema.LeadOutput :=
  {| Schema.company_name := Some "Bolt";
     Schema.annual_revenue := Some "$12M";
     Schema.location := Some [("city", "Lyon"); ("country", "France")];
     Schema.website_url := Some "https://bolt.example";
     Schema.review := Some (nl ++ "## Raw JSON Data" ++ nl ++ nl ++ "```json" ++ nl
                            ++ "[]" ++ nl ++ "```" ++ nl);
     Schema.num_employees := Some 250;
     Schema.key_decision_makers :=
       Some [[("name", "Bo"); ("role", "CTO"); ("linkedin", "https://l.example/bo")]];
     Schema.score := Some 9 |}.

(** A result list with an item that is not a [dict]. *)
Definition mixed_results : list json :=
  [JDict [("company_name", JStr "Acme"); ("score", JInt 8)];
   JStr "no more leads";
   JDict [("company_name", JStr "Bolt"); ("score", JInt 9)]].

End Drawable.

(** ** Decimal digits *)

Module Digits.

(** The value of a sequence of decimal digits read after [acc]. *)
Fixpoint uint_value (acc : Z) (d : Decimal.uint) : Z :=
  match d with
  | Decimal.Nil => acc
  | Decimal.D0 l => uint_value (10 * acc + 0) l
  | Decimal.D1 l => uint_value (10 * acc + 1) l
  | Decimal.D2 l => uint_value (10 * acc + 2) l
  | Decimal.D3 l => uint_value (10 * acc + 3) l
  | Decimal.D4 l => uint_value (10 * acc + 4) l
  | Decimal.D5 l => uint_value (10 * acc + 5) l
  | Decimal.D6 l => uint_value (10 * acc + 6) l
  | Decimal.D7 l => uint_value (10 * acc + 7) l
  | Decimal.D8 l => uint_value (10 * acc + 8) l
  | Decimal.D9 l => uint_value (10 * acc + 9) l
  end.

End Digits.

(** ** Well-formed values *)

Module Wf.
Import Json.

(** What may follow a number: no digit, and no start of a fraction or
    of an exponent. *)
Definition delimited (rest : string) : bool :=
  match rest with
  | "" => true
  | String c _ => negb (PyStr.isdigit c) && negb (JsonParse.starts_fraction rest)
  end.

Definition no_digit_head (rest : string) : Prop :=
  match rest with
  | String c _ => PyStr.isdigit c = false
  | "" => True
  end.

(** The [int] has no more digits than [str] and [int] convert. *)
Definition int_ok (n : Z) : bool :=
  (String.length (str_of_Z (Z.abs n)) <=? PyStr.int_max_str_digits)%nat.

(** A value as Python has it: the keys of a [dict] are distinct, and an
    [int] is within the conversion limit. *)
Fixpoint wf (v : json) : Prop :=
  match v with
  | JInt n => int_ok n = true
  | JList l => fold_right (fun x acc => wf x /\ acc) True l
  | JDict d =>
      NoDup (map fst d) /\ fold_right (fun kv acc => wf (snd kv) /\ acc) True d
  | _ => True
  end.

(** The strings of [l] are distinct. *)
Fixpoint distinct (l : list string) : bool :=
  match l with
  | [] => true
  | x :: l' => negb (existsb (String.eqb x) l') && distinct l'
  end.

(** [wf], as a test. *)
Fixpoint check (v : json) : bool :=
  match v with
  | JInt n => int_ok n
  | JList l => forallb check l
  | JDict d => distinct (map fst d) && forallb (fun kv => check (snd kv)) d
  | _ => true
  end.

(** A record as Python has it: the keys of its location and of each of
    its decision makers are distinct, and its integers are within the
    conversion limit. *)
Definition record_ok (r : Schema.LeadOutput) : bool :=
  check (JDict (Schema.model_dump r)).

(** The number of values and items of a value: enough fuel to read it. *)
Fixpoint size (v : json) : nat :=
  match v with
  | JList l => S (fold_right (fun x acc => S (size x + acc)) O l)
  | JDict d => S (fold_right (fun kv acc => S (size (snd kv) + acc)) O d)
  | _ => 1
  end.

End Wf.

(** ** The layout of the dump *)

Module Layout.
Import Json Report.

(** The line break before an item, and the one before the closing
    bracket, of a container at depth [level]. *)
Definition inner (level : nat) : string := nl ++ spaces (2 * S level).
Definition close (level : nat) : string := nl ++ spaces (2 * level).

(** The items of a non-empty list from the first one on, up to the
    closing bracket, followed by [rest]. *)
Fixpoint items_text (level : nat) (l : list json) (rest : string) : string :=
  match l with
  | [] => rest
  | [x] => dumps_at (S level) x ++ close level ++ String "]" rest
  | x :: l' =>
      dumps_at (S level) x ++ String "," (inner level ++ items_text level l' rest)
  end.

Definition member_text (level : nat) (kv : string * json) : string :=
  encode_str (fst kv) ++ ": " ++ dumps_at (S level) (snd kv).

(** The same for the items of a non-empty [dict]. *)
Fixpoint members_text (level : nat) (d : dict) (rest : string) : string :=
  match d with
  | [] => rest
  | [kv] => member_text level kv ++ close level ++ String "}" rest
  | kv :: d' =>
      member_text level kv ++ String "," (inner level ++ members_text level d' rest)
  end.

(** The characters with which a value begins. *)
Definition value_start (c : ascii) : bool :=
  Ascii.eqb c "[" || Ascii.eqb c "{" || Ascii.eqb c dquote || Ascii.eqb c "n"
  || Ascii.eqb c "t" || Ascii.eqb c "f" || Ascii.eqb c "-" || PyStr.isdigit c.

Definition starts_value (s : string) : Prop :=
  match s with
  | String c _ => value_start c = true
  | "" => False
  end.

End Layout.

(** ** Reading a value back *)

Module Reads.
Import Json.

(** The text of [v] at any depth, followed by a delimiter, is read as
    [v], with fuel from the size of [v] on. *)
Definition reads (v : json) : Prop :=
  Wf.wf v ->
  forall (level : nat) (rest : string) (fuel : nat),
    (Wf.size v <= fuel)%nat -> Wf.delimited rest = true ->
    JsonParse.parse_value fuel (Report.dumps_at level v ++ rest) = Some (v, rest).

End Reads.

(** ** Where the heading of the raw data can occur *)

Module Clean.

Definition is_nl (c : ascii) : bool := PyStr.code c =? 10.

Definition starts_hash (s : string) : bool :=
  match s with
  | String c _ => Ascii.eqb c "#"
  | "" => false
  end.

(** No line of [s] after the first begins with [#]. *)
Fixpoint nl_hash_free (s : string) : bool :=
  match s with
  | String c s' => negb (is_nl c && starts_hash s') && nl_hash_free s'
  | "" => true
  end.

(** No line of [s] begins with [#]. *)
Definition clean (s : string) : bool := negb (starts_hash s) && nl_hash_free s.

(** [s] has no line break. *)
Fixpoint no_nl (s : string) : bool :=
  match s with
  | String c s' => negb (is_nl c) && no_nl s'
  | "" => true
  end.

(** [marker] occurs in [s]. *)
Fixpoint occurs (marker s : string) : bool :=
  Extract.has_prefix marker s
  || match s with
     | String _ s' => occurs marker s'
     | "" => false
     end.

End Clean.

(** ** The parse of the crew's output (streamlit_app.py, lines 138-155) *)

Module Results.
Import Json.

(** The attributes of the crew's output that the script reads. [None]
    stands for an attribute that the object does not have ([hasattr] is
    false); an attribute [raw] that is there is a [str]. *)
Record TaskOutput : Type := {
  task_raw : option string
}.

Record CrewOutput : Type := {
  tasks_output : option (list TaskOutput);
  raw : option string
}.

(** Lines 142-151: the text that is given to [json.loads]; [None] when
    the script takes the empty list instead. The output of the last task
    is [tasks_output[-1]]. *)
Definition raw_text (results : CrewOutput) : option string :=
  match tasks_output results with
  | Some (t :: ts) =>
      match task_raw (List.last ts t) with
      | Some text => Some text
      | None => raw results
      end
  | _ => raw results
  end.

(** The value bound to [results_list] by lines 142-151, or the exception
    of [json.loads], which leaves the name unbound. *)
Definition results_list (loads : string -> result json) (results : CrewOutput)
  : result json :=
  match raw_text results with
  | Some text => loads text
  | None => Ok (JList [])
  end.

(** What [len] counts and [for lead in v] yields when [v] is a [dict]
    (its keys) or a [str] (its characters). *)
Definition keys (d : dict) : list json := map (fun kv => JStr (fst kv)) d.

Definition chars (s : string) : list json :=
  map (fun c => JStr (String c "")) (list_ascii_of_string s).

Definition file_name (industry country : string) : string :=
  "lead_generation_report_" ++ industry ++ "_" ++ country ++ ".md".

(** Lines 153-281 for any value of [results_list]. A falsy value gives
    the warning and [st.stop()]. A [dict] or a [str] is counted, summed
    over, sorted and iterated as the sequence of its keys or characters,
    which is what [results_list] holds after the sort. Another object has
    no [len()], which ends the display at line 158, and cannot be
    iterated, which ends the report at line 249. *)
Definition show (industry country : string) (v : json) : list Handler.event :=
  if truthy v then
    match v with
    | JList l => Handler.show_results industry country l
    | JDict d => Handler.show_results industry country (keys d)
    | JStr s => Handler.show_results industry country (chars s)
    | _ =>
        [Handler.Widgets [];
         Handler.ErrorDisplaying
           (TypeError ("object of type '" ++ type_name v ++ "' has no len()"));
         Handler.DownloadButton
           (Report.error_prefix ++ "'" ++ type_name v ++ "' object is not iterable")
           (file_name industry country)]
    end
  else [Handler.StWarning "No leads were found in the results"; Handler.StStop].

(** Lines 137-281. When [json.loads] raised, the [except] of line 240
    reports it, and the loop of the report meets the unbound name: a
    [NameError], which the [except] of line 273 turns into the text of
    the download. *)
Definition after_parse (industry country : string) (parsed : result json)
  : list Handler.event :=
  match parsed with
  | Ok v => show industry country v
  | Raise e =>
      [Handler.Widgets [];
       Handler.ErrorDisplaying e;
       Handler.DownloadButton
         (Report.error_prefix ++ "name 'results_list' is not defined")
         (file_name industry country)]
  end.

(** Lines 110-281 and 378-381, with the run of the crew ([kickoff]) and
    [json.loads] as parameters. An exception of the run is the only one
    that reaches the [except] of line 378. *)
Definition on_run (industry country : string) (api_key : option string)
    (kickoff : string -> string -> result CrewOutput)
    (loads : string -> result json) : list Handler.event :=
  if Handler.is_empty industry || Handler.is_empty country then
    [Handler.StError "Please enter an industry and country"]
  else if Handler.is_empty (default "" api_key) then
    [Handler.StWarning "Please enter your OpenAI API key in the sidebar to continue"]
  else
    Handler.Kickoff industry country
    :: match kickoff industry country with
       | Ok results => after_parse industry country (results_list loads results)
       | Raise e =>
           [Handler.StError ("An error occurred: " ++ exn_str e); Handler.StStop]
       end.

(** The widgets of a trace, and its download, if any. *)
Definition widgets (trace : list Handler.event) : list App.widget :=
  concat (omap (fun ev => match ev with Handler.Widgets w => Some w | _ => None end)
               trace).

Definition download (trace : list Handler.event) : option string :=
  head (omap (fun ev => match ev with
                        | Handler.DownloadButton data _ => Some data
                        | _ => None
                        end) trace).

End Results.

(** ** The cost of a run (streamlit_app.py, lines 286-339 and 371-373) *)

Module Usage.
Import Metrics.

Definition mul : spec_float -> spec_float -> spec_float :=
  SFmul PyFloat.prec PyFloat.emax.

(** [n / 1000000] for an [int] [n]: the quotient, rounded to the nearest
    float. *)
Definition per_million (n : Z) : result spec_float :=
  match PyFloat.of_decimal (n <? 0) (Z.abs n) (-6) with
  | S754_infinity _ =>
      Raise (OverflowError "integer division result too large for a float")
  | f => Ok f
  end.

(** The literals [0.015] and [0.06]. *)
Definition input_rate : spec_float := PyFloat.of_decimal false 15 (-3).
Definition output_rate : spec_float := PyFloat.of_decimal false 6 (-2).

(** [(count / 1000000) * rate]; a count that was kept as text cannot be
    divided. *)
Definition cost_of (count : metric_value) (rate : spec_float) : result spec_float :=
  match count with
  | MInt n => q ← per_million n; Ok (mul q rate)
  | MStr _ => Raise (TypeError "unsupported operand type(s) for /: 'str' and 'int'")
  end.

(** Lines 320-322. *)
Definition total_cost (c : token_counts) : result spec_float :=
  input_cost ← cost_of (input_tokens c) input_rate;
  output_cost ← cost_of (output_tokens c) output_rate;
  Ok (PyFloat.add input_cost output_cost).

(** What the section shows: the parsed mapping ([st.json]), the three
    metrics (the cost and the two counts, before their formatting), and
    the warning of the [except]. *)
Inductive event : Type :=
  | ParsedMetrics (metrics_dict : gmap string metric_value)
  | CostMetrics (total_cost : spec_float) (input_tokens output_tokens : metric_value)
  | UsageWarning (text : string).

(** Lines 372-373, without the fixed second warning and the traceback. *)
Definition warning (e : exn) : list event :=
  [UsageWarning ("Usage metrics calculation error: " ++ exn_str e)].

(** Lines 286-339 and 371-373 as a function of [str(metrics)], for a
    crew that has the attribute [usage_metrics] (crew.py, line 107, sets
    it). [track_usage] is the method of the pricing tracker. *)
Definition section (track_usage : metric_value -> metric_value -> result unit)
    (metrics_str : string) : list event :=
  match parse_metrics metrics_str with
  | Raise e => warning e
  | Ok metrics_dict =>
      let counts := extract_counts metrics_dict in
      ParsedMetrics metrics_dict
      :: match total_cost counts with
         | Raise e => warning e
         | Ok cost =>
             match track_usage (input_tokens counts) (output_tokens counts) with
             | Raise e => warning e
             | Ok _ => [CostMetrics cost (input_tokens counts) (output_tokens counts)]
             end
         end
  end.

(** A name: a text with no white space and no [=]. *)
Definition is_name (s : string) : bool :=
  forallb (fun c => negb (PyStr.isspace c) && negb (Ascii.eqb c "="))
          (list_ascii_of_string s).

(** The text of integer fields, as [str] of a record writes them:
    [name=value] items with a blank between them. *)
Definition field_text (kv : string * Z) : string :=
  fst kv ++ "=" ++ Json.str_of_Z (snd kv).

Definition fields_text (fields : list (string * Z)) : string :=
  Json.join " " (map field_text fields).

(** The mapping with the fields put in, one after the other. *)
Definition fields_dict (fields : list (string * Z)) : gmap string metric_value :=
  fold_left (fun d kv => <[fst kv := MInt (snd kv)]> d) fields ∅.

End Usage.

(** ** What the report needs from an item *)

Module Reportable.
Import Json.

(** The report writes the section of the item: it is a [dict], and its
    decision makers are absent, falsy, or can be iterated. *)
Definition ok (x : json) : bool :=
  match x with
  | JDict lead => Drawable.people_ok lead
  | _ => false
  end.

(** The characters of a dump: from the blank to the tilde, and the line
    break. *)
Definition is_plain (c : ascii) : bool :=
  PyStr.in_range 32 126 c || (PyStr.code c =? 10).

Definition plain (s : string) : bool := forallb is_plain (list_ascii_of_string s).

End Reportable.

(** ** The order of the display *)

Module Order.
Import Json.

(** The score of [x] is below the score of [y]. *)
Definition below (x y : json) : bool :=
  match App.sort_key x, App.sort_key y with
  | Ok a, Ok b => PyFloat.ltb a b
  | _, _ => false
  end.

(** No item comes before an item of a higher score. *)
Definition descending (l : list json) : Prop :=
  StronglySorted (fun x y => below x y = false) l.

End Order.

(** ** More sample records *)

Module Samples.
Import Json.

(** A record of the schema with a score and nothing else. *)
Definition bare : Schema.LeadOutput :=
  {| Schema.company_name := None;
     Schema.annual_revenue := None;
     Schema.location := None;
     Schema.website_url := None;
     Schema.review := None;
     Schema.num_employees := None;
     Schema.key_decision_makers := None;
     Schema.score := Some 7 |}.

(** Three leads, the second with a score above the scale. *)
Definition above_scale : list json :=
  [Leads.lead "Acme" (JInt 8); Leads.lead "Bolt" (JInt 11);
   Leads.lead "Core" (JInt 3)].

End Samples.

(** ** Classes of characters and of texts, used to state the properties *)

Module Chars.

(** The characters of [s] are not white space. *)
Abbreviation word s :=
  (Forall (fun c => PyStr.isspace c = false) (list_ascii_of_string s)).

(** The characters of [s] are not [sep]. *)
Abbreviation free sep s :=
  (Forall (fun c => Ascii.eqb c sep = false) (list_ascii_of_string s)).

(** The digits and the sign, the characters of the text of an integer;
    [None] is the start of the text. *)
Abbreviation number_chars :=
  [None; Some "0"%char; Some "1"%char; Some "2"%char; Some "3"%char;
   Some "4"%char; Some "5"%char; Some "6"%char; Some "7"%char; Some "8"%char;
   Some "9"%char; Some "-"%char].

End Chars.

(** ** The widgets of one lead *)

Module Drawn.
Import Json App.

(** The widgets of a lead up to the progress bar. *)
Abbreviation head_widgets idx lead s :=
  [Expander idx (str (get lead "company_name" (JStr "Unknown Company")))
                (str (get lead "score" (JStr "N/A")));
   Header (header_color_of s) (str (get lead "company_name" (JStr "N/A")));
   AnnualRevenue (str (get lead "annual_revenue" (JStr "N/A")));
   Location (location_text lead);
   Website (unless "N/A" (get lead "website_url" (JStr "N/A")));
   NumEmployees (str (get lead "num_employees" (JStr "N/A")));
   MatchScore (str (get lead "score" (JStr "N/A")))].

End Drawn.

(** ** The thresholds of the display, on integers *)

Module Scale.

(** The score of the record is 7 or more. *)
Definition high (r : Schema.LeadOutput) : bool :=
  match Schema.score r with
  | Some n => 7 <=? n
  | None => false
  end.

(** The colour of the header for an integer score. *)
Definition color (n : Z) : App.color :=
  if 8 <=? n then App.Green else if 6 <=? n then App.Orange else App.Gray.

End Scale.

(** * Properties *)

(** The 256 characters, one by one. *)
Ltac ascii_cases c := destruct c as [[] [] [] [] [] [] [] []].

(** ** The order of the floats *)

Module FloatOrder.

Import FloatRank.

Lemma compare_rank (x y : spec_float) :
  PyFloat.is_nan x = false -> PyFloat.is_nan y = false ->
  (SFcompare x y = Some Lt <-> lex_lt (rank x) (rank y))
  /\ (SFcompare x y = Some Eq <-> rank x = rank y).
Proof.
  intros Hx Hy.
  destruct x as [sx|sx| |sx mx ex], y as [sy|sy| |sy my ey];
    try discriminate; try destruct sx; try destruct sy; cbn;
    try (split; split; intros H; solve [discriminate | lia | congruence | reflexivity]).
  all: change (Pos.compare_cont Eq mx my) with (Pos.compare mx my).
  all: destruct (Z.compare_spec ex ey); destruct (Pos.compare_spec mx my);
    cbn; split; split; intros H'; try discriminate; try lia; try reflexivity;
    try (injection H'; intros; subst; lia); try (subst; reflexivity).
Qed.

Lemma ltb_rank (x y : spec_float) :
  PyFloat.is_nan x = false -> PyFloat.is_nan y = false ->
  PyFloat.ltb x y = true <-> lex_lt (rank x) (rank y).
Proof.
  intros Hx Hy. destruct (compare_rank x y Hx Hy) as [H _].
  rewrite <- H. unfold PyFloat.ltb, SFltb.
  destruct (SFcompare x y) as [[]|]; split; intros; congruence.
Qed.

Lemma eqb_rank (x y : spec_float) :
  PyFloat.eqb x y = true ->
  PyFloat.is_nan x = false /\ PyFloat.is_nan y = false /\ rank x = rank y.
Proof.
  unfold PyFloat.eqb, SFeqb. intros H.
  assert (Hx : PyFloat.is_nan x = false) by (destruct x; try reflexivity; discriminate).
  assert (Hy : PyFloat.is_nan y = false)
    by (destruct y; try reflexivity; destruct x; discriminate).
  repeat split; auto.
  apply (compare_rank x y Hx Hy).
  destruct (SFcompare x y) as [[]|]; congruence.
Qed.

Lemma ltb_nan_l (y : spec_float) : PyFloat.ltb S754_nan y = false.
Proof. reflexivity. Qed.

Lemma ltb_nan_r (x : spec_float) : PyFloat.ltb x S754_nan = false.
Proof. destruct x; reflexivity. Qed.

Lemma ltb_not_nan (x y : spec_float) :
  PyFloat.ltb x y = true -> PyFloat.is_nan x = false /\ PyFloat.is_nan y = false.
Proof.
  intros H. split.
  - destruct x; try reflexivity. discriminate.
  - destruct y; try reflexivity. rewrite ltb_nan_r in H. discriminate.
Qed.

Lemma ltb_irrefl (x : spec_float) : PyFloat.ltb x x = false.
Proof.
  destruct (PyFloat.ltb x x) eqn:H; [|reflexivity].
  destruct (ltb_not_nan _ _ H) as [Hx _].
  apply (ltb_rank x x Hx Hx) in H.
  unfold lex_lt in H. destruct (rank x) as [[a b] c]. lia.
Qed.

Lemma ltb_trans (x y z : spec_float) :
  PyFloat.ltb x y = true -> PyFloat.ltb y z = true -> PyFloat.ltb x z = true.
Proof.
  intros Hxy Hyz.
  destruct (ltb_not_nan _ _ Hxy) as [Hx Hy].
  destruct (ltb_not_nan _ _ Hyz) as [_ Hz].
  apply (ltb_rank x z Hx Hz).
  apply (ltb_rank x y Hx Hy) in Hxy. apply (ltb_rank y z Hy Hz) in Hyz.
  unfold lex_lt in *.
  destruct (rank x) as [[a1 a2] a3], (rank y) as [[b1 b2] b3],
    (rank z) as [[c1 c2] c3]. lia.
Qed.

(** An item that is not a NaN is on one side of any strict pair. *)
Lemma ltb_cotrans (x y z : spec_float) :
  PyFloat.is_nan y = false ->
  PyFloat.ltb x z = true -> PyFloat.ltb x y = true \/ PyFloat.ltb y z = true.
Proof.
  intros Hy Hxz.
  destruct (ltb_not_nan _ _ Hxz) as [Hx Hz].
  apply (ltb_rank x z Hx Hz) in Hxz.
  rewrite (ltb_rank x y Hx Hy), (ltb_rank y z Hy Hz).
  unfold lex_lt in *.
  destruct (rank x) as [[a1 a2] a3], (rank y) as [[b1 b2] b3],
    (rank z) as [[c1 c2] c3]. lia.
Qed.

Lemma eqb_ltb (x y k : spec_float) :
  PyFloat.eqb x k = true -> PyFloat.eqb y k = true -> PyFloat.ltb x y = false.
Proof.
  intros Hx Hy.
  destruct (eqb_rank _ _ Hx) as (Nx & _ & Rx).
  destruct (eqb_rank _ _ Hy) as (Ny & _ & Ry).
  destruct (PyFloat.ltb x y) eqn:H; [|reflexivity].
  apply (ltb_rank x y Nx Ny) in H. rewrite Rx, Ry in H.
  unfold lex_lt in H. destruct (rank k) as [[a b] c]. lia.
Qed.

End FloatOrder.

(** ** [list.sort]: permutation, order and stability *)

Module SortFacts.
Import ListSort.

Section Perm.

Context {A : Type} (lt : A -> A -> bool).

Lemma take_run_app desc prev l run rest :
  take_run lt desc prev l = (run, rest) -> l = (run ++ rest)%list.
Proof.
  revert prev run rest.
  induction l as [|x l IH]; intros prev run rest H; simpl in H.
  - by injection H as <- <-.
  - destruct (Bool.eqb (lt x prev) desc).
    + destruct (take_run lt desc x l) as [r0 rest0] eqn:E.
      injection H as <- <-. simpl. f_equal. by apply (IH x).
    + by injection H as <- <-.
Qed.

Lemma insert_pivot_perm a p : insert_pivot lt a p ≡ₚ p :: a.
Proof.
  unfold insert_pivot. rewrite <- Permutation_middle. by rewrite take_drop.
Qed.

Lemma binarysort_perm rest front :
  binarysort lt front rest ≡ₚ (front ++ rest)%list.
Proof.
  revert front. induction rest as [|p rest IH]; intros front.
  - by rewrite app_nil_r.
  - unfold binarysort in *. simpl. rewrite IH, insert_pivot_perm.
    simpl. apply Permutation_middle.
Qed.

Lemma count_run_perm l run rest :
  count_run lt l = (run, rest) -> (run ++ rest)%list ≡ₚ l.
Proof.
  destruct l as [|x [|y l]]; simpl; intros H.
  - by injection H as <- <-.
  - by injection H as <- <-.
  - destruct (take_run lt (lt y x) y l) as [r0 rest0] eqn:E.
    apply take_run_app in E. subst l.
    destruct (lt y x); injection H as <- <-.
    + change (x :: y :: r0 ++ rest0)%list with ((x :: y :: r0) ++ rest0)%list.
      apply Permutation_app_tail. symmetry. apply Permutation_rev.
    + reflexivity.
Qed.

Lemma sort_perm l : sort lt l ≡ₚ l.
Proof.
  unfold sort. destruct (count_run lt l) as [run rest] eqn:E.
  rewrite binarysort_perm. by apply count_run_perm.
Qed.

End Perm.

Section Stable.

Context {A : Type} (lt : A -> A -> bool) (D : A -> Prop).

Hypothesis lt_irrefl : forall x, lt x x = false.
Hypothesis lt_trans :
  forall x y z, lt x y = true -> lt y z = true -> lt x z = true.
Hypothesis lt_cotrans :
  forall x y z, D y -> lt x z = true -> lt x y = true \/ lt y z = true.

(** [x] may stand before [y] in a sorted list. *)
Let le (x y : A) : Prop := lt y x = false.
Let gt (x y : A) : Prop := lt y x = true.

(** The items selected by [P] are pairwise equal in the order. *)
Let antichain (P : A -> bool) : Prop :=
  forall x y, P x = true -> P y = true -> lt x y = false.

Lemma lt_asym x y : lt x y = true -> lt y x = false.
Proof.
  intros H. destruct (lt y x) eqn:E; [|reflexivity].
  pose proof (lt_trans _ _ _ H E) as F. rewrite lt_irrefl in F. discriminate.
Qed.

Lemma le_trans x y z : D y -> le x y -> le y z -> le x z.
Proof.
  unfold le. intros Dy H1 H2. destruct (lt z x) eqn:E; [|reflexivity].
  destruct (lt_cotrans z y x Dy E); congruence.
Qed.

Lemma bisect_spec a pivot :
  StronglySorted le a -> Forall D a ->
  forall fuel l r,
    (l <= r <= length a)%nat -> (r - l < fuel)%nat ->
    Forall (fun x => lt pivot x = false) (take l a) ->
    Forall (fun x => lt pivot x = true) (drop r a) ->
    Forall (fun x => lt pivot x = false) (take (bisect lt fuel a pivot l r) a)
    /\ Forall (fun x => lt pivot x = true) (drop (bisect lt fuel a pivot l r) a).
Proof.
  intros Hs Hd. induction fuel as [|fuel IH]; intros l r Hlr Hf HL HR; [lia|].
  cbn [bisect]. destruct (Nat.ltb_spec l r) as [Hlt|Hge].
  - set (p := (l + (r - l) / 2)%nat).
    assert (Hp : (l <= p < r)%nat).
    { assert ((r - l) / 2 < r - l)%nat by (apply Nat.div_lt; lia).
      subst p. lia. }
    destruct (lookup_lt_is_Some_2 a p) as [x Hx]; [lia|]. rewrite Hx.
    pose proof (take_drop_middle a p x Hx) as Hmid.
    rewrite <- Hmid in Hs. apply StronglySorted_app in Hs as (Hcross & _ & Hs2).
    apply StronglySorted_cons in Hs2 as [Hafter _].
    assert (Dx : D x).
    { rewrite Forall_forall in Hd. apply Hd. by eapply list_elem_of_lookup_2. }
    destruct (lt pivot x) eqn:Epx.
    + apply IH; [lia|lia|assumption|].
      rewrite (drop_S a x p Hx). constructor; [assumption|].
      rewrite Forall_forall in Hafter |- *. intros y Hy.
      assert (Dy : D y).
      { rewrite Forall_forall in Hd. apply Hd.
        rewrite <- Hmid, elem_of_app, elem_of_cons. auto. }
      destruct (lt_cotrans pivot y x Dy Epx) as [H|H]; [assumption|].
      specialize (Hafter y Hy). unfold le in Hafter. congruence.
    + apply IH; [lia|lia| |assumption].
      rewrite (take_S_r a p x Hx). apply Forall_app. split; [|by constructor].
      rewrite Forall_forall. intros z Hz.
      destruct (lt pivot z) eqn:Epz; [|reflexivity].
      destruct (lt_cotrans pivot x z Dx Epz) as [H|H]; [congruence|].
      assert (Hzx : le z x) by (apply Hcross; [assumption|apply elem_of_cons; auto]).
      unfold le in Hzx. congruence.
  - assert (l = r) by lia. subst r. by split.
Qed.

Lemma insert_pivot_spec a pivot :
  StronglySorted le a -> Forall D a ->
  exists i,
    insert_pivot lt a pivot = (take i a ++ pivot :: drop i a)%list
    /\ Forall (fun x => lt pivot x = false) (take i a)
    /\ Forall (fun x => lt pivot x = true) (drop i a).
Proof.
  intros Hs Hd. eexists. split; [reflexivity|].
  apply bisect_spec; auto; try lia.
  all: rewrite ?drop_all; constructor.
Qed.

Lemma insert_pivot_sorted a pivot :
  StronglySorted le a -> Forall D a ->
  StronglySorted le (insert_pivot lt a pivot).
Proof.
  intros Hs Hd.
  destruct (insert_pivot_spec a pivot Hs Hd) as (i & -> & HL & HR).
  rewrite <- (take_drop i a) in Hs.
  apply StronglySorted_app in Hs as (Hcross & Hs1 & Hs2).
  apply StronglySorted_app. repeat split; auto.
  - intros x1 x2 H1 H2. apply elem_of_cons in H2 as [->|H2].
    + rewrite Forall_forall in HL. by apply HL.
    + by apply Hcross.
  - constructor; auto.
    rewrite Forall_forall in HR |- *. intros y Hy. apply lt_asym. by apply HR.
Qed.

Lemma filter_none (P : A -> bool) l :
  Forall (fun x => P x = false) l -> List.filter P l = [].
Proof.
  induction 1 as [|x l Hx _ IH]; simpl; [reflexivity|]. by rewrite Hx.
Qed.

Lemma insert_pivot_stable (P : A -> bool) a pivot :
  antichain P -> StronglySorted le a -> Forall D a ->
  List.filter P (insert_pivot lt a pivot) = List.filter P (a ++ [pivot])%list.
Proof.
  intros HP Hs Hd.
  destruct (insert_pivot_spec a pivot Hs Hd) as (i & -> & HL & HR).
  rewrite <- (take_drop i a) at 3.
  rewrite !List.filter_app. simpl. rewrite <- app_assoc. f_equal.
  destruct (P pivot) eqn:Ep.
  - rewrite filter_none; [reflexivity|].
    rewrite Forall_forall in HR |- *. intros y Hy.
    destruct (P y) eqn:Ey; [|reflexivity].
    specialize (HR y Hy). cbv beta in HR.
    rewrite (HP pivot y Ep Ey) in HR. discriminate.
  - by rewrite app_nil_r.
Qed.

Lemma binarysort_spec (P : A -> bool) rest :
  antichain P -> Forall D rest ->
  forall front,
    StronglySorted le front -> Forall D front ->
    StronglySorted le (binarysort lt front rest)
    /\ List.filter P (binarysort lt front rest)
       = List.filter P (front ++ rest)%list.
Proof.
  intros HP Hr. induction Hr as [|p rest Dp Hr IH]; intros front Hs Hd.
  - simpl. by rewrite app_nil_r.
  - unfold binarysort in *. simpl.
    destruct (IH (insert_pivot lt front p)) as [IH1 IH2].
    + by apply insert_pivot_sorted.
    + rewrite insert_pivot_perm. by constructor.
    + split; [assumption|]. rewrite IH2, !List.filter_app.
      rewrite (insert_pivot_stable P front p HP Hs Hd), List.filter_app.
      simpl. destruct (P p); by rewrite <- app_assoc.
Qed.

(** An ascending run is sorted. *)
Lemma take_run_asc l : forall prev run rest,
  take_run lt false prev l = (run, rest) -> Forall D l ->
  StronglySorted le (prev :: run).
Proof.
  induction l as [|x l IH]; intros prev run rest H Hd; simpl in H.
  - injection H as <- <-. repeat constructor.
  - destruct (Bool.eqb (lt x prev) false) eqn:E.
    + destruct (take_run lt false x l) as [r0 rest0] eqn:Er.
      injection H as <- <-. apply Forall_cons in Hd as [Dx Hd].
      specialize (IH x r0 rest0 Er Hd).
      apply Bool.eqb_prop in E.
      constructor; [assumption|].
      apply StronglySorted_cons in IH as [Hall _].
      constructor; [exact E|].
      rewrite Forall_forall in Hall |- *. intros y Hy.
      apply (le_trans prev x y Dx); [exact E|by apply Hall].
    + injection H as <- <-. repeat constructor.
Qed.

(** A descending run is strictly descending. *)
Lemma take_run_desc l : forall prev run rest,
  take_run lt true prev l = (run, rest) ->
  StronglySorted gt (prev :: run).
Proof.
  induction l as [|x l IH]; intros prev run rest H; simpl in H.
  - injection H as <- <-. repeat constructor.
  - destruct (Bool.eqb (lt x prev) true) eqn:E.
    + destruct (take_run lt true x l) as [r0 rest0] eqn:Er.
      injection H as <- <-. specialize (IH x r0 rest0 Er).
      apply Bool.eqb_prop in E.
      constructor; [assumption|].
      apply StronglySorted_cons in IH as [Hall _].
      constructor; [exact E|].
      rewrite Forall_forall in Hall |- *. intros y Hy.
      unfold gt in *. apply (lt_trans y x prev); [by apply Hall|exact E].
    + injection H as <- <-. repeat constructor.
Qed.

Lemma rev_desc_sorted l : StronglySorted gt l -> StronglySorted le (rev l).
Proof.
  induction 1 as [|x l Hs IH Hall]; simpl; [constructor|].
  apply StronglySorted_app. repeat split; auto.
  - intros y z Hy Hz. apply list_elem_of_singleton in Hz as ->.
    rewrite list_elem_of_In, <- in_rev, <- list_elem_of_In in Hy.
    rewrite Forall_forall in Hall.
    apply lt_asym. by apply Hall.
  - repeat constructor.
Qed.

(** A strictly descending list has at most one item of an antichain,
    so that its reversal keeps their order. *)
Lemma rev_desc_stable (P : A -> bool) l :
  antichain P -> StronglySorted gt l ->
  List.filter P (rev l) = List.filter P l.
Proof.
  intros HP Hs. rewrite List.filter_rev.
  assert (H1 : (length (List.filter P l) <= 1)%nat).
  { induction Hs as [|x l Hs IH Hall]; simpl; [lia|].
    destruct (P x) eqn:Ex; [|assumption].
    rewrite filter_none; [simpl; lia|].
    rewrite Forall_forall in Hall |- *. intros y Hy.
    destruct (P y) eqn:Ey; [|reflexivity].
    specialize (Hall y Hy). unfold gt in Hall.
    rewrite (HP y x Ey Ex) in Hall. discriminate. }
  destruct (List.filter P l) as [|a [|b t]]; simpl in *; try reflexivity. lia.
Qed.

Lemma count_run_spec (P : A -> bool) l run rest :
  antichain P -> Forall D l ->
  count_run lt l = (run, rest) ->
  StronglySorted le run
  /\ (List.filter P run ++ List.filter P rest)%list = List.filter P l.
Proof.
  intros HP Hd. destruct l as [|x [|y l]]; cbn [count_run]; intros H.
  - injection H as <- <-. split; [constructor|reflexivity].
  - injection H as <- <-. split; [repeat constructor|by rewrite app_nil_r].
  - destruct (take_run lt (lt y x) y l) as [r0 rest0] eqn:E.
    pose proof (take_run_app _ _ _ _ _ _ E) as Hl.
    apply Forall_cons in Hd as [Dx Hd]. apply Forall_cons in Hd as [Dy Hd].
    destruct (lt y x) eqn:Eyx; injection H as <- <-.
    + assert (Hg : StronglySorted gt (x :: y :: r0)).
      { pose proof (take_run_desc _ _ _ _ E) as Hs.
        constructor; [assumption|].
        apply StronglySorted_cons in Hs as [Hall _].
        constructor; [exact Eyx|].
        rewrite Forall_forall in Hall |- *. intros z Hz. unfold gt in *.
        apply (lt_trans z y x); [by apply Hall|exact Eyx]. }
      change ((rev r0 ++ [y]) ++ [x])%list with (rev (x :: y :: r0)).
      split; [by apply rev_desc_sorted|].
      rewrite (rev_desc_stable P _ HP Hg), <- List.filter_app.
      simpl. by rewrite Hl.
    + pose proof (take_run_asc _ _ _ _ E Hd) as Hs.
      split.
      * constructor; [assumption|].
        apply StronglySorted_cons in Hs as [Hall _].
        constructor; [exact Eyx|].
        rewrite Forall_forall in Hall |- *. intros z Hz.
        apply (le_trans x y z Dy); [exact Eyx|by apply Hall].
      * rewrite <- List.filter_app. simpl. by rewrite Hl.
Qed.

(** With a strict weak order on the keys, the sort orders the list and
    keeps the items of every class of equal keys in their order. *)
Theorem sort_spec (P : A -> bool) l :
  antichain P -> Forall D l ->
  StronglySorted le (sort lt l)
  /\ List.filter P (sort lt l) = List.filter P l.
Proof.
  intros HP Hd. unfold sort.
  destruct (count_run lt l) as [run rest] eqn:E.
  destruct (count_run_spec P l run rest HP Hd E) as [Hs Hf].
  pose proof (count_run_perm lt l run rest E) as Hperm.
  assert (Hd' : Forall D (run ++ rest)%list) by (by rewrite Hperm).
  apply Forall_app in Hd' as [Hd1 Hd2].
  destruct (binarysort_spec P rest HP Hd2 run Hs Hd1) as [H1 H2].
  split; [assumption|]. by rewrite H2, List.filter_app.
Qed.

End Stable.

End SortFacts.

(** ** The error monad *)

Lemma bind_Ok {A B} (r : result A) (k : A -> result B) (b : B) :
  r ≫= k = Ok b -> exists a, r = Ok a /\ k a = Ok b.
Proof. destruct r as [a|e]; cbn; [by exists a|discriminate]. Qed.

Lemma bind_Raise {A B} (r : result A) (k : A -> result B) (e : exn) :
  r = Raise e -> r ≫= k = Raise e.
Proof. by intros ->. Qed.

Lemma bind_Ok_eq {A B} (r : result A) (k : A -> result B) (a : A) :
  r = Ok a -> r ≫= k = k a.
Proof. by intros ->. Qed.

(** ** [sorted] with a key *)

Module SortedFacts.
Import ListSort.

Section Keyed.

Context {A K : Type} (lt : K -> K -> bool) (key : A -> result K).

Lemma with_key_Ok x p :
  with_key key x = Ok p -> key x = Ok (fst p) /\ snd p = x.
Proof.
  unfold with_key. intros H. apply bind_Ok in H as (k & Hk & H).
  injection H as <-. by split.
Qed.

Lemma with_key_eq x k : key x = Ok k -> with_key key x = Ok (k, x).
Proof. unfold with_key. by intros ->. Qed.

Lemma with_key_Raise x e : key x = Raise e -> with_key key x = Raise e.
Proof. unfold with_key. by intros ->. Qed.

Lemma mapM_keyed l keyed :
  mapM (with_key key) l = Ok keyed ->
  map snd keyed = l /\ Forall (fun p => key (snd p) = Ok (fst p)) keyed.
Proof.
  revert keyed. induction l as [|x l IH]; intros keyed H.
  - injection H as <-. split; [reflexivity|constructor].
  - change (mapM (with_key key) (x :: l))
      with (p ← with_key key x; k ← mapM (with_key key) l; Ok (p :: k)) in H.
    apply bind_Ok in H as (p & Hp & H). apply bind_Ok in H as (rest & Hr & H).
    injection H as <-. destruct (IH rest Hr) as [IH1 IH2].
    apply with_key_Ok in Hp as [Hp1 Hp2].
    split; [simpl; by f_equal|]. constructor; [by rewrite Hp2|assumption].
Qed.

Lemma mapM_keyed_total l :
  Forall (fun x => exists k, key x = Ok k) l ->
  exists keyed, mapM (with_key key) l = Ok keyed.
Proof.
  induction 1 as [|x l [k Hk] _ [rest IH]].
  - by eexists.
  - change (mapM (with_key key) (x :: l))
      with (p ← with_key key x; k ← mapM (with_key key) l; Ok (p :: k)).
    rewrite (with_key_eq x k Hk). cbn. rewrite IH. cbn. by eexists.
Qed.

Lemma mapM_keyed_raise l x e :
  x ∈ l -> key x = Raise e -> exists e', mapM (with_key key) l = Raise e'.
Proof.
  intros Hin Hx. induction l as [|y l IH]; [by apply elem_of_nil in Hin|].
  change (mapM (with_key key) (y :: l))
    with (p ← with_key key y; k ← mapM (with_key key) l; Ok (p :: k)).
  destruct (key y) as [k|e0] eqn:Ek;
    [rewrite (with_key_eq y k Ek)|rewrite (with_key_Raise y e0 Ek)];
    cbn; [|by eexists].
  apply elem_of_cons in Hin as [->|Hin]; [congruence|].
  destruct (IH Hin) as [e' ->]. cbn. by eexists.
Qed.

(** The result of [sorted] is a rearrangement of the list. *)
Lemma py_sorted_perm reverse l out :
  py_sorted lt key reverse l = Ok out -> out ≡ₚ l.
Proof.
  unfold py_sorted.
  destruct (mapM (with_key key) l) as [keyed|e] eqn:E; cbn; [|discriminate].
  intros H. injection H as <-.
  destruct (mapM_keyed l keyed E) as [<- _].
  apply Permutation_map.
  destruct reverse.
  - by rewrite <- Permutation_rev, SortFacts.sort_perm, <- Permutation_rev.
  - apply SortFacts.sort_perm.
Qed.

Lemma filter_keyed (P : K -> bool) (keyed : list (K * A)) :
  Forall (fun p => key (snd p) = Ok (fst p)) keyed ->
  List.filter (fun x => match key x with Ok k => P k | Raise _ => false end)
    (map snd keyed)
  = map snd (List.filter (fun p => P (fst p)) keyed).
Proof.
  induction 1 as [|p keyed Hp _ IH]; simpl; [reflexivity|].
  rewrite Hp, IH. by destruct (P (fst p)).
Qed.

Context (D : K -> Prop).

Hypothesis lt_irrefl : forall x, lt x x = false.
Hypothesis lt_trans :
  forall x y z, lt x y = true -> lt y z = true -> lt x z = true.
Hypothesis lt_cotrans :
  forall x y z, D y -> lt x z = true -> lt x y = true \/ lt y z = true.

(** When [<] is a strict weak order on the keys of the list, the items
    whose keys are in one class of equal keys come out of [sorted] in
    the order in which they went in, reversed or not. *)
Lemma py_sorted_stable (P : K -> bool) reverse l out :
  (forall x y, P x = true -> P y = true -> lt x y = false) ->
  Forall (fun x => exists k, key x = Ok k /\ D k) l ->
  py_sorted lt key reverse l = Ok out ->
  List.filter (fun x => match key x with Ok k => P k | Raise _ => false end) out
  = List.filter (fun x => match key x with Ok k => P k | Raise _ => false end) l.
Proof.
  intros HP Hd. unfold py_sorted.
  destruct (mapM (with_key key) l) as [keyed|e] eqn:E; cbn; [|discriminate].
  intros H. injection H as <-.
  destruct (mapM_keyed l keyed E) as [Hl Hk].
  set (lt' := fun a b : K * A => lt (fst a) (fst b)).
  set (P' := fun p : K * A => P (fst p)).
  assert (Hd' : Forall (fun p => D (fst p)) keyed).
  { rewrite Forall_forall in Hd. rewrite Forall_forall in Hk.
    rewrite Forall_forall. intros p Hp.
    destruct (Hd (snd p)) as (k & Hk1 & Hk2).
    - rewrite <- Hl. apply list_elem_of_fmap. by exists p.
    - rewrite (Hk p Hp) in Hk1. by injection Hk1 as ->. }
  assert (Hsort : forall input, Forall (fun p => D (fst p)) input ->
            List.filter P' (sort lt' input) = List.filter P' input).
  { intros input Hin.
    apply (SortFacts.sort_spec lt' (fun p => D (fst p))); subst lt' P'; cbn; eauto. }
  rewrite <- Hl. rewrite (filter_keyed P keyed Hk).
  destruct reverse.
  - rewrite filter_keyed.
    + fold P'. rewrite List.filter_rev, Hsort, List.filter_rev, rev_involutive;
        [reflexivity|].
      by rewrite <- Permutation_rev.
    + by rewrite <- Permutation_rev, SortFacts.sort_perm, <- Permutation_rev.
  - rewrite filter_keyed.
    + fold P'. by rewrite Hsort.
    + by rewrite SortFacts.sort_perm.
Qed.

End Keyed.

End SortedFacts.

(** ** The usage-metrics parsing loop *)

Module MetricsFacts.
Import Metrics.

Lemma split_on_length sep s :
  length (PyStr.split_on sep s) = S (PyStr.count sep s).
Proof.
  induction s as [|c s IH]; simpl; [reflexivity|].
  destruct (Ascii.eqb c sep); simpl; [by rewrite IH|].
  destruct (PyStr.split_on sep s); simpl in *; [discriminate|assumption].
Qed.

Lemma contains_count sep s :
  PyStr.contains sep s = false <-> PyStr.count sep s = O.
Proof.
  induction s as [|c s IH]; simpl; [done|].
  destruct (Ascii.eqb c sep); simpl; [split; discriminate|exact IH].
Qed.

(** An item without [=] leaves the mapping as it is. *)
Lemma parse_item_skip d item :
  PyStr.contains "=" item = false -> parse_item d item = Ok d.
Proof. unfold parse_item. by intros ->. Qed.

(** An item with one [=] is cut there, and the value is stored as an
    [int] when [int()] accepts it, as the raw text otherwise. *)
Lemma parse_item_one d item :
  PyStr.count "=" item = 1%nat ->
  exists key value,
    PyStr.split_on "=" item = [key; value]
    /\ parse_item d item
       = Ok (<[key := match PyStr.py_int value with
                      | Some n => MInt n
                      | None => MStr value
                      end]> d).
Proof.
  intros H. unfold parse_item.
  destruct (PyStr.contains "=" item) eqn:E.
  2: { apply contains_count in E. congruence. }
  pose proof (split_on_length "=" item) as Hl. rewrite H in Hl.
  destruct (PyStr.split_on "=" item) as [|k [|v [|w t]]]; try discriminate.
  by exists k, v.
Qed.

(** An item with two [=] or more makes the unpacking raise. *)
Lemma parse_item_many d item :
  (2 <= PyStr.count "=" item)%nat -> parse_item d item = Raise unpack_error.
Proof.
  intros H. unfold parse_item.
  destruct (PyStr.contains "=" item) eqn:E.
  2: { apply contains_count in E. lia. }
  pose proof (split_on_length "=" item) as Hl.
  destruct (PyStr.split_on "=" item) as [|k [|v [|w t]]];
    simpl in Hl; try reflexivity; lia.
Qed.

Lemma parse_items_ok items : forall d,
  Forall (fun item => (PyStr.count "=" item <= 1)%nat) items ->
  exists d', parse_items d items = Ok d'.
Proof.
  induction items as [|item items IH]; intros d H; simpl; [by eexists|].
  apply Forall_cons in H as [H1 H2].
  destruct (PyStr.count "=" item) as [|[|n]] eqn:E; [| |lia].
  - rewrite parse_item_skip; [by apply IH|]. by apply contains_count.
  - destruct (parse_item_one d item E) as (k & v & _ & ->). by apply IH.
Qed.

(** The loop never raises on a text whose items have one [=] at most. *)
Lemma parse_metrics_ok s :
  Forall (fun item => (PyStr.count "=" item <= 1)%nat) (PyStr.split s) ->
  exists d, parse_metrics s = Ok d.
Proof. apply parse_items_ok. Qed.

Lemma parse_items_raise items : forall d item,
  item ∈ items -> (2 <= PyStr.count "=" item)%nat ->
  parse_items d items = Raise unpack_error.
Proof.
  induction items as [|x items IH]; intros d item Hin Hc;
    [by apply elem_of_nil in Hin|].
  simpl. unfold parse_item at 1.
  destruct (PyStr.contains "=" x) eqn:E.
  - pose proof (split_on_length "=" x) as Hl.
    destruct (PyStr.split_on "=" x) as [|k [|v [|w t]]] eqn:Es; try reflexivity.
    cbn. apply elem_of_cons in Hin as [->|Hin]; [|by eapply IH].
    simpl in Hl. lia.
  - cbn. apply elem_of_cons in Hin as [->|Hin]; [|by eapply IH].
    apply contains_count in E. lia.
Qed.

Lemma parse_items_skip items : forall d,
  Forall (fun item => PyStr.contains "=" item = false) items ->
  parse_items d items = Ok d.
Proof.
  induction items as [|item items IH]; intros d H; simpl; [reflexivity|].
  apply Forall_cons in H as [H1 H2]. rewrite (parse_item_skip d item H1).
  by apply IH.
Qed.

End MetricsFacts.

(** C1. The ingestion loop splits on every [=] and unpacks two parts:
    on an item with two [=] (here the third item of a usage text) the
    unpacking raises [ValueError], outside the [try] that guards the
    integer coercion, so that the loop raises instead of under-reporting. *)
Theorem ingest_raises_on_second_equals :
  Metrics.ingest "prompt_tokens=120 completion_tokens=45 model=ft:gpt-4=v2"
  = Raise (ValueError "too many values to unpack (expected 2)").
Proof. vm_compute. reflexivity. Qed.

(** C5. The usage text of the example is ingested into the mapping of
    its four keys, the three counts as integers and the model name as
    text. *)
Theorem ingest_usage_example :
  Metrics.parse_metrics
    "prompt_tokens=120 completion_tokens=45 total_tokens=165 model=gpt-4"
  = Ok ({[ "prompt_tokens" := Metrics.MInt 120;
           "completion_tokens" := Metrics.MInt 45;
           "total_tokens" := Metrics.MInt 165;
           "model" := Metrics.MStr "gpt-4" ]}).
Proof. vm_compute. reflexivity. Qed.

(** C6. A usage text none of whose white-space separated items has an
    [=] (the empty text among them) is ingested without an exception
    into the empty mapping, and the three token counters are 0. *)
Theorem ingest_malformed_is_zero (metrics_str : string) :
  Forall (fun item => PyStr.contains "=" item = false) (PyStr.split metrics_str) ->
  Metrics.parse_metrics metrics_str = Ok ∅
  /\ Metrics.ingest metrics_str
     = Ok {| Metrics.input_tokens := Metrics.MInt 0;
             Metrics.output_tokens := Metrics.MInt 0;
             Metrics.total_tokens := Metrics.MInt 0 |}.
Proof.
  intros H. unfold Metrics.ingest, Metrics.parse_metrics.
  rewrite (MetricsFacts.parse_items_skip _ ∅ H). split; reflexivity.
Qed.

Lemma ingest_malformed_is_zero_witness :
  (Metrics.parse_metrics "" = Ok ∅
   /\ Metrics.ingest ""
      = Ok {| Metrics.input_tokens := Metrics.MInt 0;
              Metrics.output_tokens := Metrics.MInt 0;
              Metrics.total_tokens := Metrics.MInt 0 |})
  /\ (Metrics.parse_metrics "usage not available" = Ok ∅
      /\ Metrics.ingest "usage not available"
         = Ok {| Metrics.input_tokens := Metrics.MInt 0;
                 Metrics.output_tokens := Metrics.MInt 0;
                 Metrics.total_tokens := Metrics.MInt 0 |})
  /\ (Metrics.parse_metrics "{}" = Ok ∅
      /\ Metrics.ingest "{}"
         = Ok {| Metrics.input_tokens := Metrics.MInt 0;
                 Metrics.output_tokens := Metrics.MInt 0;
                 Metrics.total_tokens := Metrics.MInt 0 |}).
Proof.
  split; [|split].
  - apply (ingest_malformed_is_zero ""). vm_compute. constructor.
  - apply (ingest_malformed_is_zero "usage not available").
    vm_compute. repeat constructor.
  - apply (ingest_malformed_is_zero "{}"). vm_compute. repeat constructor.
Defined.

(** ** The run button *)

(** C4. A run with an empty industry or an empty country shows the
    error message and does nothing else: the crew is not started, so no
    external capability is invoked. *)
Theorem run_with_missing_input (industry country : string)
    (api_key : option string)
    (kickoff : string -> string -> result (list Json.json)) :
  industry = "" \/ country = "" ->
  Handler.on_run industry country api_key kickoff
  = [Handler.StError "Please enter an industry and country"]
  /\ Handler.invocations (Handler.on_run industry country api_key kickoff) = [].
Proof.
  intros H. unfold Handler.on_run.
  assert (E : Handler.is_empty industry || Handler.is_empty country = true).
  { destruct H as [-> | ->]; [reflexivity|]. apply orb_true_r. }
  rewrite E. split; reflexivity.
Qed.

Lemma run_with_missing_input_witness :
  Handler.on_run "FinTech" "" (Some "sk-key") (fun _ _ => Ok [])
  = [Handler.StError "Please enter an industry and country"]
  /\ Handler.invocations
       (Handler.on_run "FinTech" "" (Some "sk-key") (fun _ _ => Ok [])) = [].
Proof.
  apply (run_with_missing_input "FinTech" "" (Some "sk-key") (fun _ _ => Ok [])).
  right. reflexivity.
Defined.

(** A run with both inputs and a key starts the crew, once. *)
Lemma run_with_inputs_invokes (industry country key : string) kickoff :
  industry <> "" -> country <> "" -> key <> "" ->
  exists rest,
    Handler.on_run industry country (Some key) kickoff
    = Handler.Kickoff industry country :: rest.
Proof.
  intros Hi Hc Hk. unfold Handler.on_run, Handler.is_empty.
  apply String.eqb_neq in Hi, Hc, Hk. cbn. rewrite Hi, Hc, Hk. cbn.
  by eexists.
Qed.

(** ** The usage accountant *)

(** C9. After [track_usage(1000, 500)] on a fresh accountant, the
    summary has 1000 input tokens, 500 output tokens and the cost
    [1000 * rate_in + 500 * rate_out]; being a function of the counts
    and of the two rates, it is the same at every call. *)
Theorem track_then_summary (rate_in rate_out : Q) :
  ModelsPricing.get_usage_summary rate_in rate_out
    (ModelsPricing.track_usage ModelsPricing.fresh 1000 500)
  = {| ModelsPricing.summary_input_tokens := 1000;
       ModelsPricing.summary_output_tokens := 500;
       ModelsPricing.total_cost := (1000 * rate_in + 500 * rate_out)%Q |}.
Proof. reflexivity. Qed.

(** The counts accumulate over the calls, and [reset] zeroes them. *)
Lemma track_accumulates st a b c d :
  ModelsPricing.track_usage (ModelsPricing.track_usage st a b) c d
  = ModelsPricing.track_usage st (a + c) (b + d).
Proof.
  unfold ModelsPricing.track_usage. simpl. f_equal; lia.
Qed.

(** ** The display of the results *)

Module AppFacts.
Import Json App Drawable.

Lemma rendered_app w1 w2 : rendered (w1 ++ w2)%list = (rendered w1 ++ rendered w2)%list.
Proof. apply omap_app. Qed.

(** What a sequence in [ui] draws and returns. *)
Lemma ui_bind_fst {A B} (m : ui A) (k : A -> ui B) :
  fst (m ≫= k)
  = (fst m ++ match snd m with Ok a => fst (k a) | Raise _ => [] end)%list.
Proof.
  destruct m as [w [a|e]]; cbn; [|by rewrite app_nil_r].
  by destruct (k a).
Qed.

Lemma ui_bind_snd {A B} (m : ui A) (k : A -> ui B) :
  snd (m ≫= k)
  = match snd m with Ok a => snd (k a) | Raise e => Raise e end.
Proof. destruct m as [w [a|e]]; cbn; [|reflexivity]. by destruct (k a). Qed.

Lemma sum_scores_raise l : forall acc lead e,
  JDict lead ∈ l -> lead_score lead = Raise e ->
  exists e', sum_scores acc l = Raise e'.
Proof.
  induction l as [|x l IH]; intros acc lead e Hin He;
    [by apply elem_of_nil in Hin|].
  apply elem_of_cons in Hin as [<-|Hin].
  - simpl. rewrite He. by eexists.
  - destruct x; simpl; try by eapply IH.
    destruct (lead_score d) as [s|e0]; cbn; [by eapply IH|by eexists].
Qed.

Lemma sum_scores_ok l : forall acc,
  Forall (fun x => drawable x = true) l -> exists t, sum_scores acc l = Ok t.
Proof.
  induction l as [|x l IH]; intros acc H; [by eexists|].
  apply Forall_cons in H as [Hx H].
  destruct x; simpl; try by apply IH.
  simpl in Hx. destruct (lead_score d) as [s|e]; [|discriminate].
  cbn. by apply IH.
Qed.

Lemma high_quality_ok l :
  Forall (fun x => drawable x = true) l -> exists n, high_quality l = Ok n.
Proof.
  induction l as [|x l IH]; intros H; [by eexists|].
  apply Forall_cons in H as [Hx H]. destruct (IH H) as [n Hn].
  destruct x; simpl; try by eexists.
  simpl in Hx. destruct (lead_score d) as [s|e]; [|discriminate].
  cbn. rewrite Hn. cbn. by eexists.
Qed.

Lemma sort_key_ok x : drawable x = true -> exists k, sort_key x = Ok k.
Proof.
  destruct x; simpl; try by eexists.
  destruct (lead_score d); [by eexists|discriminate].
Qed.

(** The sort gives a rearrangement of the list, when it gives one. *)
Lemma sort_leads_perm l sorted : sort_leads l = Ok sorted -> sorted ≡ₚ l.
Proof. apply SortedFacts.py_sorted_perm. Qed.

Lemma sort_leads_ok l :
  Forall (fun x => exists k, sort_key x = Ok k) l ->
  exists sorted, sort_leads l = Ok sorted.
Proof.
  intros H. unfold sort_leads, ListSort.py_sorted.
  destruct (SortedFacts.mapM_keyed_total sort_key l H) as [keyed ->].
  cbn. by eexists.
Qed.

Lemma render_people_spec people :
  rendered (fst (render_people people)) = []
  /\ snd (render_people people) = Ok tt.
Proof.
  induction people as [|p people [IH1 IH2]]; [by split|].
  cbn [render_people]. rewrite ui_bind_fst, ui_bind_snd, rendered_app.
  cbn. by split.
Qed.

Lemma render_decision_makers_spec lead :
  rendered (fst (render_decision_makers lead)) = []
  /\ (people_ok lead = true -> snd (render_decision_makers lead) = Ok tt).
Proof.
  unfold render_decision_makers, people_ok.
  destruct (truthy (get lead "key_decision_makers" (JList []))); [|by split].
  destruct (iter_dicts (get lead "key_decision_makers" (JList [])))
    as [people|e]; cbn.
  - destruct (render_people_spec people) as [H1 H2].
    destruct (render_people people) as [w r]. cbn in *. by split.
  - split; [reflexivity|discriminate].
Qed.

#[local] Opaque PyFloat.of_Z PyFloat.div PyFloat.leb PyFloat.zero str get lookup.

(** One lead draws one expander, and ends well when it is drawable. *)
Lemma render_lead_spec idx lead :
  rendered (fst (render_lead idx lead))
  = [(idx, str (get lead "company_name" (JStr "Unknown Company")))]
  /\ (drawable (JDict lead) = true -> snd (render_lead idx lead) = Ok tt).
Proof.
  unfold render_lead, drawable, progress_ok, st_progress.
  destruct (render_decision_makers_spec lead) as [Hp1 Hp2].
  destruct (render_decision_makers lead) as [wp rp]. cbn in Hp1, Hp2.
  destruct (lead_score lead) as [s|e]; cbn; [|split; [reflexivity|discriminate]].
  destruct (PyFloat.leb PyFloat.zero (PyFloat.div s (PyFloat.of_Z 10))
            && PyFloat.leb (PyFloat.div s (PyFloat.of_Z 10)) (PyFloat.of_Z 1));
    cbn; [|split; [reflexivity|discriminate]].
  destruct (lookup lead "recommendations"); cbn; rewrite ?Hp1; auto.
Qed.

#[local] Transparent PyFloat.of_Z PyFloat.div PyFloat.leb PyFloat.zero str get lookup.

Lemma render_from_spec l : forall idx,
  rendered (fst (render_from idx l))
  = match snd (render_from idx l) with
    | Ok _ => expanders idx l
    | Raise _ => rendered (fst (render_from idx l))
    end
  /\ (Forall (fun x => drawable x = true) l -> snd (render_from idx l) = Ok tt).
Proof.
  induction l as [|x l IH]; intros idx; [by split|].
  destruct (IH (S idx)) as [IH1 IH2].
  destruct x; cbn [render_from expanders]; try (split; [exact IH1|]);
    try (intros H; apply Forall_cons in H as [_ H]; by apply IH2).
  destruct (render_lead_spec idx d) as [H1 H2].
  rewrite ui_bind_fst, ui_bind_snd, rendered_app, H1.
  destruct (snd (render_lead idx d)) as [[]|e] eqn:E.
  - split.
    + destruct (snd (render_from (S idx) l)); [by rewrite IH1|reflexivity].
    + intros H. apply Forall_cons in H as [_ H]. by apply IH2.
  - split; [reflexivity|].
    intros H. apply Forall_cons in H as [Hd _]. by discriminate (H2 Hd).
Qed.

(** A list of drawable items is displayed to the end: the metrics, one
    expander for each [dict] of the sorted list, and the raw data. *)
Lemma display_ok l :
  l <> [] ->
  Forall (fun x => drawable x = true) l ->
  exists w sorted,
    display l = (w, Ok sorted)
    /\ sort_leads l = Ok sorted
    /\ sorted ≡ₚ l
    /\ rendered w = expanders 1 sorted.
Proof.
  intros Hne Hd. unfold display, avg_score.
  assert (Hlen : (0 <? length l)%nat = true).
  { destruct l; [done|]. reflexivity. }
  rewrite Hlen.
  destruct (sum_scores_ok l PyFloat.zero Hd) as [t ->].
  destruct (high_quality_ok l Hd) as [n ->].
  destruct (sort_leads_ok l) as [sorted Hs].
  { eapply Forall_impl; [exact Hd|]. intros x. apply sort_key_ok. }
  rewrite Hs. cbn.
  pose proof (sort_leads_perm l sorted Hs) as Hperm.
  assert (Hd' : Forall (fun x => drawable x = true) sorted) by (by rewrite Hperm).
  destruct (render_from_spec sorted 1) as [H1 H2]. specialize (H2 Hd').
  rewrite H2 in H1.
  destruct (render_from 1 sorted) as [w r]. cbn in *. subst r.
  exists (MetricTotalLeads (length l) :: MetricAverageScore
            (PyFloat.div t (PyFloat.of_Z (Z.of_nat (length l))))
          :: MetricHighQuality n :: (w ++ [RawData sorted]))%list, sorted.
  repeat split; auto.
  unfold rendered in *. cbn. rewrite omap_app, H1. cbn. by rewrite app_nil_r.
Qed.

(** A score that [float] does not convert ends the display before any
    widget is drawn. *)
Lemma display_bad_score l lead e :
  JDict lead ∈ l -> lead_score lead = Raise e ->
  exists e',
    display l = ([], Raise e')
    /\ avg_score l = Raise e'.
Proof.
  intros Hin He. unfold display, avg_score.
  assert (Hlen : (0 <? length l)%nat = true).
  { destruct l; [by apply elem_of_nil in Hin|]. reflexivity. }
  rewrite Hlen.
  destruct (sum_scores_raise l PyFloat.zero lead e Hin He) as [e' ->].
  by exists e'.
Qed.

End AppFacts.

(** ** The report *)

Module ReportFacts.
Import Json Report.

(** An item that is not a [dict] ends the report loop with an exception,
    at that item or before it. *)
Lemma lead_sections_raise l x :
  x ∈ l -> is_dict x = false -> exists e, lead_sections l = Raise e.
Proof.
  intros Hin Hx. induction l as [|y l IH]; [by apply elem_of_nil in Hin|].
  cbn [lead_sections].
  destruct (lead_section y) as [s|e] eqn:Ey; [|by exists e].
  apply elem_of_cons in Hin as [->|Hin].
  - destruct y; try discriminate Hx; discriminate Ey.
  - destruct (IH Hin) as [e ->]. by exists e.
Qed.

Lemma download_data_error l x :
  x ∈ l -> is_dict x = false ->
  exists e, build l = Raise e /\ download_data l = error_prefix ++ exn_str e.
Proof.
  intros Hin Hx. destruct (lead_sections_raise l x Hin Hx) as [e He].
  exists e. unfold download_data, build. rewrite He. by split.
Qed.

(** A key that is missing is no obstacle: without decision makers the
    section of a [dict] is always written. *)
Lemma lead_section_ok lead :
  lookup lead "key_decision_makers" = None ->
  exists text, lead_section (JDict lead) = Ok text.
Proof.
  intros H. unfold lead_section, decision_makers, get. rewrite H. cbn.
  by eexists.
Qed.

Lemma results_for_report_perm l : Handler.results_for_report l ≡ₚ l.
Proof.
  unfold Handler.results_for_report.
  destruct (App.avg_score l); [|reflexivity].
  destruct (App.high_quality l); [|reflexivity].
  destruct (App.sort_leads l) eqn:E; [|reflexivity].
  by apply AppFacts.sort_leads_perm.
Qed.

End ReportFacts.

(** ** Missing and malformed fields *)

(** The structure of a record has its eight declared fields, whatever
    the record. *)
Lemma model_dump_fields (r : Schema.LeadOutput) :
  map fst (Schema.model_dump r) = Schema.declared_fields.
Proof. reflexivity. Qed.

(** A [dict] that lacks the score and the decision makers is drawable,
    whatever its other keys: a key that is absent never raises. *)
Lemma drawable_without_keys (lead : Json.dict) :
  Json.lookup lead "score" = None ->
  Json.lookup lead "key_decision_makers" = None ->
  Drawable.drawable (Json.JDict lead) = true.
Proof.
  intros Hs Hk.
  unfold Drawable.drawable, App.lead_score, Drawable.people_ok, Json.get.
  rewrite Hs, Hk. reflexivity.
Qed.

(** C2. No field is dropped or nulled. When the score of a lead cannot
    be converted by [float], the display stops with the exception before
    it has drawn a widget, so that no lead is shown, and the script goes
    on to the report, built from the list as it was parsed. *)
Theorem unconvertible_score_aborts_display (industry country : string)
    (results_list : list Json.json) (lead : Json.dict) (e : exn) :
  Json.JDict lead ∈ results_list ->
  App.lead_score lead = Raise e ->
  exists e',
    App.display results_list = ([], Raise e')
    /\ Handler.show_results industry country results_list
       = [Handler.Widgets [];
          Handler.ErrorDisplaying e';
          Handler.DownloadButton (Report.download_data results_list)
            ("lead_generation_report_" ++ industry ++ "_" ++ country ++ ".md")].
Proof.
  intros Hin He.
  destruct (AppFacts.display_bad_score results_list lead e Hin He) as (e' & Hd & Ha).
  exists e'. split; [exact Hd|].
  unfold Handler.show_results, Handler.results_for_report. rewrite Hd, Ha.
  destruct results_list; [by apply elem_of_nil in Hin|]. reflexivity.
Qed.

Lemma unconvertible_score_aborts_display_witness :
  exists e',
    App.display Drawable.bad_score_leads = ([], Raise e')
    /\ Handler.show_results "FinTech" "Norway" Drawable.bad_score_leads
       = [Handler.Widgets [];
          Handler.ErrorDisplaying e';
          Handler.DownloadButton (Report.download_data Drawable.bad_score_leads)
            ("lead_generation_report_" ++ "FinTech" ++ "_" ++ "Norway" ++ ".md")].
Proof.
  apply (unconvertible_score_aborts_display "FinTech" "Norway"
           Drawable.bad_score_leads
           [("company_name", Json.JStr "Bolt"); ("score", Json.JStr "high")]
           (ValueError "could not convert string to float: 'high'")).
  - apply list_elem_of_further, list_elem_of_here.
  - vm_compute. reflexivity.
Defined.

(** Against C2 as stated: with one lead whose score is the word "high"
    after a complete lead, the display stops with [ValueError] and shows
    no lead at all, the complete one included. *)
Lemma malformed_score_discards_valid_lead :
  App.display Drawable.bad_score_leads
  = ([], Raise (ValueError "could not convert string to float: 'high'"))
  /\ App.rendered (fst (App.display Drawable.bad_score_leads)) = []
  /\ Drawable.drawable (hd Json.JNull Drawable.bad_score_leads) = true.
Proof. vm_compute. repeat split. Qed.

(** C3. A record of the schema with no score, which the schema allows,
    has its [score] field present and null; the display converts it with
    [float] and stops with [TypeError] before any widget is drawn. *)
Theorem null_score_raises_in_display (r : Schema.LeadOutput) :
  Schema.score r = None ->
  Json.lookup (Schema.model_dump r) "score" = Some Json.JNull
  /\ App.display [Json.JDict (Schema.model_dump r)]
     = ([], Raise (TypeError
          "float() argument must be a string or a real number, not 'NoneType'")).
Proof.
  intros H. split.
  - cbn. by rewrite H.
  - unfold App.display, App.avg_score. cbn [length Nat.ltb Nat.leb].
    cbn [App.sum_scores]. unfold App.lead_score, Json.get.
    replace (Json.lookup (Schema.model_dump r) "score") with (Some Json.JNull)
      by (cbn; by rewrite H).
    reflexivity.
Qed.

Lemma null_score_raises_in_display_witness :
  Json.lookup (Schema.model_dump Drawable.unscored) "score" = Some Json.JNull
  /\ App.display [Json.JDict (Schema.model_dump Drawable.unscored)]
     = ([], Raise (TypeError
          "float() argument must be a string or a real number, not 'NoneType'")).
Proof. apply (null_score_raises_in_display Drawable.unscored). reflexivity. Defined.

(** The same record is written into the report, where the score is only
    formatted. *)
Lemma null_score_in_report :
  exists text,
    Report.build [Json.JDict (Schema.model_dump Drawable.unscored)] = Ok text.
Proof. vm_compute. by eexists. Qed.

(** A record whose score is within the scale is drawable, whatever its
    other fields: a null field raises nowhere in the display. *)
Lemma scored_record_drawable (r : Schema.LeadOutput) (n : Z) :
  Schema.score r = Some n -> (0 <= n <= 10)%Z ->
  Drawable.drawable (Json.JDict (Schema.model_dump r)) = true.
Proof.
  intros Hs Hn.
  unfold Drawable.drawable, App.lead_score, Drawable.people_ok, Json.get.
  replace (Json.lookup (Schema.model_dump r) "score") with (Some (Json.JInt n))
    by (cbn; by rewrite Hs).
  replace (Json.lookup (Schema.model_dump r) "key_decision_makers")
    with (Some (Schema.opt (fun l => Json.JList (map Schema.str_dict l))
                  (Schema.key_decision_makers r))) by reflexivity.
  assert (Hp : (match Json.py_float (Json.JInt n) with
                | Ok score => Drawable.progress_ok score
                | Raise _ => false
                end) = true).
  { assert (E : n ∈ [0; 1; 2; 3; 4; 5; 6; 7; 8; 9; 10]%Z).
    { rewrite !elem_of_cons. lia. }
    rewrite !elem_of_cons in E.
    destruct E as [->|[->|[->|[->|[->|[->|[->|[->|[->|[->|[->|E]]]]]]]]]]];
      [reflexivity..|by apply elem_of_nil in E]. }
  change (default (Json.JInt 0) (Some (Json.JInt n))) with (Json.JInt n).
  destruct (Json.py_float (Json.JInt n)) as [score|e]; [|discriminate].
  rewrite Hp. destruct (Schema.key_decision_makers r) as [l|]; [|reflexivity].
  cbn [andb default Schema.opt Json.iter_dicts raises negb]. apply orb_true_r.
Qed.

(** ** The sort by score *)

(** C8. When every score converts to a float that is not a NaN (an item
    that is not a mapping counting as 0), the sort by descending score
    returns a rearrangement of the list in which the leads of any one
    score are in their original order. *)
Theorem sort_by_score_is_stable (results_list : list Json.json) :
  Forall (fun x => Leads.number_key x = true) results_list ->
  exists sorted,
    App.sort_leads results_list = Ok sorted
    /\ sorted ≡ₚ results_list
    /\ forall k : spec_float,
         List.filter (Leads.has_score k) sorted
         = List.filter (Leads.has_score k) results_list.
Proof.
  intros H.
  assert (Hk : Forall (fun x => exists k, App.sort_key x = Ok k
                                 /\ PyFloat.is_nan k = false) results_list).
  { eapply Forall_impl; [exact H|]. intros x. unfold Leads.number_key.
    destruct (App.sort_key x) as [k|e]; [|discriminate].
    intros Hn. exists k. split; [reflexivity|]. by apply negb_true_iff. }
  destruct (AppFacts.sort_leads_ok results_list) as [sorted Hs].
  { eapply Forall_impl; [exact Hk|]. intros x (k & Hx & _). by exists k. }
  exists sorted. split; [exact Hs|].
  split; [by apply AppFacts.sort_leads_perm|].
  intros k. unfold Leads.has_score.
  apply (SortedFacts.py_sorted_stable PyFloat.ltb App.sort_key
           (fun f => PyFloat.is_nan f = false)
           FloatOrder.ltb_irrefl FloatOrder.ltb_trans FloatOrder.ltb_cotrans
           (fun f => PyFloat.eqb f k) true results_list sorted);
    [|exact Hk|exact Hs].
  intros x y Hx Hy. by apply (FloatOrder.eqb_ltb x y k).
Qed.

Lemma sort_by_score_is_stable_witness :
  exists sorted,
    App.sort_leads Drawable.mixed_results = Ok sorted
    /\ sorted ≡ₚ Drawable.mixed_results
    /\ forall k : spec_float,
         List.filter (Leads.has_score k) sorted
         = List.filter (Leads.has_score k) Drawable.mixed_results.
Proof.
  apply (sort_by_score_is_stable Drawable.mixed_results).
  repeat constructor.
Defined.

(** Against C8 as stated: of the seven leads, "A" stands before "B" and
    both have the score 2; a third lead has a score that converts to a
    NaN, and the sorted list has "B" before "A". *)
Lemma sort_with_nan_is_not_stable :
  exists sorted,
    App.sort_leads Leads.nan_leads = Ok sorted
    /\ map Leads.company sorted = ["B"; "C"; "D"; "E"; "A"; "F"; "Z"]
    /\ map Leads.company
         (List.filter (Leads.has_score (PyFloat.of_Z 2)) Leads.nan_leads)
       = ["A"; "B"]
    /\ map Leads.company (List.filter (Leads.has_score (PyFloat.of_Z 2)) sorted)
       = ["B"; "A"].
Proof. eexists. split; [vm_compute; reflexivity|]. vm_compute. repeat split. Qed.

(** ** Items that are not mappings *)

Lemma expanders_length l : forall idx,
  length (Drawable.expanders idx l) = length (List.filter Json.is_dict l).
Proof.
  induction l as [|x l IH]; intros idx; [reflexivity|].
  destruct x; simpl; by rewrite ?IH.
Qed.

Lemma filter_length_perm {A} (P : A -> bool) (l1 l2 : list A) :
  l1 ≡ₚ l2 -> length (List.filter P l1) = length (List.filter P l2).
Proof.
  induction 1 as [|x l1 l2 _ IH|x y l|l1 l2 l3 _ IH1 _ IH2]; simpl.
  - reflexivity.
  - destruct (P x); simpl; by rewrite IH.
  - destruct (P x), (P y); reflexivity.
  - by rewrite IH1.
Qed.

(** C10. When the result list has an item that is not a mapping, the
    report loop raises and the downloadable text is the error message
    alone; the display of the same list, whose mappings it can draw,
    passes over the other items without an exception and draws one
    expander for each mapping, in the sorted order. *)
Theorem report_fails_where_display_skips (results_list : list Json.json)
    (x : Json.json) :
  x ∈ results_list -> Json.is_dict x = false ->
  Forall (fun y => Drawable.drawable y = true) results_list ->
  (exists e,
     Report.build (Handler.results_for_report results_list) = Raise e
     /\ Report.download_data (Handler.results_for_report results_list)
        = Report.error_prefix ++ exn_str e)
  /\ (exists w sorted,
        App.display results_list = (w, Ok sorted)
        /\ sorted ≡ₚ results_list
        /\ App.rendered w = Drawable.expanders 1 sorted
        /\ length (App.rendered w)
           = length (List.filter Json.is_dict results_list)).
Proof.
  intros Hin Hx Hd. split.
  - apply (ReportFacts.download_data_error _ x); [|exact Hx].
    by rewrite ReportFacts.results_for_report_perm.
  - destruct (AppFacts.display_ok results_list) as (w & sorted & H1 & _ & H2 & H3).
    { intros ->. by apply elem_of_nil in Hin. }
    { exact Hd. }
    exists w, sorted. repeat split; auto.
    rewrite H3, expanders_length. by apply filter_length_perm.
Qed.

Lemma report_fails_where_display_skips_witness :
  (exists e,
     Report.build (Handler.results_for_report Drawable.mixed_results) = Raise e
     /\ Report.download_data (Handler.results_for_report Drawable.mixed_results)
        = Report.error_prefix ++ exn_str e)
  /\ (exists w sorted,
        App.display Drawable.mixed_results = (w, Ok sorted)
        /\ sorted ≡ₚ Drawable.mixed_results
        /\ App.rendered w = Drawable.expanders 1 sorted
        /\ length (App.rendered w)
           = length (List.filter Json.is_dict Drawable.mixed_results)).
Proof.
  apply (report_fails_where_display_skips Drawable.mixed_results
           (Json.JStr "no more leads")).
  - apply list_elem_of_further, list_elem_of_here.
  - reflexivity.
  - repeat constructor.
Defined.

(** On that list, the report is the message of the [AttributeError] and
    the display shows the two leads, numbered 1 and 2, the item that is
    not a mapping having the number 3. *)
Lemma mixed_results_example :
  Report.download_data (Handler.results_for_report Drawable.mixed_results)
  = "Error generating report: 'str' object has no attribute 'get'"
  /\ App.rendered (fst (App.display Drawable.mixed_results))
     = [(1%nat, "Bolt"); (2%nat, "Acme")].
Proof. vm_compute. split; reflexivity. Qed.

(** ** Reading back what the report writes *)

#[local] Arguments String.append !s1 s2 : simpl nomatch.

Module StrFacts.

Lemma append_assoc (a b c : string) : (a ++ b) ++ c = a ++ (b ++ c).
Proof.
  induction a as [|x a IH]; [reflexivity|].
  change (String x ((a ++ b) ++ c) = String x (a ++ (b ++ c))). by f_equal.
Qed.

Lemma append_nil_r (a : string) : a ++ "" = a.
Proof.
  induction a as [|x a IH]; [reflexivity|].
  change (String x (a ++ "") = String x a). by f_equal.
Qed.

Lemma length_append (a b : string) :
  String.length (a ++ b) = (String.length a + String.length b)%nat.
Proof.
  induction a as [|x a IH]; [reflexivity|].
  change (S (String.length (a ++ b)) = S (String.length a + String.length b)).
  by f_equal.
Qed.

Lemma prefix_append (p s : string) : String.prefix p (p ++ s) = true.
Proof.
  induction p as [|x p IH]; simpl; [by destruct s|].
  destruct (ascii_dec x x); [exact IH|congruence].
Qed.

Lemma drop_chars_append (p s : string) :
  Extract.drop_chars (String.length p) (p ++ s) = s.
Proof. induction p as [|x p IH]; simpl; [by destruct s|exact IH]. Qed.

End StrFacts.


Module NumberFacts.
Import Json JsonParse Digits Wf.

Lemma take_digits_uint d : forall acc rest,
  no_digit_head rest ->
  PyFloat.take_digits acc (NilEmpty.string_of_uint d ++ rest)
  = (uint_value acc d, Decimal.nb_digits d, rest).
Proof.
  induction d; intros acc rest Hr;
    try (cbn -[Z.mul Z.add]; rewrite IHd by assumption; reflexivity).
  destruct rest as [|c r]; [reflexivity|].
  cbn [NilEmpty.string_of_uint append PyFloat.take_digits uint_value
       Decimal.nb_digits].
  cbn in Hr. by rewrite Hr.
Qed.

Lemma uint_value_acc d : forall acc,
  uint_value (Z.pos acc) d = Z.pos (Pos.of_uint_acc d acc).
Proof.
  induction d; intros acc; cbn -[Z.mul Z.add Pos.mul Pos.add];
    [reflexivity|..];
    match goal with
    | |- uint_value ?a _ = Z.pos (Pos.of_uint_acc _ ?b) =>
        replace a with (Z.pos b) by lia; apply IHd
    end.
Qed.

Lemma uint_value_of_uint d : uint_value 0 d = Z.of_N (Pos.of_uint d).
Proof.
  induction d; cbn -[Z.mul Z.add]; [reflexivity|exact IHd|..];
    match goal with
    | |- uint_value ?a _ = Z.pos (Pos.of_uint_acc _ ?b) =>
        replace a with (Z.pos b) by lia; apply uint_value_acc
    end.
Qed.

Lemma uint_value_to_uint p : uint_value 0 (Pos.to_uint p) = Z.pos p.
Proof. by rewrite uint_value_of_uint, DecimalPos.Unsigned.of_to. Qed.

Lemma nzhead_head d :
  match Decimal.nzhead d with Decimal.D0 _ => False | _ => True end.
Proof. induction d; cbn; auto. Qed.

(** The digits of a positive number do not begin with 0. *)
Lemma to_uint_head p :
  match Pos.to_uint p with
  | Decimal.Nil | Decimal.D0 _ => False
  | _ => True
  end.
Proof.
  pose proof (DecimalPos.Unsigned.to_of (Pos.to_uint p)) as H.
  rewrite DecimalPos.Unsigned.of_to in H. cbn in H.
  pose proof (DecimalPos.Unsigned.to_uint_nonzero p) as Hz.
  pose proof (nzhead_head (Pos.to_uint p)) as Hh.
  unfold Decimal.unorm in H.
  destruct (Decimal.nzhead (Pos.to_uint p)) eqn:E; rewrite H in *; try done.
Qed.

Lemma length_string_of_uint d :
  String.length (NilEmpty.string_of_uint d) = Decimal.nb_digits d.
Proof. induction d; cbn; by rewrite ?IHd. Qed.

Lemma delimited_no_digit rest : delimited rest = true -> no_digit_head rest.
Proof.
  destruct rest as [|c r]; cbn; [done|].
  intros H. apply andb_true_iff in H as [H _]. by apply negb_true_iff.
Qed.

Lemma delimited_no_fraction rest :
  delimited rest = true -> starts_fraction rest = false.
Proof.
  destruct rest as [|c r]; [done|]. unfold delimited.
  intros H. apply andb_true_iff in H as [_ H]. by apply negb_true_iff.
Qed.

Lemma take_minus_digit c r :
  PyStr.isdigit c = true -> take_minus (String c r) = (false, String c r).
Proof.
  intros H. ascii_cases c; try reflexivity.
  discriminate H.
Qed.

(** The digits of a number, then a delimiter, are read as the number. *)
Lemma parse_number_uint (d : Decimal.uint) (neg : bool) rest :
  match d with
  | Decimal.Nil => False
  | Decimal.D0 u => u = Decimal.Nil
  | _ => True
  end ->
  delimited rest = true ->
  (Decimal.nb_digits d <= PyStr.int_max_str_digits)%nat ->
  parse_number ((if neg then "-" else "") ++ NilEmpty.string_of_uint d ++ rest)
  = Some (if neg then - uint_value 0 d else uint_value 0 d, rest).
Proof.
  intros Hd Hr Hn.
  pose proof (take_digits_uint d 0 rest (delimited_no_digit rest Hr)) as Ht.
  pose proof (delimited_no_fraction rest Hr) as Hf.
  apply Nat.ltb_ge in Hn.
  assert (Hk : (Decimal.nb_digits d =? 0)%nat = false) by (by destruct d).
  assert (Hz : leading_zero (NilEmpty.string_of_uint d ++ rest)
                 (Decimal.nb_digits d) = false).
  { destruct d; try done. by subst. }
  assert (Hm : take_minus (NilEmpty.string_of_uint d ++ rest)
               = (false, NilEmpty.string_of_uint d ++ rest)).
  { destruct d; try done; by apply take_minus_digit. }
  unfold parse_number. destruct neg.
  - change (take_minus ("-" ++ NilEmpty.string_of_uint d ++ rest))
      with (true, NilEmpty.string_of_uint d ++ rest).
    cbv beta iota. by rewrite Ht, Hk, Hz, Hf, Hn.
  - change ("" ++ NilEmpty.string_of_uint d ++ rest)
      with (NilEmpty.string_of_uint d ++ rest).
    rewrite Hm. cbv beta iota. by rewrite Ht, Hk, Hz, Hf, Hn.
Qed.

Lemma parse_number_str_of_Z n rest :
  int_ok n = true -> delimited rest = true ->
  parse_number (str_of_Z n ++ rest) = Some (n, rest).
Proof.
  unfold int_ok, str_of_Z. intros Hn Hd. apply Nat.leb_le in Hn.
  destruct n as [|p|p].
  - apply (parse_number_uint (Decimal.D0 Decimal.Nil) false rest); auto.
  - change (NilEmpty.string_of_int (Z.to_int (Z.pos p)))
      with (NilEmpty.string_of_uint (Pos.to_uint p)).
    rewrite <- (uint_value_to_uint p).
    apply (parse_number_uint (Pos.to_uint p) false rest); auto.
    + pose proof (to_uint_head p). by destruct (Pos.to_uint p).
    + rewrite <- length_string_of_uint. exact Hn.
  - change (NilEmpty.string_of_int (Z.to_int (Z.neg p)) ++ rest)
      with ("-" ++ NilEmpty.string_of_uint (Pos.to_uint p) ++ rest).
    change (Z.neg p) with (- Z.pos p). rewrite <- (uint_value_to_uint p).
    apply (parse_number_uint (Pos.to_uint p) true rest); auto.
    + pose proof (to_uint_head p). by destruct (Pos.to_uint p).
    + rewrite <- length_string_of_uint. exact Hn.
Qed.

End NumberFacts.

Module JsonInd.
Import Json.

(** Induction on a value, with the property for the items of a list and
    for the values of a [dict]. *)
Lemma json_ind' (P : json -> Prop) :
  P JNull -> (forall b, P (JBool b)) -> (forall n, P (JInt n)) ->
  (forall s, P (JStr s)) ->
  (forall l, Forall P l -> P (JList l)) ->
  (forall d, Forall (fun kv => P (snd kv)) d -> P (JDict d)) ->
  forall v, P v.
Proof.
  intros Hnull Hbool Hint Hstr Hlist Hdict.
  fix IH 1. intros [|b|n|s|l|d].
  - exact Hnull.
  - apply Hbool.
  - apply Hint.
  - apply Hstr.
  - apply Hlist. induction l as [|x l IHl]; constructor; [apply IH|exact IHl].
  - apply Hdict. induction d as [|[k x] d IHd]; constructor; [apply IH|exact IHd].
Qed.

End JsonInd.

Module StringRead.
Import Json JsonParse Report.

Lemma parse_chars_escape_char c r :
  parse_chars (escape_char c ++ r)
  = '(t, rest) ← parse_chars r; Some (String c t, rest).
Proof. ascii_cases c; reflexivity. Qed.

Lemma parse_chars_escape s rest :
  parse_chars (escape s ++ String dquote rest) = Some (s, rest).
Proof.
  induction s as [|c s IH]; [reflexivity|].
  cbn [escape]. rewrite StrFacts.append_assoc, parse_chars_escape_char, IH.
  reflexivity.
Qed.

Lemma encode_str_app s rest :
  encode_str s ++ rest = String dquote (escape s ++ String dquote rest).
Proof.
  unfold encode_str. cbn [append]. by rewrite StrFacts.append_assoc.
Qed.

End StringRead.

Module ReadBack.
Import Json JsonParse Report Layout Wf.

Lemma skip_ws_spaces n s : skip_ws (spaces n ++ s) = skip_ws s.
Proof. induction n as [|n IH]; [reflexivity|exact IH]. Qed.

Lemma skip_ws_inner level s : skip_ws (inner level ++ s) = skip_ws s.
Proof.
  unfold inner. rewrite StrFacts.append_assoc. apply (skip_ws_spaces _ s).
Qed.

Lemma skip_ws_close level s : skip_ws (close level ++ s) = skip_ws s.
Proof.
  unfold close. rewrite StrFacts.append_assoc. apply (skip_ws_spaces _ s).
Qed.

Lemma skip_ws_idem s : skip_ws (skip_ws s) = skip_ws s.
Proof.
  induction s as [|c s IH]; [reflexivity|].
  cbn [skip_ws]. destruct (is_ws c) eqn:E; [exact IH|].
  cbn [skip_ws]. by rewrite E.
Qed.

Lemma value_start_facts c :
  value_start c = true ->
  is_ws c = false /\ Ascii.eqb c "]" = false /\ Ascii.eqb c "}" = false
  /\ Ascii.eqb c "," = false.
Proof.
  ascii_cases c; intros H;
    try discriminate H; repeat split.
Qed.

Lemma skip_ws_value s : starts_value s -> skip_ws s = s.
Proof.
  destruct s as [|c r]; [done|]. intros H.
  destruct (value_start_facts c H) as [Hw _]. cbn [skip_ws]. by rewrite Hw.
Qed.

Lemma head_is_value c s :
  starts_value s -> Ascii.eqb c "]" = true \/ Ascii.eqb c "}" = true ->
  head_is c s = None.
Proof.
  destruct s as [|x r]; [done|]. intros H Hc.
  destruct (value_start_facts x H) as (_ & H1 & H2 & _).
  unfold head_is.
  destruct Hc as [Hc|Hc]; apply Ascii.eqb_eq in Hc; subst c; by rewrite ?H1, ?H2.
Qed.

Lemma head_is_here c r : head_is c (String c r) = Some r.
Proof. unfold head_is. by rewrite Ascii.eqb_refl. Qed.

Lemma str_of_Z_starts n rest :
  exists c t, str_of_Z n ++ rest = String c t
              /\ PyStr.isdigit c || Ascii.eqb c "-" = true.
Proof.
  unfold str_of_Z. destruct n as [|p|p]; cbn [Z.to_int NilEmpty.string_of_int].
  - by eexists _, _.
  - pose proof (NumberFacts.to_uint_head p) as H.
    destruct (Pos.to_uint p); try done; by eexists _, _.
  - by eexists _, _.
Qed.

Lemma number_start_value c :
  PyStr.isdigit c || Ascii.eqb c "-" = true -> value_start c = true.
Proof.
  ascii_cases c; intros H; try discriminate H;
    reflexivity.
Qed.

(** The text of a value begins with a character that begins a value. *)
Lemma dumps_starts level v rest : starts_value (dumps_at level v ++ rest).
Proof.
  destruct v as [|[]|n|s|[|x l]|[|kv d]]; try reflexivity.
  destruct (str_of_Z_starts n rest) as (c & t & E & Hc).
  cbn [dumps_at]. rewrite E. by apply number_start_value.
Qed.

(** One step of [parse_value], by the first character after white space. *)
Lemma parse_value_skip fuel s : parse_value fuel s = parse_value fuel (skip_ws s).
Proof.
  destruct fuel; [reflexivity|]. cbn [parse_value]. by rewrite skip_ws_idem.
Qed.

Lemma parse_value_list fuel s r :
  skip_ws s = String "[" r ->
  parse_value (S fuel) s
  = match head_is "]" (skip_ws r) with
    | Some r' => Some (JList [], r')
    | None => '(l, r') ← parse_items fuel r; Some (JList l, r')
    end.
Proof. intros H. cbn [parse_value]. by rewrite H. Qed.

Lemma parse_value_dict fuel s r :
  skip_ws s = String "{" r ->
  parse_value (S fuel) s
  = match head_is "}" (skip_ws r) with
    | Some r' => Some (JDict [], r')
    | None =>
        '(d, r') ← parse_members fuel r; Some (JDict (dict_of_pairs d), r')
    end.
Proof. intros H. cbn [parse_value]. by rewrite H. Qed.

Lemma parse_value_string fuel s r :
  skip_ws s = String dquote r ->
  parse_value (S fuel) s = '(t, r') ← parse_chars r; Some (JStr t, r').
Proof. intros H. cbn [parse_value]. by rewrite H. Qed.

Lemma parse_value_number fuel s c r :
  skip_ws s = String c r ->
  PyStr.isdigit c || Ascii.eqb c "-" = true ->
  parse_value (S fuel) s
  = '(n, r') ← parse_number (String c r); Some (JInt n, r').
Proof.
  intros H Hc. cbn [parse_value]. rewrite H.
  ascii_cases c; try discriminate Hc; reflexivity.
Qed.

Lemma parse_items_step fuel s :
  parse_items (S fuel) s
  = '(v, r) ← parse_value fuel s;
    match head_is "," (skip_ws r) with
    | Some r' => '(l, r'') ← parse_items fuel r'; Some (v :: l, r'')
    | None =>
        match head_is "]" (skip_ws r) with
        | Some r' => Some ([v], r')
        | None => None
        end
    end.
Proof. reflexivity. Qed.

Lemma parse_members_step fuel s :
  parse_members (S fuel) s
  = r0 ← head_is dquote (skip_ws s);
    '(key, r1) ← parse_chars r0;
    r2 ← head_is ":" (skip_ws r1);
    '(v, r3) ← parse_value fuel r2;
    match head_is "," (skip_ws r3) with
    | Some r4 => '(d, r5) ← parse_members fuel r4; Some ((key, v) :: d, r5)
    | None =>
        match head_is "}" (skip_ws r3) with
        | Some r4 => Some ([(key, v)], r4)
        | None => None
        end
    end.
Proof. reflexivity. Qed.

(** The text of a container, with what follows it. *)
Lemma join_items {A} (f : A -> string) sep (x : A) l tail :
  join sep (map f (x :: l)) ++ tail
  = match l with
    | [] => f x ++ tail
    | y :: l' => f x ++ sep ++ join sep (map f (y :: l')) ++ tail
    end.
Proof.
  destruct l as [|y l']; [reflexivity|].
  cbn [map join]. by rewrite !StrFacts.append_assoc.
Qed.

Lemma items_text_eq level l rest : l <> [] ->
  join ("," ++ inner level) (map (dumps_at (S level)) l)
  ++ close level ++ String "]" rest
  = items_text level l rest.
Proof.
  induction l as [|x l IH]; [done|]. intros _.
  rewrite join_items. destruct l as [|y l']; [reflexivity|].
  rewrite IH by done. reflexivity.
Qed.

Lemma dumps_list level x l rest :
  dumps_at level (JList (x :: l)) ++ rest
  = String "[" (inner level ++ items_text level (x :: l) rest).
Proof.
  rewrite <- items_text_eq by done.
  change (dumps_at level (JList (x :: l)))
    with ("[" ++ inner level
          ++ join ("," ++ inner level) (map (dumps_at (S level)) (x :: l))
          ++ close level ++ "]").
  cbn [append]. by rewrite !StrFacts.append_assoc.
Qed.

Lemma members_text_eq level d rest : d <> [] ->
  join ("," ++ inner level) (map (member_text level) d)
  ++ close level ++ String "}" rest
  = members_text level d rest.
Proof.
  induction d as [|kv d IH]; [done|]. intros _.
  rewrite join_items. destruct d as [|kv' d']; [reflexivity|].
  rewrite IH by done. reflexivity.
Qed.

Lemma dumps_dict level kv d rest :
  dumps_at level (JDict (kv :: d)) ++ rest
  = String "{" (inner level ++ members_text level (kv :: d) rest).
Proof.
  rewrite <- members_text_eq by done.
  change (dumps_at level (JDict (kv :: d)))
    with ("{" ++ inner level
          ++ join ("," ++ inner level) (map (member_text level) (kv :: d))
          ++ close level ++ "}").
  cbn [append]. by rewrite !StrFacts.append_assoc.
Qed.

Lemma dict_set_fresh d k v :
  k ∉ map fst d -> dict_set d k v = (d ++ [(k, v)])%list.
Proof.
  induction d as [|[k' x] d IH]; intros H; [reflexivity|].
  cbn [dict_set]. destruct (String.eqb_spec k' k) as [->|Hne].
  - exfalso. apply H. cbn. apply list_elem_of_here.
  - cbn. f_equal. apply IH. intros Hin. apply H. cbn.
    by apply list_elem_of_further.
Qed.

Lemma dict_of_pairs_from d : forall acc,
  NoDup (map fst (acc ++ d)%list) ->
  fold_left (fun d kv => dict_set d (fst kv) (snd kv)) d acc = (acc ++ d)%list.
Proof.
  induction d as [|[k v] d IH]; intros acc H; [by rewrite app_nil_r|].
  cbn [fold_left fst snd]. rewrite dict_set_fresh.
  - rewrite IH; [by rewrite <- app_assoc|]. by rewrite <- app_assoc.
  - rewrite map_app in H. cbn in H. apply NoDup_app in H as (_ & H & _).
    intros Hin. apply (H k Hin). apply list_elem_of_here.
Qed.

(** A [dict] with distinct keys is built back as it was. *)
Lemma dict_of_pairs_nodup d : NoDup (map fst d) -> dict_of_pairs d = d.
Proof. intros H. by apply (dict_of_pairs_from d []). Qed.

Lemma delimited_close level r : delimited (close level ++ r) = true.
Proof. reflexivity. Qed.

Import Reads.

Lemma parse_items_text l :
  Forall reads l ->
  fold_right (fun x acc => wf x /\ acc) True l ->
  l <> [] ->
  forall level rest fuel,
    (fold_right (fun x acc => S (size x + acc)) O l <= fuel)%nat ->
    parse_items fuel (inner level ++ items_text level l rest) = Some (l, rest).
Proof.
  induction l as [|x l IH]; [done|]. intros Hr Hw _ level rest fuel Hf.
  apply Forall_cons in Hr as [Hx Hr]. destruct Hw as [Wx Wl].
  cbn [fold_right] in Hf. destruct fuel as [|f]; [lia|].
  rewrite parse_items_step, parse_value_skip, skip_ws_inner, <- parse_value_skip.
  destruct l as [|y l'].
  - change (items_text level [x] rest)
      with (dumps_at (S level) x ++ close level ++ String "]" rest).
    rewrite (Hx Wx (S level) _ f); [|lia|apply delimited_close].
    cbn [mbind option_bind]. rewrite skip_ws_close. reflexivity.
  - change (items_text level (x :: y :: l') rest)
      with (dumps_at (S level) x
            ++ String "," (inner level ++ items_text level (y :: l') rest)).
    rewrite (Hx Wx (S level) (String "," _) f); [|cbn [fold_right] in *; lia|reflexivity].
    cbn [mbind option_bind].
    change (skip_ws (String "," ?r)) with (String "," r).
    cbn [head_is Ascii.eqb Bool.eqb].
    rewrite IH; [reflexivity|assumption|assumption|done|cbn [fold_right] in *; lia].
Qed.

Lemma parse_members_text d :
  Forall (fun kv => reads (snd kv)) d ->
  fold_right (fun kv acc => wf (snd kv) /\ acc) True d ->
  d <> [] ->
  forall level rest fuel,
    (fold_right (fun kv acc => S (size (snd kv) + acc)) O d <= fuel)%nat ->
    parse_members fuel (inner level ++ members_text level d rest) = Some (d, rest).
Proof.
  induction d as [|[k x] d IH]; [done|]. intros Hr Hw _ level rest fuel Hf.
  apply Forall_cons in Hr as [Hx Hr]. destruct Hw as [Wx Wl].
  cbn [fold_right snd] in Hf, Hx, Wx. destruct fuel as [|f]; [lia|].
  rewrite parse_members_step, skip_ws_inner.
  assert (Hhead : forall tail,
            member_text level (k, x) ++ tail
            = String dquote (escape k ++ String dquote
                (String ":" (String " " (dumps_at (S level) x ++ tail))))).
  { intros tail. unfold member_text. cbn [fst snd].
    rewrite StrFacts.append_assoc, StringRead.encode_str_app.
    by rewrite StrFacts.append_assoc. }
  destruct d as [|kv' d'].
  - change (members_text level [(k, x)] rest)
      with (member_text level (k, x) ++ close level ++ String "}" rest).
    rewrite Hhead.
    change (skip_ws (String dquote ?r)) with (String dquote r).
    rewrite head_is_here. cbn [mbind option_bind].
    rewrite StringRead.parse_chars_escape. cbn [mbind option_bind].
    change (skip_ws (String ":" ?r)) with (String ":" r).
    cbn [head_is Ascii.eqb Bool.eqb mbind option_bind].
    rewrite parse_value_skip.
    change (skip_ws (String " " ?r)) with (skip_ws r).
    rewrite <- parse_value_skip.
    rewrite (Hx Wx (S level) _ f); [|lia|apply delimited_close].
    cbn [mbind option_bind]. rewrite skip_ws_close. reflexivity.
  - change (members_text level ((k, x) :: kv' :: d') rest)
      with (member_text level (k, x)
            ++ String "," (inner level ++ members_text level (kv' :: d') rest)).
    rewrite Hhead.
    change (skip_ws (String dquote ?r)) with (String dquote r).
    rewrite head_is_here. cbn [mbind option_bind].
    rewrite StringRead.parse_chars_escape. cbn [mbind option_bind].
    change (skip_ws (String ":" ?r)) with (String ":" r).
    cbn [head_is Ascii.eqb Bool.eqb mbind option_bind].
    rewrite parse_value_skip.
    change (skip_ws (String " " ?r)) with (skip_ws r).
    rewrite <- parse_value_skip.
    rewrite (Hx Wx (S level) (String "," _) f);
      [|cbn [fold_right] in *; lia|reflexivity].
    cbn [mbind option_bind].
    change (skip_ws (String "," ?r)) with (String "," r).
    cbn [head_is Ascii.eqb Bool.eqb].
    rewrite IH; [reflexivity|assumption|assumption|done|cbn [fold_right] in *; lia].
Qed.

End ReadBack.

Module ReadValue.
Import Json JsonParse Report Layout Wf Reads ReadBack.

(** Every well-formed value is read back from its text. *)
Theorem reads_all (v : json) : reads v.
Proof.
  induction v as [|b|n|s|l IH|d IH] using JsonInd.json_ind';
    intros Hw level rest fuel Hf Hd; (destruct fuel as [|f]; [cbn in Hf; lia|]).
  - reflexivity.
  - by destruct b.
  - destruct (str_of_Z_starts n rest) as (c & t & E & Hc).
    cbn [dumps_at].
    rewrite (parse_value_number f _ c t); [|rewrite E|exact Hc].
    + rewrite <- E, NumberFacts.parse_number_str_of_Z by assumption. reflexivity.
    + apply skip_ws_value. cbn. by apply number_start_value.
  - cbn [dumps_at]. rewrite StringRead.encode_str_app.
    rewrite (parse_value_string f _ (escape s ++ String dquote rest)) by reflexivity.
    by rewrite StringRead.parse_chars_escape.
  - destruct l as [|x l]; [reflexivity|].
    rewrite dumps_list.
    rewrite (parse_value_list f _ (inner level ++ items_text level (x :: l) rest))
      by reflexivity.
    rewrite skip_ws_inner.
    assert (Hs : starts_value (items_text level (x :: l) rest)).
    { destruct l; apply dumps_starts. }
    rewrite (skip_ws_value _ Hs), (head_is_value _ _ Hs) by (by left).
    rewrite parse_items_text; [reflexivity|exact IH|exact Hw|done|].
    cbn [size] in Hf. lia.
  - destruct d as [|kv d]; [reflexivity|].
    destruct Hw as [Hnd Hw].
    rewrite dumps_dict.
    rewrite (parse_value_dict f _ (inner level ++ members_text level (kv :: d) rest))
      by reflexivity.
    rewrite skip_ws_inner.
    assert (Hs : starts_value (members_text level (kv :: d) rest)).
    { destruct d; reflexivity. }
    rewrite (skip_ws_value _ Hs), (head_is_value _ _ Hs) by (by right).
    rewrite parse_members_text; [|exact IH|exact Hw|done|cbn [size] in Hf; lia].
    cbn [mbind option_bind]. by rewrite dict_of_pairs_nodup.
Qed.

Lemma length_spaces n : String.length (spaces n) = n.
Proof. induction n as [|n IH]; [reflexivity|]. cbn. by rewrite IH. Qed.

Lemma length_str_of_Z n : (1 <= String.length (str_of_Z n))%nat.
Proof.
  unfold str_of_Z. destruct n as [|p|p]; cbn; try lia.
  pose proof (NumberFacts.to_uint_head p).
  destruct (Pos.to_uint p); try done; cbn; lia.
Qed.

Lemma length_items level l rest :
  Forall (fun x => forall level, (size x <= String.length (dumps_at level x))%nat) l ->
  (fold_right (fun x acc => S (size x + acc)) O l
   <= String.length (items_text level l rest))%nat.
Proof.
  induction 1 as [|x l Hx _ IH]; [cbn; lia|].
  specialize (Hx (S level)).
  destruct l as [|y l'].
  - change (items_text level [x] rest)
      with (dumps_at (S level) x ++ close level ++ String "]" rest).
    rewrite !StrFacts.length_append. cbn [fold_right String.length]. lia.
  - change (items_text level (x :: y :: l') rest)
      with (dumps_at (S level) x
            ++ String "," (inner level ++ items_text level (y :: l') rest)).
    rewrite StrFacts.length_append. cbn [String.length].
    rewrite StrFacts.length_append. cbn [fold_right] in *. lia.
Qed.

Lemma length_members level d rest :
  Forall (fun kv => forall level,
            (size (snd kv) <= String.length (dumps_at level (snd kv)))%nat) d ->
  (fold_right (fun kv acc => S (size (snd kv) + acc)) O d
   <= String.length (members_text level d rest))%nat.
Proof.
  induction 1 as [|[k x] d Hx _ IH]; [cbn; lia|].
  specialize (Hx (S level)). cbn [snd] in Hx.
  destruct d as [|kv' d'].
  - change (members_text level [(k, x)] rest)
      with (member_text level (k, x) ++ close level ++ String "}" rest).
    unfold member_text. cbn [fst snd].
    rewrite !StrFacts.length_append. cbn [fold_right String.length snd]. lia.
  - change (members_text level ((k, x) :: kv' :: d') rest)
      with (member_text level (k, x)
            ++ String "," (inner level ++ members_text level (kv' :: d') rest)).
    unfold member_text. cbn [fst snd].
    rewrite !StrFacts.length_append. cbn [String.length].
    rewrite StrFacts.length_append. cbn [fold_right snd] in *. lia.
Qed.

(** The text of a value is at least as long as the value is large. *)
Lemma size_le_length (v : json) :
  forall level, (size v <= String.length (dumps_at level v))%nat.
Proof.
  induction v as [|b|n|s|l IH|d IH] using JsonInd.json_ind'; intros level.
  - cbn. lia.
  - destruct b; cbn; lia.
  - cbn [size dumps_at]. apply length_str_of_Z.
  - cbn [size dumps_at]. unfold encode_str. cbn [String.length]. lia.
  - destruct l as [|x l]; [cbn; lia|].
    pose proof (length_items level (x :: l) "" IH) as H.
    pose proof (dumps_list level x l "") as E.
    rewrite StrFacts.append_nil_r in E. rewrite E.
    cbn [size String.length]. rewrite StrFacts.length_append. lia.
  - destruct d as [|kv d]; [cbn; lia|].
    pose proof (length_members level (kv :: d) "" IH) as H.
    pose proof (dumps_dict level kv d "") as E.
    rewrite StrFacts.append_nil_r in E. rewrite E.
    cbn [size String.length]. rewrite StrFacts.length_append. lia.
Qed.

(** [json.loads(json.dumps(v, indent=2))] is [v]. *)
Theorem loads_dumps (v : json) : wf v -> loads (dumps v) = Some v.
Proof.
  intros Hw. unfold loads, dumps.
  pose proof (reads_all v Hw 0%nat "" (String.length (dumps_at 0 v))
                (size_le_length v 0%nat) eq_refl) as H.
  rewrite StrFacts.append_nil_r in H. by rewrite H.
Qed.

End ReadValue.

Module ExtractFacts.
Import Json Report Clean Extract.

Lemma after_last_none marker s : occurs marker s = false -> after_last marker s = None.
Proof.
  induction s as [|c s IH]; [reflexivity|]. cbn [occurs after_last].
  intros H. apply orb_false_iff in H as [H1 H2]. by rewrite (IH H2), H1.
Qed.

(** The text after the last occurrence of the marker. *)
Lemma after_last_app c m pre tail :
  occurs (String c m) (m ++ tail) = false ->
  after_last (String c m) (pre ++ String c m ++ tail) = Some tail.
Proof.
  intros H. induction pre as [|x pre IH].
  - change ("" ++ String c m ++ tail) with (String c (m ++ tail)).
    cbn [after_last]. rewrite (after_last_none _ _ H).
    change (String c (m ++ tail)) with (String c m ++ tail).
    unfold has_prefix. by rewrite StrFacts.prefix_append, StrFacts.drop_chars_append.
  - change (String x pre ++ String c m ++ tail)
      with (String x (pre ++ String c m ++ tail)).
    cbn [after_last]. by rewrite IH.
Qed.

Lemma before_suffix_app suffix body :
  before_suffix suffix (body ++ suffix) = Some body.
Proof.
  induction body as [|c body IH].
  - change ("" ++ suffix) with suffix.
    destruct suffix; cbn [before_suffix]; by rewrite String.eqb_refl.
  - change (String c body ++ suffix) with (String c (body ++ suffix)).
    cbn [before_suffix].
    destruct (String.eqb_spec (String c (body ++ suffix)) suffix) as [E|_].
    + apply (f_equal String.length) in E. cbn [String.length] in E.
      rewrite StrFacts.length_append in E. lia.
    + by rewrite IH.
Qed.

Lemma starts_hash_app a b :
  starts_hash (a ++ b) = match a with "" => starts_hash b | _ => starts_hash a end.
Proof. by destruct a. Qed.

Lemma nl_hash_free_app a b :
  nl_hash_free a = true -> clean b = true -> nl_hash_free (a ++ b) = true.
Proof.
  unfold clean. intros Ha Hb. apply andb_true_iff in Hb as [Hb1 Hb2].
  induction a as [|c a IH]; [exact Hb2|].
  change (String c a ++ b) with (String c (a ++ b)).
  cbn [nl_hash_free] in *. apply andb_true_iff in Ha as [Ha1 Ha2].
  rewrite (IH Ha2), andb_true_r, starts_hash_app.
  destruct a; [|exact Ha1].
  apply negb_true_iff in Hb1. rewrite Hb1. by rewrite andb_false_r.
Qed.

Lemma clean_app a b : clean a = true -> clean b = true -> clean (a ++ b) = true.
Proof.
  intros Ha Hb. destruct a as [|c a]; [exact Hb|].
  unfold clean in *. apply andb_true_iff in Ha as [Ha1 Ha2].
  rewrite (nl_hash_free_app _ b Ha2 Hb), andb_true_r.
  exact Ha1.
Qed.

Lemma no_nl_free s : no_nl s = true -> nl_hash_free s = true.
Proof.
  induction s as [|c s IH]; [reflexivity|]. cbn [no_nl nl_hash_free].
  intros H. apply andb_true_iff in H as [H1 H2].
  apply negb_true_iff in H1. by rewrite H1, (IH H2).
Qed.

Lemma no_nl_app a b : no_nl a = true -> no_nl b = true -> no_nl (a ++ b) = true.
Proof.
  intros Ha Hb. induction a as [|c a IH]; [exact Hb|].
  change (String c a ++ b) with (String c (a ++ b)).
  cbn [no_nl] in *. apply andb_true_iff in Ha as [Ha1 Ha2].
  by rewrite Ha1, (IH Ha2).
Qed.

Lemma no_nl_escape s : no_nl (escape s) = true.
Proof.
  induction s as [|c s IH]; [reflexivity|]. cbn [escape].
  apply no_nl_app; [|exact IH].
  ascii_cases c; reflexivity.
Qed.

Lemma clean_encode_str s : clean (encode_str s) = true.
Proof.
  unfold encode_str, clean. cbn [starts_hash nl_hash_free].
  apply andb_true_iff. split; [reflexivity|].
  apply andb_true_iff. split; [reflexivity|].
  apply no_nl_free, no_nl_app; [apply no_nl_escape|reflexivity].
Qed.

Lemma no_nl_uint d : no_nl (NilEmpty.string_of_uint d) = true.
Proof. induction d; cbn; auto. Qed.

Lemma clean_str_of_Z n : clean (str_of_Z n) = true.
Proof.
  unfold str_of_Z, clean.
  destruct n as [|p|p]; cbn [Z.to_int NilEmpty.string_of_int]; [reflexivity| |].
  - rewrite (no_nl_free _ (no_nl_uint _)), andb_true_r.
    pose proof (NumberFacts.to_uint_head p). by destruct (Pos.to_uint p).
  - cbn [starts_hash nl_hash_free]. rewrite (no_nl_free _ (no_nl_uint _)).
    by destruct (starts_hash _).
Qed.

Lemma clean_spaces n : clean (spaces n) = true.
Proof.
  unfold clean. assert (H : no_nl (spaces n) = true).
  { induction n as [|n IH]; [reflexivity|exact IH]. }
  rewrite (no_nl_free _ H). by destruct n.
Qed.

Lemma clean_inner level : clean (Layout.inner level) = true.
Proof.
  unfold Layout.inner. change (nl ++ ?s) with (String (ascii_of_nat 10) s).
  unfold clean. cbn [starts_hash nl_hash_free].
  pose proof (clean_spaces (2 * S level)) as H. unfold clean in H.
  apply andb_true_iff in H as [H1 H2]. apply negb_true_iff in H1.
  by rewrite H1, H2.
Qed.

Lemma clean_close level : clean (Layout.close level) = true.
Proof.
  unfold Layout.close. change (nl ++ ?s) with (String (ascii_of_nat 10) s).
  unfold clean. cbn [starts_hash nl_hash_free].
  pose proof (clean_spaces (2 * level)) as H. unfold clean in H.
  apply andb_true_iff in H as [H1 H2]. apply negb_true_iff in H1.
  by rewrite H1, H2.
Qed.

Create HintDb clean discriminated.
#[local] Hint Resolve clean_spaces clean_inner clean_close clean_encode_str
  clean_str_of_Z clean_app : clean.

Lemma clean_join sep items :
  clean sep = true -> Forall (fun s => clean s = true) items ->
  clean (join sep items) = true.
Proof.
  intros Hs. induction 1 as [|x items Hx Hi IH]; [reflexivity|].
  destruct items as [|y items]; [exact Hx|].
  change (join sep (x :: y :: items)) with (x ++ sep ++ join sep (y :: items)).
  by repeat apply clean_app.
Qed.

(** No line of a dump begins with [#]. *)
Lemma clean_dumps (v : json) : forall level, clean (dumps_at level v) = true.
Proof.
  induction v as [|b|n|s|l IH|d IH] using JsonInd.json_ind'; intros level.
  - reflexivity.
  - by destruct b.
  - apply clean_str_of_Z.
  - apply clean_encode_str.
  - destruct l as [|x l]; [reflexivity|].
    change (dumps_at level (JList (x :: l)))
      with ("[" ++ Layout.inner level
            ++ join ("," ++ Layout.inner level) (map (dumps_at (S level)) (x :: l))
            ++ Layout.close level ++ "]").
    repeat apply clean_app; auto with clean.
    apply clean_join; [auto with clean|].
    apply Forall_fmap. eapply Forall_impl; [exact IH|]. intros y Hy. apply Hy.
  - destruct d as [|kv d]; [reflexivity|].
    change (dumps_at level (JDict (kv :: d)))
      with ("{" ++ Layout.inner level
            ++ join ("," ++ Layout.inner level)
                 (map (Layout.member_text level) (kv :: d))
            ++ Layout.close level ++ "}").
    repeat apply clean_app; auto with clean.
    apply clean_join; [auto with clean|].
    apply Forall_fmap. eapply Forall_impl; [exact IH|]. intros [k y] Hy.
    unfold Layout.member_text. cbn [fst snd compose].
    repeat apply clean_app; auto with clean.
Qed.

Lemma occurs_heading s : nl_hash_free s = true -> occurs raw_heading s = false.
Proof.
  induction s as [|c s IH]; [reflexivity|]. cbn [nl_hash_free occurs].
  intros H. apply andb_true_iff in H as [H1 H2]. rewrite (IH H2), orb_false_r.
  destruct s as [|d s]; [by ascii_cases c|].
  unfold has_prefix, raw_heading.
  change (nl ++ "## Raw JSON Data" ++ nl ++ nl ++ "```json" ++ nl)
    with (String (ascii_of_nat 10)
            (String "#" ("# Raw JSON Data" ++ nl ++ nl ++ "```json" ++ nl))).
  cbn [String.prefix].
  destruct (ascii_dec (ascii_of_nat 10) c) as [<-|]; [|reflexivity].
  destruct (ascii_dec "#" d) as [<-|]; [|reflexivity].
  discriminate H1.
Qed.

(** The dump is read back from any text that ends as a report does. *)
Theorem extract_report (pre : string) (l : list json) :
  Wf.wf (JList l) ->
  extract_dump (pre ++ raw_heading ++ dumps (JList l) ++ raw_end) = Some l.
Proof.
  intros Hw. unfold extract_dump.
  change raw_heading
    with (String (ascii_of_nat 10)
            ("## Raw JSON Data" ++ nl ++ nl ++ "```json" ++ nl)) at 1 2.
  rewrite after_last_app.
  - cbn [mbind option_bind]. rewrite before_suffix_app.
    cbn [mbind option_bind]. by rewrite ReadValue.loads_dumps.
  - apply occurs_heading.
    apply nl_hash_free_app; [reflexivity|].
    apply clean_app; [apply clean_dumps|reflexivity].
Qed.

End ExtractFacts.

(** ** The round trip of the report *)

Module RoundTrip.
Import Json Report.

(** The dump of a report that was built is read back as the list. *)
Lemma build_round_trip (l : list json) (text : string) :
  Wf.wf (JList l) -> build l = Ok text -> Extract.extract_dump text = Some l.
Proof.
  intros Hw H. unfold build in H.
  destruct (lead_sections l) as [sections|e]; [|discriminate].
  change (Ok (title ++ sections ++ raw_heading ++ dumps (JList l) ++ raw_end)
          = Ok text) in H.
  assert (E : text = (title ++ sections) ++ raw_heading
                     ++ dumps (JList l) ++ raw_end).
  { rewrite StrFacts.append_assoc. congruence. }
  subst text. by apply ExtractFacts.extract_report.
Qed.

(** The section of a record of the schema is always written. *)
Lemma lead_section_record (r : Schema.LeadOutput) :
  exists text, lead_section (JDict (Schema.model_dump r)) = Ok text.
Proof.
  unfold lead_section, decision_makers.
  change (get (Schema.model_dump r) "key_decision_makers" (JList []))
    with (Schema.opt (fun l => JList (map Schema.str_dict l))
            (Schema.key_decision_makers r)).
  destruct (Schema.key_decision_makers r) as [[|p ps]|]; cbn; by eexists.
Qed.

Lemma lead_sections_records (rs : list Schema.LeadOutput) :
  exists text, lead_sections (Schema.dump_all rs) = Ok text.
Proof.
  induction rs as [|r rs [t IH]]; [by eexists|].
  destruct (lead_section_record r) as [s Hs].
  change (Schema.dump_all (r :: rs))
    with (JDict (Schema.model_dump r) :: Schema.dump_all rs).
  cbn [lead_sections]. rewrite Hs, IH. by eexists.
Qed.

Lemma distinct_NoDup l : Wf.distinct l = true -> NoDup l.
Proof.
  induction l as [|x l IH]; [constructor|]. cbn [Wf.distinct].
  intros H. apply andb_true_iff in H as [H1 H2]. constructor; [|by apply IH].
  intros Hin. apply negb_true_iff in H1.
  assert (E : existsb (String.eqb x) l = true).
  { apply existsb_exists. exists x. split; [by apply list_elem_of_In|].
    apply String.eqb_refl. }
  congruence.
Qed.

(** The test is sound. *)
Lemma check_wf (v : json) : Wf.check v = true -> Wf.wf v.
Proof.
  induction v as [|b|n|s|l IH|d IH] using JsonInd.json_ind'; try done.
  - cbn [Wf.check Wf.wf]. induction IH as [|x l Hx _ IHl]; [done|].
    cbn [forallb fold_right]. intros H. apply andb_true_iff in H as [H1 H2].
    split; [by apply Hx|by apply IHl].
  - cbn [Wf.check Wf.wf]. intros H. apply andb_true_iff in H as [H1 H2].
    split; [by apply distinct_NoDup|].
    clear H1. induction IH as [|kv d Hx _ IHd]; [done|].
    cbn [forallb fold_right] in *. apply andb_true_iff in H2 as [H1 H2].
    split; [by apply Hx|by apply IHd].
Qed.

Lemma wf_dump_all (rs : list Schema.LeadOutput) :
  forallb Wf.record_ok rs = true -> Wf.wf (JList (Schema.dump_all rs)).
Proof.
  induction rs as [|r rs IH]; [done|]. cbn [forallb].
  intros H. apply andb_true_iff in H as [H1 H2].
  split; [by apply check_wf|by apply IH].
Qed.

End RoundTrip.

(** C7. The report of a sequence of records of the schema is always
    built, and the dump embedded in it, taken after the last heading of
    the raw data and read as JSON, is the sequence of the structures of
    the records, field for field. *)
Theorem report_round_trip (records : list Schema.LeadOutput) :
  forallb Wf.record_ok records = true ->
  exists text,
    Report.build (Schema.dump_all records) = Ok text
    /\ Report.download_data (Schema.dump_all records) = text
    /\ Extract.extract_dump text = Some (Schema.dump_all records).
Proof.
  intros Hw.
  destruct (RoundTrip.lead_sections_records records) as [sections Hs].
  eexists. unfold Report.download_data, Report.build. rewrite Hs.
  split; [reflexivity|]. split; [reflexivity|].
  apply RoundTrip.build_round_trip; [by apply RoundTrip.wf_dump_all|].
  unfold Report.build. by rewrite Hs.
Qed.

Lemma report_round_trip_witness :
  exists text,
    Report.build (Schema.dump_all [Drawable.unscored; Drawable.quoting]) = Ok text
    /\ Report.download_data (Schema.dump_all [Drawable.unscored; Drawable.quoting])
       = text
    /\ Extract.extract_dump text
       = Some (Schema.dump_all [Drawable.unscored; Drawable.quoting]).
Proof.
  apply (report_round_trip [Drawable.unscored; Drawable.quoting]).
  vm_compute. reflexivity.
Defined.


(** ** The usage text: names, numbers and the cost *)

Module NameFacts.
Import Chars.

Lemma is_name_spec s : Usage.is_name s = true <-> word s /\ free "="%char s.
Proof.
  unfold Usage.is_name. induction s as [|c s IH]; cbn [list_ascii_of_string forallb].
  - split; [by split; constructor|done].
  - rewrite andb_true_iff, IH, andb_true_iff, !negb_true_iff, !Forall_cons.
    tauto.
Qed.

Lemma chars_app a b :
  list_ascii_of_string (a ++ b)
  = (list_ascii_of_string a ++ list_ascii_of_string b)%list.
Proof.
  induction a as [|c a IH]; [reflexivity|].
  change (c :: list_ascii_of_string (a ++ b)
          = c :: (list_ascii_of_string a ++ list_ascii_of_string b)%list).
  by f_equal.
Qed.

Lemma is_name_app a b :
  Usage.is_name (a ++ b) = Usage.is_name a && Usage.is_name b.
Proof. unfold Usage.is_name. by rewrite chars_app, forallb_app. Qed.

(** A word at the front of a text goes on the word in progress. *)
Lemma split_from_word w : forall c cur s,
  word (String c w) ->
  PyStr.split_from cur (String c w ++ s)
  = PyStr.split_from (Some (default "" cur ++ String c w)) s.
Proof.
  induction w as [|c' w IH]; intros c cur s Hw;
    apply Forall_cons in Hw as [Hc Hw].
  - change (String c "" ++ s) with (String c s).
    cbn [PyStr.split_from]. by rewrite Hc.
  - change (String c (String c' w) ++ s) with (String c (String c' w ++ s)).
    cbn [PyStr.split_from].
    rewrite Hc, (IH c' (Some (PyStr.snoc (default "" cur) c)) s Hw).
    change (default "" (Some (PyStr.snoc (default "" cur) c)))
      with (PyStr.snoc (default "" cur) c).
    unfold PyStr.snoc. by rewrite StrFacts.append_assoc.
Qed.

(** The words of a text are the words that were joined with blanks. *)
Lemma split_join (ws : list string) :
  Forall (fun w => w <> "" /\ word w) ws ->
  PyStr.split (Json.join " " ws) = ws.
Proof.
  unfold PyStr.split. induction 1 as [|w ws [Hn Hw] Hws IH]; [reflexivity|].
  destruct w as [|c w]; [done|].
  destruct ws as [|w' ws].
  - cbn [Json.join]. rewrite <- (StrFacts.append_nil_r (String c w)) at 1.
    by rewrite (split_from_word w c None "" Hw).
  - change (Json.join " " (String c w :: w' :: ws))
      with (String c w ++ String " " (Json.join " " (w' :: ws))).
    rewrite (split_from_word w c None _ Hw).
    cbn [default PyStr.split_from PyStr.flush].
    change (PyStr.isspace " ") with true. cbv iota.
    change ("" ++ String c w) with (String c w). cbn [app]. by rewrite IH.
Qed.

(** The items of [split] have no white space, and none is empty. *)
Lemma split_from_words s : forall cur,
  match cur with Some w => w <> "" /\ word w | None => True end ->
  Forall (fun w => w <> "" /\ word w) (PyStr.split_from cur s).
Proof.
  induction s as [|c s IH]; intros cur Hc; cbn [PyStr.split_from].
  - destruct cur; cbn; [constructor; [exact Hc|constructor]|constructor].
  - destruct (PyStr.isspace c) eqn:E.
    + apply Forall_app. split; [|by apply IH].
      destruct cur; cbn; [constructor; [exact Hc|constructor]|constructor].
    + apply IH. unfold PyStr.snoc. split.
      * by destruct (default "" cur).
      * rewrite chars_app. apply Forall_app. split; [|by repeat constructor].
        destruct cur as [w|]; [apply Hc|constructor].
Qed.

Lemma split_words s : Forall (fun w => w <> "" /\ word w) (PyStr.split s).
Proof. by apply split_from_words. Qed.

(** A text without the separator is one part. *)
Lemma split_on_free sep v : free sep v -> PyStr.split_on sep v = [v].
Proof.
  induction v as [|c v IH]; [reflexivity|]. intros H.
  apply Forall_cons in H as [Hc H]. cbn [PyStr.split_on].
  by rewrite Hc, (IH H).
Qed.

(** The first separator cuts off the name before it. *)
Lemma split_on_app sep k v :
  free sep k -> PyStr.split_on sep (k ++ String sep v) = k :: PyStr.split_on sep v.
Proof.
  induction k as [|c k IH]; intros H.
  - change ("" ++ String sep v) with (String sep v). cbn [PyStr.split_on].
    by rewrite Ascii.eqb_refl.
  - apply Forall_cons in H as [Hc H].
    change (String c k ++ String sep v) with (String c (k ++ String sep v)).
    cbn [PyStr.split_on]. by rewrite Hc, (IH H).
Qed.

Lemma contains_app sep k v : PyStr.contains sep (k ++ String sep v) = true.
Proof.
  induction k as [|c k IH].
  - change ("" ++ String sep v) with (String sep v). cbn.
    by rewrite Ascii.eqb_refl.
  - change (String c k ++ String sep v) with (String c (k ++ String sep v)).
    cbn [PyStr.contains]. rewrite IH. apply orb_true_r.
Qed.

(** The parts of a text cut at the separator: none has the separator,
    and their characters are characters of the text. *)
Lemma split_on_parts (P : ascii -> Prop) sep s :
  Forall P (list_ascii_of_string s) ->
  Forall (fun part => free sep part /\ Forall P (list_ascii_of_string part))
         (PyStr.split_on sep s).
Proof.
  induction s as [|c s IH]; intros H.
  - by repeat constructor.
  - apply Forall_cons in H as [Hc H]. specialize (IH H).
    cbn [PyStr.split_on]. destruct (Ascii.eqb c sep) eqn:E.
    + constructor; [by split; constructor|exact IH].
    + destruct (PyStr.split_on sep s) as [|w ws]; [by repeat constructor|].
      apply Forall_cons in IH as [[H1 H2] IH].
      constructor; [|exact IH]. split; by constructor.
Qed.

End NameFacts.

Module IntFacts.
Import Json Digits.

(** The digits of a number are read as the number. *)
Lemma int_digits_uint d : forall acc ndig,
  PyStr.int_digits false acc ndig (NilEmpty.string_of_uint d)
  = Some (uint_value acc d, (ndig + Decimal.nb_digits d)%nat).
Proof.
  induction d; intros acc ndig;
    cbn -[Z.mul Z.add Nat.add];
    rewrite ?IHd, ?Nat.add_0_r, ?Nat.add_succ_r; reflexivity.
Qed.

Lemma int_digits_first d acc ndig :
  d <> Decimal.Nil ->
  PyStr.int_digits true acc ndig (NilEmpty.string_of_uint d)
  = Some (uint_value acc d, (ndig + Decimal.nb_digits d)%nat).
Proof.
  intros Hd. destruct d; [done|..];
    cbn -[Z.mul Z.add Nat.add];
    rewrite int_digits_uint, ?Nat.add_succ_r; reflexivity.
Qed.

Lemma is_name_uint d : Usage.is_name (NilEmpty.string_of_uint d) = true.
Proof. induction d; [reflexivity|..]; exact IHd. Qed.

Lemma is_name_str_of_Z n : Usage.is_name (str_of_Z n) = true.
Proof.
  destruct n as [|p|p]; [reflexivity|..].
  - apply (is_name_uint (Pos.to_uint p)).
  - apply (is_name_uint (Pos.to_uint p)).
Qed.

Lemma str_of_Z_nonempty n : str_of_Z n <> "".
Proof.
  destruct n as [|p|p]; [done| |done].
  change (str_of_Z (Z.pos p)) with (NilEmpty.string_of_uint (Pos.to_uint p)).
  pose proof (NumberFacts.to_uint_head p). by destruct (Pos.to_uint p).
Qed.

(** A text without white space is its own [strip]. *)
Lemma lstrip_name s : Usage.is_name s = true -> PyStr.lstrip s = s.
Proof.
  destruct s as [|c s]; [reflexivity|]. unfold Usage.is_name.
  cbn [list_ascii_of_string forallb PyStr.lstrip].
  intros H. apply andb_true_iff in H as [H _]. apply andb_true_iff in H as [H _].
  replace (PyStr.is_strip_space c) with false; [reflexivity|].
  revert H. by ascii_cases c.
Qed.

Lemma rstrip_name s : Usage.is_name s = true -> PyStr.rstrip s = s.
Proof.
  unfold Usage.is_name. induction s as [|c s IH]; [reflexivity|].
  cbn [list_ascii_of_string forallb PyStr.rstrip].
  intros H. apply andb_true_iff in H as [H Hs]. rewrite (IH Hs).
  apply andb_true_iff in H as [H _].
  destruct s as [|c' s]; [|reflexivity].
  replace (PyStr.is_strip_space c) with false; [reflexivity|].
  revert H. by ascii_cases c.
Qed.

Lemma strip_name s : Usage.is_name s = true -> PyStr.strip s = s.
Proof.
  intros H. unfold PyStr.strip. by rewrite (lstrip_name s H), (rstrip_name s H).
Qed.

Lemma take_sign_digits d :
  PyStr.take_sign (NilEmpty.string_of_uint d) = (false, NilEmpty.string_of_uint d).
Proof. by destruct d. Qed.

(** [int(str(n))] is [n], within the limit on the number of digits. *)
Lemma py_int_str_of_Z n : Wf.int_ok n = true -> PyStr.py_int (str_of_Z n) = Some n.
Proof.
  unfold Wf.int_ok. intros Hn. apply Nat.leb_le in Hn.
  unfold PyStr.py_int. rewrite (strip_name _ (is_name_str_of_Z n)).
  destruct n as [|p|p]; [reflexivity|..].
  - change (str_of_Z (Z.pos p)) with (NilEmpty.string_of_uint (Pos.to_uint p)) in *.
    change (String.length (NilEmpty.string_of_uint (Pos.to_uint p))
            <= PyStr.int_max_str_digits)%nat in Hn.
    rewrite NumberFacts.length_string_of_uint in Hn.
    rewrite take_sign_digits, int_digits_first.
    + cbn [Nat.add]. apply Nat.ltb_ge in Hn. rewrite Hn.
      by rewrite NumberFacts.uint_value_to_uint.
    + pose proof (NumberFacts.to_uint_head p). by destruct (Pos.to_uint p).
  - change (str_of_Z (Z.neg p))
      with (String "-" (NilEmpty.string_of_uint (Pos.to_uint p))).
    change (String.length (NilEmpty.string_of_uint (Pos.to_uint p))
            <= PyStr.int_max_str_digits)%nat in Hn.
    rewrite NumberFacts.length_string_of_uint in Hn.
    cbn [PyStr.take_sign]. rewrite int_digits_first.
    + cbn [Nat.add]. apply Nat.ltb_ge in Hn. rewrite Hn.
      by rewrite NumberFacts.uint_value_to_uint.
    + pose proof (NumberFacts.to_uint_head p). by destruct (Pos.to_uint p).
Qed.

End IntFacts.

Module UsageFacts.
Import Metrics.

Lemma forallb_false {A} (f : A -> bool) (l : list A) :
  forallb f l = false -> exists x, x ∈ l /\ f x = false.
Proof.
  induction l as [|x l IH]; [discriminate|]. cbn [forallb].
  destruct (f x) eqn:E.
  - intros H. destruct (IH H) as (y & Hy & Hf). exists y.
    split; [by apply list_elem_of_further|assumption].
  - intros _. exists x. split; [apply list_elem_of_here|assumption].
Qed.

(** An item [name=number] puts the number at the name. *)
Lemma parse_item_field d (kv : string * Z) :
  Usage.is_name (fst kv) = true -> Wf.int_ok (snd kv) = true ->
  parse_item d (Usage.field_text kv) = Ok (<[fst kv := MInt (snd kv)]> d).
Proof.
  destruct kv as [k n]. cbn [fst snd]. intros Hk Hn.
  apply NameFacts.is_name_spec in Hk as [_ Hk].
  pose proof (IntFacts.is_name_str_of_Z n) as Hv.
  apply NameFacts.is_name_spec in Hv as [_ Hv].
  unfold parse_item, Usage.field_text. cbn [fst snd].
  change (k ++ "=" ++ Json.str_of_Z n) with (k ++ String "=" (Json.str_of_Z n)).
  rewrite NameFacts.contains_app, (NameFacts.split_on_app _ _ _ Hk),
    (NameFacts.split_on_free _ _ Hv).
  unfold coerce. by rewrite (IntFacts.py_int_str_of_Z n Hn).
Qed.

Lemma parse_items_fields (fields : list (string * Z)) : forall d,
  Forall (fun kv => Usage.is_name (fst kv) = true /\ Wf.int_ok (snd kv) = true)
         fields ->
  parse_items d (map Usage.field_text fields)
  = Ok (fold_left (fun d kv => <[fst kv := MInt (snd kv)]> d) fields d).
Proof.
  induction fields as [|kv fields IH]; intros d H; [reflexivity|].
  apply Forall_cons in H as [[Hk Hn] H].
  cbn [map parse_items fold_left]. rewrite (parse_item_field d kv Hk Hn).
  apply (IH _ H).
Qed.

(** The text of a field is a word. *)
Lemma field_text_word (kv : string * Z) :
  Usage.is_name (fst kv) = true ->
  Usage.field_text kv <> ""
  /\ Forall (fun c => PyStr.isspace c = false)
            (list_ascii_of_string (Usage.field_text kv)).
Proof.
  destruct kv as [k n]. cbn [fst]. intros Hk.
  apply NameFacts.is_name_spec in Hk as [Hk _].
  pose proof (IntFacts.is_name_str_of_Z n) as Hv.
  apply NameFacts.is_name_spec in Hv as [Hv _].
  unfold Usage.field_text. cbn [fst snd].
  change (k ++ "=" ++ Json.str_of_Z n) with (k ++ String "=" (Json.str_of_Z n)).
  split; [by destruct k|].
  rewrite NameFacts.chars_app. apply Forall_app. split; [exact Hk|].
  cbn [list_ascii_of_string]. by constructor.
Qed.

(** The loop keeps the names clean: a key has no white space and no
    [=], and a value that stays a text is one that [int] refuses. *)
Lemma parse_item_names d d' item :
  item <> "" /\ Forall (fun c => PyStr.isspace c = false) (list_ascii_of_string item) ->
  map_Forall (fun key value =>
    Usage.is_name key = true
    /\ match value with
       | MInt _ => True
       | MStr text => Usage.is_name text = true /\ PyStr.py_int text = None
       end) d ->
  parse_item d item = Ok d' ->
  map_Forall (fun key value =>
    Usage.is_name key = true
    /\ match value with
       | MInt _ => True
       | MStr text => Usage.is_name text = true /\ PyStr.py_int text = None
       end) d'.
Proof.
  intros [_ Hw] Hd. unfold parse_item.
  destruct (PyStr.contains "=" item); [|by intros [= <-]].
  pose proof (NameFacts.split_on_parts _ "=" item Hw) as Hp.
  destruct (PyStr.split_on "=" item) as [|k [|v [|x t]]]; try discriminate.
  intros [= <-].
  apply Forall_cons in Hp as [[Hk1 Hk2] Hp].
  apply Forall_cons in Hp as [[Hv1 Hv2] _].
  apply map_Forall_insert_2; [|exact Hd].
  split; [by apply NameFacts.is_name_spec|].
  unfold coerce. destruct (PyStr.py_int v) eqn:E; [done|].
  split; [by apply NameFacts.is_name_spec|exact E].
Qed.

Lemma total_cost_text (c : token_counts) :
  (exists t, input_tokens c = MStr t) \/ (exists t, output_tokens c = MStr t) ->
  exists e, Usage.total_cost c = Raise e.
Proof.
  unfold Usage.total_cost. intros [[t Ht]|[t Ht]]; rewrite Ht.
  - by eexists.
  - destruct (Usage.cost_of (input_tokens c) Usage.input_rate); by eexists.
Qed.

End UsageFacts.

(** X1. The unpacking is the only way in which the parsing loop fails:
    the loop raises exactly when an item of the usage text has two [=]
    or more, and always with the [ValueError] of the unpacking. *)
Theorem parse_metrics_outcome (metrics_str : string) :
  match Metrics.parse_metrics metrics_str with
  | Ok _ =>
      forallb (fun item => (PyStr.count "=" item <=? 1)%nat)
              (PyStr.split metrics_str) = true
  | Raise e =>
      e = Metrics.unpack_error
      /\ existsb (fun item => (2 <=? PyStr.count "=" item)%nat)
                 (PyStr.split metrics_str) = true
  end.
Proof.
  destruct (forallb (fun item => (PyStr.count "=" item <=? 1)%nat)
                    (PyStr.split metrics_str)) eqn:E.
  - destruct (MetricsFacts.parse_metrics_ok metrics_str) as [d ->]; [|reflexivity].
    apply Forall_forall. intros item Hin. apply Nat.leb_le.
    rewrite forallb_forall in E. apply E. by apply list_elem_of_In.
  - apply UsageFacts.forallb_false in E as (item & Hin & Hc).
    apply Nat.leb_gt in Hc. unfold Metrics.parse_metrics.
    rewrite (MetricsFacts.parse_items_raise _ ∅ item Hin) by lia.
    split; [reflexivity|]. apply existsb_exists. exists item.
    split; [by apply list_elem_of_In|]. apply Nat.leb_le. lia.
Qed.

(** X2. A usage text made of [name=number] items separated by blanks,
    as [str] of a record of integer fields writes it, is parsed into the
    mapping of these names to these numbers, as integers: the item of a
    name that comes again replaces the earlier one. The names have no
    white space and no [=]; the numbers have no more digits than [int]
    converts. *)
Theorem fields_round_trip (fields : list (string * Z)) :
  Forall (fun kv => Usage.is_name (fst kv) = true /\ Wf.int_ok (snd kv) = true)
         fields ->
  Metrics.parse_metrics (Usage.fields_text fields) = Ok (Usage.fields_dict fields).
Proof.
  intros H. unfold Metrics.parse_metrics, Usage.fields_text, Usage.fields_dict.
  rewrite NameFacts.split_join.
  - by apply UsageFacts.parse_items_fields.
  - apply Forall_fmap. eapply Forall_impl; [exact H|].
    intros kv [Hk _]. by apply UsageFacts.field_text_word.
Qed.

Lemma fields_round_trip_witness :
  Metrics.parse_metrics
    (Usage.fields_text [("total_tokens", 165); ("prompt_tokens", 120);
                        ("completion_tokens", 45); ("successful_requests", 3);
                        ("prompt_tokens", 121)])
  = Ok (Usage.fields_dict [("total_tokens", 165); ("prompt_tokens", 120);
                           ("completion_tokens", 45); ("successful_requests", 3);
                           ("prompt_tokens", 121)]).
Proof.
  apply (fields_round_trip [("total_tokens", 165); ("prompt_tokens", 120);
                            ("completion_tokens", 45); ("successful_requests", 3);
                            ("prompt_tokens", 121)]).
  repeat constructor.
Defined.

(** X3. Whatever the usage text, the parsed mapping is clean: a key has
    no white space and no [=], and a value that was kept as a text has
    none either and is a text that [int] refuses. *)
Theorem parsed_names_are_clean (metrics_str : string)
    (metrics_dict : gmap string Metrics.metric_value) :
  Metrics.parse_metrics metrics_str = Ok metrics_dict ->
  map_Forall (fun key value =>
    Usage.is_name key = true
    /\ match value with
       | Metrics.MInt _ => True
       | Metrics.MStr text => Usage.is_name text = true /\ PyStr.py_int text = None
       end) metrics_dict.
Proof.
  unfold Metrics.parse_metrics.
  pose proof (NameFacts.split_words metrics_str) as Hw.
  assert (H0 : map_Forall (fun key value =>
    Usage.is_name key = true
    /\ match value with
       | Metrics.MInt _ => True
       | Metrics.MStr text => Usage.is_name text = true /\ PyStr.py_int text = None
       end) (∅ : gmap string Metrics.metric_value)) by apply map_Forall_empty.
  revert H0. generalize (∅ : gmap string Metrics.metric_value).
  induction Hw as [|item items Hi _ IH]; intros d Hd; cbn [Metrics.parse_items].
  - by intros [= <-].
  - intros H. apply bind_Ok in H as (d1 & H1 & H).
    apply (IH d1); [|exact H]. by apply (UsageFacts.parse_item_names d d1 item).
Qed.

Lemma parsed_names_are_clean_witness :
  map_Forall (fun key value =>
    Usage.is_name key = true
    /\ match value with
       | Metrics.MInt _ => True
       | Metrics.MStr text => Usage.is_name text = true /\ PyStr.py_int text = None
       end)
    (<["model" := Metrics.MStr "gpt-4"]>
       (<["prompt_tokens" := Metrics.MInt 120]>
          (∅ : gmap string Metrics.metric_value))).
Proof.
  apply (parsed_names_are_clean "  prompt_tokens=120   model=gpt-4 done ").
  vm_compute. reflexivity.
Defined.

(** X4. A count of prompt or completion tokens that was kept as a text
    (for example [1,234] or [12k]) stops the section: the division of
    line 320 or 321 raises, the section shows the parsed mapping and the
    warning, and neither the tracker nor the three metrics are reached. *)
Theorem text_count_is_not_charged
    (track_usage : Metrics.metric_value -> Metrics.metric_value -> result unit)
    (metrics_str : string) (metrics_dict : gmap string Metrics.metric_value) :
  Metrics.parse_metrics metrics_str = Ok metrics_dict ->
  (exists t, metrics_dict !! "prompt_tokens" = Some (Metrics.MStr t))
  \/ (exists t, metrics_dict !! "completion_tokens" = Some (Metrics.MStr t)) ->
  exists e,
    Usage.total_cost (Metrics.extract_counts metrics_dict) = Raise e
    /\ Usage.section track_usage metrics_str
       = [Usage.ParsedMetrics metrics_dict;
          Usage.UsageWarning ("Usage metrics calculation error: " ++ exn_str e)].
Proof.
  intros Hp Ht.
  destruct (UsageFacts.total_cost_text (Metrics.extract_counts metrics_dict))
    as [e He].
  { unfold Metrics.extract_counts, Metrics.get0. cbn.
    destruct Ht as [[t ->]|[t ->]]; [left|right]; by exists t. }
  exists e. split; [exact He|]. unfold Usage.section. by rewrite Hp, He.
Qed.

Lemma text_count_is_not_charged_witness :
  exists e,
    Usage.total_cost
      (Metrics.extract_counts
         (<["completion_tokens" := Metrics.MInt 45]>
            (<["prompt_tokens" := Metrics.MStr "1,234"]>
               (∅ : gmap string Metrics.metric_value)))) = Raise e
    /\ Usage.section (fun _ _ => Ok tt) "prompt_tokens=1,234 completion_tokens=45"
       = [Usage.ParsedMetrics
            (<["completion_tokens" := Metrics.MInt 45]>
               (<["prompt_tokens" := Metrics.MStr "1,234"]>
                  (∅ : gmap string Metrics.metric_value)));
          Usage.UsageWarning ("Usage metrics calculation error: " ++ exn_str e)].
Proof.
  apply (text_count_is_not_charged (fun _ _ => Ok tt)
           "prompt_tokens=1,234 completion_tokens=45").
  - vm_compute. reflexivity.
  - left. exists "1,234". vm_compute. reflexivity.
Defined.

(** X5. A usage text that gives no prompt and no completion count (the
    text [{}] of the mapping that crew.py sets, a text without [=], or a
    text of other keys) costs nothing: the absent counts are 0, the cost
    is [0.0], and the tracker is called with the two zeros. *)
Theorem usage_without_counts
    (track_usage : Metrics.metric_value -> Metrics.metric_value -> result unit)
    (metrics_str : string) (metrics_dict : gmap string Metrics.metric_value) :
  Metrics.parse_metrics metrics_str = Ok metrics_dict ->
  metrics_dict !! "prompt_tokens" = None ->
  metrics_dict !! "completion_tokens" = None ->
  Usage.section track_usage metrics_str
  = Usage.ParsedMetrics metrics_dict
    :: match track_usage (Metrics.MInt 0) (Metrics.MInt 0) with
       | Ok _ =>
           [Usage.CostMetrics PyFloat.zero (Metrics.MInt 0) (Metrics.MInt 0)]
       | Raise e => Usage.warning e
       end.
Proof.
  intros Hp Hi Ho. unfold Usage.section. rewrite Hp.
  unfold Metrics.extract_counts, Metrics.get0. cbn [Metrics.input_tokens
    Metrics.output_tokens]. rewrite Hi, Ho. reflexivity.
Qed.

Lemma usage_without_counts_witness :
  Usage.section (fun _ _ => Ok tt) "{}"
  = Usage.ParsedMetrics ∅
    :: match (fun _ _ => Ok tt) (Metrics.MInt 0) (Metrics.MInt 0) with
       | Ok _ =>
           [Usage.CostMetrics PyFloat.zero (Metrics.MInt 0) (Metrics.MInt 0)]
       | Raise e => Usage.warning e
       end.
Proof.
  apply (usage_without_counts (fun _ _ => Ok tt) "{}" ∅); reflexivity.
Defined.

(** ** The order of the display and the first bad score *)

Module OrderFacts.
Import Json ListSort App.

Lemma StronglySorted_rev {A} (R : A -> A -> Prop) (l : list A) :
  StronglySorted R l -> StronglySorted (fun x y => R y x) (rev l).
Proof.
  induction 1 as [|x l Hs IH Hx]; [constructor|].
  cbn [rev]. apply StronglySorted_app_2; [|exact IH|by repeat constructor].
  intros a b Ha Hb. apply list_elem_of_singleton in Hb as ->.
  rewrite Forall_forall in Hx. apply Hx. apply list_elem_of_In.
  apply in_rev. by apply list_elem_of_In.
Qed.

Lemma StronglySorted_weaken {A} (R R' : A -> A -> Prop) (l : list A) :
  (forall x y, x ∈ l -> y ∈ l -> R x y -> R' x y) ->
  StronglySorted R l -> StronglySorted R' l.
Proof.
  intros H Hs. induction Hs as [|x l Hs IH Hx]; constructor.
  - apply IH. intros a b Ha Hb. apply H; by apply list_elem_of_further.
  - rewrite Forall_forall in Hx. apply Forall_forall. intros y Hy.
    apply H; [apply list_elem_of_here|by apply list_elem_of_further|by apply Hx].
Qed.

(** The keys are computed in the order of the list: the exception is
    the one of the first item whose key raises. *)
Lemma mapM_keyed_first {A K} (key : A -> result K) (good rest : list A) x e :
  Forall (fun y => raises (key y) = false) good ->
  key x = Raise e ->
  mapM (with_key key) (good ++ x :: rest)%list = Raise e.
Proof.
  intros Hg Hx. induction Hg as [|y good Hy _ IH].
  - change (mapM (with_key key) ([] ++ x :: rest)%list)
      with (p ← with_key key x; k ← mapM (with_key key) rest; Ok (p :: k)).
    by rewrite (SortedFacts.with_key_Raise key x e Hx).
  - change (mapM (with_key key) ((y :: good) ++ x :: rest)%list)
      with (p ← with_key key y;
            k ← mapM (with_key key) (good ++ x :: rest)%list; Ok (p :: k)).
    destruct (key y) as [k|e0] eqn:Ek; [|discriminate].
    rewrite (SortedFacts.with_key_eq key y k Ek). cbn. by rewrite IH.
Qed.

Lemma sum_scores_first (good rest : list json) (lead : dict) (e : exn) :
  Forall (fun y => raises (sort_key y) = false) good ->
  lead_score lead = Raise e ->
  forall acc, sum_scores acc (good ++ JDict lead :: rest)%list = Raise e.
Proof.
  intros Hg Hx. induction Hg as [|y good Hy _ IH]; intros acc.
  - cbn [app sum_scores]. by rewrite Hx.
  - change ((y :: good) ++ JDict lead :: rest)%list
      with (y :: (good ++ JDict lead :: rest)%list).
    destruct y as [| | | | |d]; cbn [sum_scores]; try apply IH.
    cbn [sort_key] in Hy. destruct (lead_score d) as [s|]; [|discriminate].
    cbn. apply IH.
Qed.

Lemma high_quality_first (good rest : list json) (lead : dict) (e : exn) :
  Forall (fun y => raises (sort_key y) = false) good ->
  lead_score lead = Raise e ->
  high_quality (good ++ JDict lead :: rest)%list = Raise e.
Proof.
  intros Hg Hx. induction Hg as [|y good Hy _ IH].
  - cbn [app high_quality]. by rewrite Hx.
  - change ((y :: good) ++ JDict lead :: rest)%list
      with (y :: (good ++ JDict lead :: rest)%list).
    destruct y as [| | | | |d]; cbn [high_quality]; try apply IH.
    cbn [sort_key] in Hy. destruct (lead_score d) as [s|]; [|discriminate].
    cbn. by rewrite IH.
Qed.

(** The keys of the list are numbers. *)
Lemma number_keys (l : list json) :
  Forall (fun x => Leads.number_key x = true) l ->
  Forall (fun x => exists k, sort_key x = Ok k /\ PyFloat.is_nan k = false) l.
Proof.
  intros H. eapply Forall_impl; [exact H|]. intros x. unfold Leads.number_key.
  destruct (sort_key x) as [k|e]; [|discriminate].
  intros Hn. exists k. split; [reflexivity|]. by apply negb_true_iff.
Qed.

(** A list in order is its own sort: it is one run. *)
Lemma take_run_sorted {A} (lt : A -> A -> bool) (l : list A) : forall prev,
  StronglySorted (fun x y => lt y x = false) (prev :: l) ->
  take_run lt false prev l = (l, []).
Proof.
  induction l as [|x l IH]; intros prev H; [reflexivity|].
  apply StronglySorted_inv in H as [Hs Hp].
  apply Forall_cons in Hp as [Hx _].
  cbn [take_run]. rewrite Hx. cbn [Bool.eqb]. by rewrite (IH x Hs).
Qed.

Lemma sort_sorted {A} (lt : A -> A -> bool) (l : list A) :
  StronglySorted (fun x y => lt y x = false) l -> sort lt l = l.
Proof.
  intros H. unfold sort, count_run.
  destruct l as [|x [|y l]]; [reflexivity..|].
  pose proof H as H'. apply StronglySorted_inv in H' as [Hs Hp].
  apply Forall_cons in Hp as [Hy _]. rewrite Hy.
  by rewrite (take_run_sorted lt l y Hs).
Qed.

(** The items with their keys are read back from the items. *)
Lemma mapM_keyed_inv {A K} (key : A -> result K) (keyed : list (K * A)) :
  Forall (fun p => key (snd p) = Ok (fst p)) keyed ->
  mapM (with_key key) (map snd keyed) = Ok keyed.
Proof.
  induction 1 as [|p keyed Hp _ IH]; [reflexivity|].
  change (mapM (with_key key) (map snd (p :: keyed)))
    with (q ← with_key key (snd p);
          k ← mapM (with_key key) (map snd keyed); Ok (q :: k)).
  rewrite (SortedFacts.with_key_eq key (snd p) (fst p) Hp). cbn.
  rewrite IH. cbn. by destruct p.
Qed.

Section Descending.

Context {A K : Type} (lt : K -> K -> bool) (key : A -> result K) (D : K -> Prop).

Hypothesis lt_irrefl : forall x, lt x x = false.
Hypothesis lt_trans :
  forall x y z, lt x y = true -> lt y z = true -> lt x z = true.
Hypothesis lt_cotrans :
  forall x y z, D y -> lt x z = true -> lt x y = true \/ lt y z = true.

(** With a strict weak order on the keys, a reverse sort returns the
    items by descending key. *)
Lemma py_sorted_descending l out :
  Forall (fun x => exists k, key x = Ok k /\ D k) l ->
  py_sorted lt key true l = Ok out ->
  exists keyed,
    out = map snd keyed
    /\ Forall (fun p => key (snd p) = Ok (fst p)) keyed
    /\ StronglySorted (fun a b => lt (fst a) (fst b) = false) keyed.
Proof.
  intros Hd. unfold py_sorted.
  destruct (mapM (with_key key) l) as [keyed|e] eqn:E; cbn; [|discriminate].
  intros H. injection H as <-.
  destruct (SortedFacts.mapM_keyed key l keyed E) as [Hl Hk].
  set (lt' := fun a b : K * A => lt (fst a) (fst b)).
  assert (Hd' : Forall (fun p => D (fst p)) keyed).
  { rewrite Forall_forall in Hd. rewrite Forall_forall in Hk.
    apply Forall_forall. intros p Hp.
    destruct (Hd (snd p)) as (k & Hk1 & Hk2).
    - rewrite <- Hl. apply list_elem_of_fmap. by exists p.
    - rewrite (Hk p Hp) in Hk1. by injection Hk1 as ->. }
  assert (Hperm : rev (sort lt' (rev keyed)) ≡ₚ keyed).
  { by rewrite <- Permutation_rev, SortFacts.sort_perm, <- Permutation_rev. }
  destruct (SortFacts.sort_spec lt' (fun p => D (fst p))
              (fun x => lt_irrefl (fst x))
              (fun x y z => lt_trans (fst x) (fst y) (fst z))
              (fun x y z => lt_cotrans (fst x) (fst y) (fst z))
              (fun _ => false) (rev keyed)) as [Hsorted _].
  { done. }
  { by rewrite <- Permutation_rev. }
  exists (rev (sort lt' (rev keyed))). split; [reflexivity|].
  split; [by rewrite Hperm|].
  by apply StronglySorted_rev in Hsorted.
Qed.

(** Sorted again, the list stays as it is. *)
Lemma py_sorted_again l out :
  Forall (fun x => exists k, key x = Ok k /\ D k) l ->
  py_sorted lt key true l = Ok out ->
  py_sorted lt key true out = Ok out.
Proof.
  intros Hd Hs.
  destruct (py_sorted_descending l out Hd Hs) as (keyed & -> & Hk & Hsorted).
  unfold py_sorted. rewrite (mapM_keyed_inv key keyed Hk). cbn.
  rewrite sort_sorted.
  - by rewrite rev_involutive.
  - apply StronglySorted_rev in Hsorted.
    eapply StronglySorted_weaken; [|exact Hsorted]. by intros x y _ _ H.
Qed.

End Descending.

End OrderFacts.

(** X6. When every score converts to a number, the sorted list is in
    descending order of the scores: no lead stands before a lead of a
    higher score (an item that is not a mapping counts as 0). *)
Theorem sorted_leads_descend (results_list sorted : list Json.json) :
  Forall (fun x => Leads.number_key x = true) results_list ->
  App.sort_leads results_list = Ok sorted ->
  Order.descending sorted.
Proof.
  intros H Hs.
  destruct (OrderFacts.py_sorted_descending PyFloat.ltb App.sort_key
              (fun f => PyFloat.is_nan f = false)
              FloatOrder.ltb_irrefl FloatOrder.ltb_trans FloatOrder.ltb_cotrans
              results_list sorted) as (keyed & -> & Hk & Hsorted);
    [|exact Hs|].
  { by apply OrderFacts.number_keys. }
  unfold Order.descending.
  apply (StronglySorted_fmap snd
           (fun x y : spec_float * Json.json => Order.below (snd x) (snd y) = false)).
  { done. }
  eapply OrderFacts.StronglySorted_weaken; [|exact Hsorted].
  intros x y Hx Hy Hxy. cbn beta in Hxy.
  rewrite Forall_forall in Hk. unfold Order.below.
  by rewrite (Hk x Hx), (Hk y Hy).
Qed.

Lemma sorted_leads_descend_witness :
  Order.descending
    [Json.JDict [("company_name", Json.JStr "Bolt"); ("score", Json.JInt 9)];
     Json.JDict [("company_name", Json.JStr "Acme"); ("score", Json.JInt 8)];
     Json.JStr "no more leads"].
Proof.
  apply (sorted_leads_descend Drawable.mixed_results).
  - repeat constructor.
  - vm_compute. reflexivity.
Defined.

(** X7. The message of a score that [float] refuses names the first such
    lead of the list: when the leads before it convert, the average, the
    count of high-quality leads and the sort all raise its exception, and
    the display stops with it before any widget. *)
Theorem first_bad_score_is_reported (good rest : list Json.json)
    (lead : Json.dict) (e : exn) :
  Forall (fun x => raises (App.sort_key x) = false) good ->
  App.lead_score lead = Raise e ->
  App.avg_score (good ++ Json.JDict lead :: rest)%list = Raise e
  /\ App.high_quality (good ++ Json.JDict lead :: rest)%list = Raise e
  /\ App.sort_leads (good ++ Json.JDict lead :: rest)%list = Raise e
  /\ App.display (good ++ Json.JDict lead :: rest)%list = ([], Raise e).
Proof.
  intros Hg Hx.
  assert (Ha : App.avg_score (good ++ Json.JDict lead :: rest)%list = Raise e).
  { unfold App.avg_score.
    rewrite (OrderFacts.sum_scores_first good rest lead e Hg Hx).
    rewrite length_app. cbn [length].
    by replace (0 <? length good + S (length rest))%nat with true
      by (symmetry; apply Nat.ltb_lt; lia). }
  split; [exact Ha|].
  split; [by apply OrderFacts.high_quality_first|].
  split.
  - unfold App.sort_leads, ListSort.py_sorted.
    by rewrite (OrderFacts.mapM_keyed_first App.sort_key good rest
                  (Json.JDict lead) e Hg Hx).
  - unfold App.display. by rewrite Ha.
Qed.

Lemma first_bad_score_is_reported_witness :
  App.avg_score Drawable.bad_score_leads
  = Raise (ValueError "could not convert string to float: 'high'")
  /\ App.high_quality Drawable.bad_score_leads
     = Raise (ValueError "could not convert string to float: 'high'")
  /\ App.sort_leads Drawable.bad_score_leads
     = Raise (ValueError "could not convert string to float: 'high'")
  /\ App.display Drawable.bad_score_leads
     = ([], Raise (ValueError "could not convert string to float: 'high'")).
Proof.
  apply (first_bad_score_is_reported
           [hd Json.JNull Drawable.bad_score_leads] []
           [("company_name", Json.JStr "Bolt"); ("score", Json.JStr "high")]).
  - by repeat constructor.
  - vm_compute. reflexivity.
Defined.

(** ** What the display draws for one lead *)

Module RenderFacts.
Import Json App Drawable Drawn.

#[local] Opaque PyFloat.of_Z PyFloat.div PyFloat.leb PyFloat.zero str get lookup
  location_text unless header_color_of.

(** A lead whose score converts is drawn up to the progress bar, which
    ends the display when it refuses the value, and to the end of its
    decision makers otherwise. *)
Lemma render_lead_drawn idx lead s :
  lead_score lead = Ok s ->
  render_lead idx lead
  = if progress_ok s then
      ((head_widgets idx lead s
        ++ [Progress (PyFloat.div s (PyFloat.of_Z 10));
            BusinessOverview (get lead "review" (JStr "N/A"))]
        ++ match lookup lead "recommendations" with
           | Some r => [Recommendations r]
           | None => []
           end
        ++ fst (render_decision_makers lead))%list,
       snd (render_decision_makers lead))
    else (head_widgets idx lead s,
          Raise (StreamlitAPIException
                   "Progress Value has invalid value [0.0, 1.0]")).
Proof.
  intros Hs. unfold render_lead, progress_ok, st_progress. rewrite Hs.
  destruct (render_decision_makers lead) as [wp rp]. cbn.
  destruct (PyFloat.leb PyFloat.zero (PyFloat.div s (PyFloat.of_Z 10))
            && PyFloat.leb (PyFloat.div s (PyFloat.of_Z 10)) (PyFloat.of_Z 1));
    [|reflexivity].
  destruct (lookup lead "recommendations"); reflexivity.
Qed.

#[local] Transparent PyFloat.of_Z PyFloat.div PyFloat.leb PyFloat.zero str get
  lookup location_text unless header_color_of.

(** The integers of the scale convert, and the progress bar takes them. *)
Lemma scale_score (n : Z) :
  0 <= n <= 10 ->
  PyFloat.of_int n = Ok (PyFloat.of_Z n) /\ progress_ok (PyFloat.of_Z n) = true.
Proof.
  intros Hn.
  assert (E : n ∈ [0; 1; 2; 3; 4; 5; 6; 7; 8; 9; 10]).
  { rewrite !elem_of_cons. lia. }
  rewrite !elem_of_cons in E.
  destruct E as [->|[->|[->|[->|[->|[->|[->|[->|[->|[->|[->|E]]]]]]]]]]];
    [by split..|by apply elem_of_nil in E].
Qed.

Lemma sum_scores_keys l : forall acc,
  Forall (fun x => exists k, sort_key x = Ok k) l ->
  exists t, sum_scores acc l = Ok t.
Proof.
  induction l as [|x l IH]; intros acc H; [by eexists|].
  apply Forall_cons in H as [[k Hk] H].
  destruct x; cbn [sum_scores]; try by apply IH.
  cbn [sort_key] in Hk. rewrite Hk. cbn. by apply IH.
Qed.

Lemma high_quality_keys l :
  Forall (fun x => exists k, sort_key x = Ok k) l ->
  exists n, high_quality l = Ok n.
Proof.
  induction 1 as [|x l [k Hk] _ [n IH]]; [by eexists|].
  destruct x; cbn [high_quality]; try by eexists.
  cbn [sort_key] in Hk. rewrite Hk, IH. cbn. by eexists.
Qed.

(** When the sort returns, every key was computed. *)
Lemma sort_leads_keys l sorted :
  sort_leads l = Ok sorted -> Forall (fun x => exists k, sort_key x = Ok k) l.
Proof.
  unfold sort_leads, ListSort.py_sorted.
  destruct (mapM (ListSort.with_key sort_key) l) as [keyed|e] eqn:E;
    [|discriminate].
  intros _. destruct (SortedFacts.mapM_keyed sort_key l keyed E) as [<- Hk].
  apply Forall_fmap. eapply Forall_impl; [exact Hk|].
  intros p Hp. by exists (fst p).
Qed.

(** The loop draws the leads before the one that the progress bar
    refuses, this one up to the bar, and nothing after it. *)
Lemma render_from_stops (before after : list json) (lead : dict) s :
  Forall (fun x => drawable x = true) before ->
  lead_score lead = Ok s -> progress_ok s = false ->
  forall idx,
    snd (render_from idx (before ++ JDict lead :: after)%list)
    = Raise (StreamlitAPIException "Progress Value has invalid value [0.0, 1.0]")
    /\ rendered (fst (render_from idx (before ++ JDict lead :: after)%list))
       = expanders idx (before ++ [JDict lead])%list.
Proof.
  intros Hb Hs Hp. induction Hb as [|x before Hx _ IH]; intros idx.
  - cbn [app render_from expanders].
    rewrite AppFacts.ui_bind_fst, AppFacts.ui_bind_snd, (render_lead_drawn idx lead s Hs), Hp.
    by split.
  - change ((x :: before) ++ JDict lead :: after)%list
      with (x :: (before ++ JDict lead :: after))%list.
    change ((x :: before) ++ [JDict lead])%list
      with (x :: (before ++ [JDict lead]))%list.
    destruct (IH (S idx)) as [IH1 IH2].
    destruct x as [| | | | |d]; cbn [render_from expanders]; try by split.
    destruct (AppFacts.render_lead_spec idx d) as [H1 H2].
    rewrite AppFacts.ui_bind_fst, AppFacts.ui_bind_snd, AppFacts.rendered_app, H1, (H2 Hx).
    split; [exact IH1|]. by rewrite IH2.
Qed.

End RenderFacts.

(** X8. A null field of a record is shown as the text [None]: the
    default [N/A] stands for an absent key only, and the structure of a
    record has every key. A null website becomes a link to [None]; only
    a null location is shown as [N/A]. The score is one of the scale. *)
Theorem null_fields_are_shown_as_None (idx : nat) (r : Schema.LeadOutput) (n : Z) :
  Schema.score r = Some n -> 0 <= n <= 10 ->
  exists w,
    App.render_lead idx (Schema.model_dump r) = (w, Ok tt)
    /\ (Schema.company_name r = None ->
        App.Expander idx "None" (Json.str_of_Z n) ∈ w)
    /\ (Schema.annual_revenue r = None -> App.AnnualRevenue "None" ∈ w)
    /\ (Schema.website_url r = None -> App.Website (Some "None") ∈ w)
    /\ (Schema.num_employees r = None -> App.NumEmployees "None" ∈ w)
    /\ (Schema.review r = None -> App.BusinessOverview Json.JNull ∈ w)
    /\ (Schema.location r = None -> App.Location "N/A" ∈ w).
Proof.
  intros Hs Hn.
  destruct (RenderFacts.scale_score n Hn) as [Hf Hp].
  assert (Hl : App.lead_score (Schema.model_dump r) = Ok (PyFloat.of_Z n)).
  { unfold App.lead_score, Json.get.
    replace (Json.lookup (Schema.model_dump r) "score") with (Some (Json.JInt n))
      by (cbn; by rewrite Hs).
    exact Hf. }
  assert (Hd : Drawable.people_ok (Schema.model_dump r) = true).
  { unfold Drawable.people_ok, Json.get.
    replace (Json.lookup (Schema.model_dump r) "key_decision_makers")
      with (Some (Schema.opt (fun l => Json.JList (map Schema.str_dict l))
                    (Schema.key_decision_makers r))) by reflexivity.
    destruct (Schema.key_decision_makers r) as [l|]; [|reflexivity].
    cbn [default Schema.opt Json.iter_dicts raises negb]. apply orb_true_r. }
  destruct (AppFacts.render_decision_makers_spec (Schema.model_dump r)) as [_ Hk].
  eexists. rewrite (RenderFacts.render_lead_drawn idx _ _ Hl), Hp, (Hk Hd).
  split; [reflexivity|].
  repeat split; intros H.
  - apply elem_of_app. left. rewrite !elem_of_cons.
    left. unfold Json.get. cbn. by rewrite H, Hs.
  - apply elem_of_app. left. rewrite !elem_of_cons.
    do 2 right. left. unfold Json.get. cbn. by rewrite H.
  - apply elem_of_app. left. rewrite !elem_of_cons.
    do 4 right. left. unfold Json.get. cbn. by rewrite H.
  - apply elem_of_app. left. rewrite !elem_of_cons.
    do 5 right. left. unfold Json.get. cbn. by rewrite H.
  - apply elem_of_app. right. apply elem_of_app. left. rewrite !elem_of_cons.
    right. left. unfold Json.get. cbn. by rewrite H.
  - apply elem_of_app. left. rewrite !elem_of_cons.
    do 3 right. left. unfold App.location_text, Json.get. cbn. by rewrite H.
Qed.

Lemma null_fields_are_shown_as_None_witness :
  exists w,
    App.render_lead 1 (Schema.model_dump Samples.bare) = (w, Ok tt)
    /\ (Schema.company_name Samples.bare = None ->
        App.Expander 1 "None" (Json.str_of_Z 7) ∈ w)
    /\ (Schema.annual_revenue Samples.bare = None -> App.AnnualRevenue "None" ∈ w)
    /\ (Schema.website_url Samples.bare = None -> App.Website (Some "None") ∈ w)
    /\ (Schema.num_employees Samples.bare = None -> App.NumEmployees "None" ∈ w)
    /\ (Schema.review Samples.bare = None -> App.BusinessOverview Json.JNull ∈ w)
    /\ (Schema.location Samples.bare = None -> App.Location "N/A" ∈ w).
Proof.
  apply (null_fields_are_shown_as_None 1 Samples.bare 7); [reflexivity|lia].
Defined.

(** X9. A score that converts but falls outside the scale (11, -1, a
    NaN) stops the display in the middle of its lead: the progress bar
    raises after the expander and the company information are drawn. The
    leads that stand before it in the sorted list are shown, those after
    it are not; the report is still built from the sorted list. *)
Theorem out_of_scale_score_stops_display
    (results_list before after : list Json.json) (lead : Json.dict)
    (s : spec_float) :
  App.sort_leads results_list = Ok (before ++ Json.JDict lead :: after)%list ->
  Forall (fun x => Drawable.drawable x = true) before ->
  App.lead_score lead = Ok s ->
  Drawable.progress_ok s = false ->
  exists w,
    App.display results_list
    = (w, Raise (StreamlitAPIException
                   "Progress Value has invalid value [0.0, 1.0]"))
    /\ App.rendered w = Drawable.expanders 1 (before ++ [Json.JDict lead])%list
    /\ Handler.results_for_report results_list
       = (before ++ Json.JDict lead :: after)%list.
Proof.
  intros Hsort Hb Hs Hp.
  pose proof (RenderFacts.sort_leads_keys _ _ Hsort) as Hk.
  assert (Hne : (0 <? length results_list)%nat = true).
  { destruct results_list; [|reflexivity].
    apply AppFacts.sort_leads_perm, Permutation_nil_r in Hsort.
    by destruct before. }
  destruct (RenderFacts.sum_scores_keys results_list PyFloat.zero Hk) as [t Ht].
  destruct (RenderFacts.high_quality_keys results_list Hk) as [n Hn].
  destruct (RenderFacts.render_from_stops before after lead s Hb Hs Hp 1)
    as [H1 H2].
  unfold Handler.results_for_report, App.display, App.avg_score.
  rewrite Hne, Ht, Hn, Hsort. cbn.
  destruct (App.render_from 1 (before ++ Json.JDict lead :: after)%list)
    as [w r]. cbn in H1, H2. subst r.
  eexists. split; [reflexivity|]. split; [|reflexivity].
  exact H2.
Qed.

Lemma out_of_scale_score_stops_display_witness :
  exists w,
    App.display Samples.above_scale
    = (w, Raise (StreamlitAPIException
                   "Progress Value has invalid value [0.0, 1.0]"))
    /\ App.rendered w
       = Drawable.expanders 1 ([] ++ [Leads.lead "Bolt" (Json.JInt 11)])%list
    /\ Handler.results_for_report Samples.above_scale
       = ([] ++ Leads.lead "Bolt" (Json.JInt 11)
             :: [Leads.lead "Acme" (Json.JInt 8); Leads.lead "Core" (Json.JInt 3)])%list.
Proof.
  apply (out_of_scale_score_stops_display Samples.above_scale []
           [Leads.lead "Acme" (Json.JInt 8); Leads.lead "Core" (Json.JInt 3)]
           [("company_name", Json.JStr "Bolt"); ("score", Json.JInt 11)]
           (PyFloat.of_Z 11)).
  - vm_compute. reflexivity.
  - constructor.
  - vm_compute. reflexivity.
  - vm_compute. reflexivity.
Defined.

(** ** When the report is built, and what its dump is made of *)

Module BuildFacts.
Import Json Report.

(** The section of an item is written exactly when the item is fit for
    the report. *)
Lemma lead_section_raises x : raises (lead_section x) = negb (Reportable.ok x).
Proof.
  destruct x as [| | | | |d]; try reflexivity.
  unfold lead_section, decision_makers, Reportable.ok, Drawable.people_ok.
  destruct (truthy (get d "key_decision_makers" (JList []))); [|reflexivity].
  by destruct (iter_dicts (get d "key_decision_makers" (JList []))).
Qed.

Lemma lead_sections_raises l :
  raises (lead_sections l) = negb (forallb Reportable.ok l).
Proof.
  induction l as [|x l IH]; [reflexivity|]. cbn [lead_sections forallb].
  pose proof (lead_section_raises x) as Hx.
  destruct (lead_section x) as [s|e]; cbn in Hx |- *.
  - apply (f_equal negb) in Hx. rewrite negb_involutive in Hx.
    rewrite <- Hx. cbn. rewrite <- IH. by destruct (lead_sections l).
  - apply (f_equal negb) in Hx. rewrite negb_involutive in Hx.
    by rewrite <- Hx.
Qed.

(** The sections are written in the order of the list: the exception is
    the one of the first item that is not fit. *)
Lemma lead_sections_first (good rest : list json) x e :
  Forall (fun y => Reportable.ok y = true) good ->
  lead_section x = Raise e ->
  lead_sections (good ++ x :: rest)%list = Raise e.
Proof.
  intros Hg Hx. induction Hg as [|y good Hy _ IH].
  - cbn [app lead_sections]. by rewrite Hx.
  - change ((y :: good) ++ x :: rest)%list with (y :: (good ++ x :: rest))%list.
    cbn [lead_sections]. pose proof (lead_section_raises y) as Hr.
    rewrite Hy in Hr. destruct (lead_section y); [|discriminate].
    cbn. by rewrite IH.
Qed.

End BuildFacts.

Module PlainFacts.
Import Json Report Reportable.

Lemma plain_app a b : plain (a ++ b) = plain a && plain b.
Proof. unfold plain. by rewrite NameFacts.chars_app, forallb_app. Qed.

Lemma plain_escape_char c : plain (escape_char c) = true.
Proof. by ascii_cases c. Qed.

Lemma plain_escape s : plain (escape s) = true.
Proof.
  induction s as [|c s IH]; [reflexivity|]. cbn [escape].
  by rewrite plain_app, plain_escape_char, IH.
Qed.

Lemma plain_encode_str s : plain (encode_str s) = true.
Proof.
  unfold encode_str.
  change (String dquote (escape s ++ String dquote ""))
    with (String dquote "" ++ escape s ++ String dquote "").
  by rewrite !plain_app, plain_escape.
Qed.

Lemma plain_uint d : plain (NilEmpty.string_of_uint d) = true.
Proof. induction d; [reflexivity|..]; exact IHd. Qed.

Lemma plain_str_of_Z n : plain (str_of_Z n) = true.
Proof.
  destruct n as [|p|p]; [reflexivity|..].
  - apply (plain_uint (Pos.to_uint p)).
  - apply (plain_uint (Pos.to_uint p)).
Qed.

Lemma plain_spaces n : plain (spaces n) = true.
Proof. induction n as [|n IH]; [reflexivity|exact IH]. Qed.

Lemma plain_inner level : plain (Layout.inner level) = true.
Proof. unfold Layout.inner. by rewrite plain_app, plain_spaces. Qed.

Lemma plain_close level : plain (Layout.close level) = true.
Proof. unfold Layout.close. by rewrite plain_app, plain_spaces. Qed.

Lemma plain_join sep items :
  plain sep = true -> Forall (fun s => plain s = true) items ->
  plain (join sep items) = true.
Proof.
  intros Hs. induction 1 as [|x items Hx Hi IH]; [reflexivity|].
  destruct items as [|y items]; [exact Hx|].
  change (join sep (x :: y :: items)) with (x ++ sep ++ join sep (y :: items)).
  by rewrite !plain_app, Hx, Hs, IH.
Qed.

Lemma plain_dumps (v : json) : forall level, plain (dumps_at level v) = true.
Proof.
  induction v as [|b|n|s|l IH|d IH] using JsonInd.json_ind'; intros level.
  - reflexivity.
  - by destruct b.
  - apply plain_str_of_Z.
  - apply plain_encode_str.
  - destruct l as [|x l]; [reflexivity|].
    change (dumps_at level (JList (x :: l)))
      with ("[" ++ Layout.inner level
            ++ join ("," ++ Layout.inner level) (map (dumps_at (S level)) (x :: l))
            ++ Layout.close level ++ "]").
    rewrite !plain_app, plain_inner, plain_close, plain_join; [reflexivity|..].
    + by rewrite plain_app, plain_inner.
    + apply Forall_fmap. eapply Forall_impl; [exact IH|]. intros y Hy. apply Hy.
  - destruct d as [|kv d]; [reflexivity|].
    change (dumps_at level (JDict (kv :: d)))
      with ("{" ++ Layout.inner level
            ++ join ("," ++ Layout.inner level)
                 (map (Layout.member_text level) (kv :: d))
            ++ Layout.close level ++ "}").
    rewrite !plain_app, plain_inner, plain_close, plain_join; [reflexivity|..].
    + by rewrite plain_app, plain_inner.
    + apply Forall_fmap. eapply Forall_impl; [exact IH|]. intros [k y] Hy.
      unfold Layout.member_text. cbn [fst snd compose].
      by rewrite !plain_app, plain_encode_str, Hy.
Qed.

End PlainFacts.

Module BlankFacts.
Import Json JsonParse.

Lemma skip_ws_blank_app (b s : string) :
  forallb is_ws (list_ascii_of_string b) = true -> skip_ws (b ++ s) = skip_ws s.
Proof.
  induction b as [|c b IH]; [reflexivity|].
  cbn [list_ascii_of_string forallb]. intros H.
  apply andb_true_iff in H as [Hc H].
  change (String c b ++ s) with (String c (b ++ s)).
  cbn [skip_ws]. by rewrite Hc, IH.
Qed.

Lemma skip_ws_blank (b : string) :
  forallb is_ws (list_ascii_of_string b) = true -> skip_ws b = "".
Proof.
  intros H. rewrite <- (StrFacts.append_nil_r b). by rewrite skip_ws_blank_app.
Qed.

Lemma delimited_blank (b : string) :
  forallb is_ws (list_ascii_of_string b) = true -> Wf.delimited b = true.
Proof.
  destruct b as [|c b]; [reflexivity|].
  cbn [list_ascii_of_string forallb]. intros H.
  apply andb_true_iff in H as [Hc _]. revert Hc. by ascii_cases c.
Qed.

End BlankFacts.

(** X10. The report is built exactly when every item of the list is fit
    for it: a mapping whose decision makers are absent, falsy or can be
    iterated. Otherwise the download is the error text. *)
Theorem report_is_built_iff (results_list : list Json.json) :
  raises (Report.build results_list)
  = negb (forallb Reportable.ok results_list).
Proof.
  unfold Report.build. rewrite <- BuildFacts.lead_sections_raises.
  by destruct (Report.lead_sections results_list).
Qed.

(** X11. The error text of the report is the message of the first item
    that is not fit for it: for an item that is not a mapping, that its
    type has no attribute [get]. *)
Theorem report_error_is_the_first (good rest : list Json.json) (x : Json.json) :
  Forall (fun y => Reportable.ok y = true) good ->
  Json.is_dict x = false ->
  Report.download_data (good ++ x :: rest)%list
  = "Error generating report: '" ++ Json.type_name x
    ++ "' object has no attribute 'get'".
Proof.
  intros Hg Hx. unfold Report.download_data, Report.build.
  rewrite (BuildFacts.lead_sections_first good rest x
             (AttributeError ("'" ++ Json.type_name x
                              ++ "' object has no attribute 'get'")) Hg).
  - reflexivity.
  - by destruct x.
Qed.

Lemma report_error_is_the_first_witness :
  Report.download_data
    ([Leads.lead "Bolt" (Json.JInt 9)]
     ++ Json.JInt 5 :: [Json.JStr "no more leads"])%list
  = "Error generating report: '" ++ Json.type_name (Json.JInt 5)
    ++ "' object has no attribute 'get'".
Proof.
  apply (report_error_is_the_first [Leads.lead "Bolt" (Json.JInt 9)]
           [Json.JStr "no more leads"] (Json.JInt 5)).
  - by repeat constructor.
  - reflexivity.
Defined.

(** X12. The dump of the raw data is plain ASCII, whatever the texts of
    the leads: its characters go from the blank to the tilde, with the
    line break; every other character is written as an escape. *)
Theorem dumps_is_plain_ascii (v : Json.json) :
  Reportable.plain (Report.dumps v) = true.
Proof. unfold Report.dumps. apply PlainFacts.plain_dumps. Qed.

(** X13. The dump of a value is read back as the value at any depth of
    indentation and with white space around it. *)
Theorem dump_is_read_back_anywhere (v : Json.json) (level : nat)
    (before after : string) :
  Wf.wf v ->
  forallb JsonParse.is_ws (list_ascii_of_string before) = true ->
  forallb JsonParse.is_ws (list_ascii_of_string after) = true ->
  JsonParse.loads (before ++ Report.dumps_at level v ++ after) = Some v.
Proof.
  intros Hw Hb Ha. unfold JsonParse.loads.
  rewrite ReadBack.parse_value_skip, (BlankFacts.skip_ws_blank_app _ _ Hb),
    <- ReadBack.parse_value_skip.
  rewrite (ReadValue.reads_all v Hw level after).
  - cbn. by rewrite (BlankFacts.skip_ws_blank _ Ha).
  - rewrite !StrFacts.length_append.
    pose proof (ReadValue.size_le_length v level). lia.
  - by apply BlankFacts.delimited_blank.
Qed.

Lemma dump_is_read_back_anywhere_witness :
  JsonParse.loads
    ("  " ++ Report.dumps_at 3 (Json.JDict (Schema.model_dump Drawable.quoting))
     ++ Json.nl)
  = Some (Json.JDict (Schema.model_dump Drawable.quoting)).
Proof.
  apply (dump_is_read_back_anywhere
           (Json.JDict (Schema.model_dump Drawable.quoting)) 3 "  " Json.nl).
  - apply RoundTrip.check_wf. vm_compute. reflexivity.
  - reflexivity.
  - reflexivity.
Defined.

(** X14. Two values with the same dump are the same value: the raw data
    of a report determine the results. *)
Theorem dumps_is_injective (v1 v2 : Json.json) :
  Wf.wf v1 -> Wf.wf v2 -> Report.dumps v1 = Report.dumps v2 -> v1 = v2.
Proof.
  intros H1 H2 E.
  pose proof (ReadValue.loads_dumps v1 H1) as L1.
  pose proof (ReadValue.loads_dumps v2 H2) as L2.
  rewrite E in L1. congruence.
Qed.

Lemma dumps_is_injective_witness :
  Json.JList (Schema.dump_all [Drawable.unscored])
  = Json.JList (Schema.dump_all [Drawable.unscored]).
Proof.
  apply (dumps_is_injective (Json.JList (Schema.dump_all [Drawable.unscored]))
           (Json.JList (Schema.dump_all [Drawable.unscored]))).
  - apply RoundTrip.check_wf. vm_compute. reflexivity.
  - apply RoundTrip.check_wf. vm_compute. reflexivity.
  - reflexivity.
Defined.

(** ** From the crew's output to the page *)

Module ResultsFacts.
Import Json Results.

Lemma show_results_invocations industry country l :
  Handler.invocations (Handler.show_results industry country l) = [].
Proof.
  unfold Handler.show_results. destruct l as [|x l]; [reflexivity|].
  destruct (App.display (x :: l)) as [w [sorted|e]]; reflexivity.
Qed.

Lemma show_invocations industry country v :
  Handler.invocations (show industry country v) = [].
Proof.
  unfold show. destruct (truthy v); [|reflexivity].
  destruct v; try reflexivity; apply show_results_invocations.
Qed.

(** A text is drawable and has no expander. *)
Lemma texts_drawable (l : list json) :
  Forall (fun x => is_dict x = false) l ->
  Forall (fun x => Drawable.drawable x = true) l.
Proof.
  intros H. eapply Forall_impl; [exact H|]. intros x Hx. by destruct x.
Qed.

Lemma expanders_none (l : list json) : forall idx,
  Forall (fun x => is_dict x = false) l -> Drawable.expanders idx l = [].
Proof.
  induction l as [|x l IH]; intros idx H; [reflexivity|].
  apply Forall_cons in H as [Hx H]. destruct x; try discriminate Hx;
    cbn [Drawable.expanders]; by apply IH.
Qed.

(** The page for a sequence none of whose items is a mapping: the
    metrics and the raw data, no lead, and the error text as download. *)
Lemma show_results_texts industry country (l : list json) :
  l <> [] ->
  Forall (fun x => is_dict x = false) l ->
  exists w e,
    Handler.show_results industry country l
    = [Handler.Widgets w;
       Handler.DownloadButton (Report.error_prefix ++ exn_str e)
         ("lead_generation_report_" ++ industry ++ "_" ++ country ++ ".md")]
    /\ App.rendered w = [].
Proof.
  intros Hne Hl.
  destruct (AppFacts.display_ok l Hne (texts_drawable l Hl))
    as (w & sorted & Hd & Hs & Hp & Hr).
  assert (Hx : exists x, x ∈ Handler.results_for_report l /\ is_dict x = false).
  { destruct l as [|x l]; [done|]. exists x. split.
    - rewrite ReportFacts.results_for_report_perm. apply list_elem_of_here.
    - by apply Forall_cons in Hl as [Hx _]. }
  destruct Hx as (x & Hin & Hx).
  destruct (ReportFacts.download_data_error _ x Hin Hx) as (e & _ & He).
  exists w, e. unfold Handler.show_results. rewrite Hd, He.
  destruct l as [|y l]; [done|]. split; [reflexivity|].
  rewrite Hr. apply expanders_none. by rewrite Hp.
Qed.

Lemma keys_texts d : Forall (fun x => is_dict x = false) (keys d).
Proof. unfold keys. apply Forall_fmap. by apply Forall_true. Qed.

Lemma chars_texts s : Forall (fun x => is_dict x = false) (chars s).
Proof. unfold chars. apply Forall_fmap. by apply Forall_true. Qed.

(** For an output that parses to a list, the run is the run of
    [Handler.on_run] on that list. *)
Lemma on_run_list industry country api_key kickoff loads results l :
  kickoff industry country = Ok results ->
  results_list loads results = Ok (JList l) ->
  on_run industry country api_key kickoff loads
  = Handler.on_run industry country api_key (fun _ _ => Ok l).
Proof.
  intros Hk Hl. unfold on_run, Handler.on_run. rewrite Hk, Hl.
  unfold after_parse, show. destruct l as [|x l]; reflexivity.
Qed.

End ResultsFacts.

(** X15. A run starts the crew once, and only when the industry, the
    country and the API key are all given; whatever the crew returns and
    however its output parses, nothing else invokes it. *)
Theorem crew_runs_once_iff_inputs (industry country : string)
    (api_key : option string)
    (kickoff : string -> string -> result Results.CrewOutput)
    (loads : string -> result Json.json) :
  Handler.invocations (Results.on_run industry country api_key kickoff loads)
  = if negb (Handler.is_empty industry) && negb (Handler.is_empty country)
       && negb (Handler.is_empty (default "" api_key))
    then [Handler.Kickoff industry country]
    else [].
Proof.
  unfold Results.on_run.
  destruct (Handler.is_empty industry); [reflexivity|].
  destruct (Handler.is_empty country); [reflexivity|].
  destruct (Handler.is_empty (default "" api_key)); [reflexivity|].
  cbn [orb negb andb]. unfold Handler.invocations.
  cbn [List.filter Handler.is_invocation]. f_equal.
  destruct (kickoff industry country) as [results|e]; [|reflexivity].
  unfold Results.after_parse.
  destruct (Results.results_list loads results) as [v|e]; [|reflexivity].
  apply ResultsFacts.show_invocations.
Qed.

(** X16. An output that does not parse, or that parses to something else
    than a list (one object, a text, a number), shows no lead, and the
    download is an error text instead of a report. *)
Theorem unusable_output_gives_no_report (industry country : string)
    (parsed : result Json.json) :
  (forall l, parsed <> Ok (Json.JList l)) ->
  (forall v, parsed = Ok v -> Json.truthy v = true) ->
  exists message,
    Results.download (Results.after_parse industry country parsed)
    = Some ("Error generating report: " ++ message)
    /\ App.rendered (Results.widgets (Results.after_parse industry country parsed))
       = [].
Proof.
  intros Hl Ht. destruct parsed as [v|e]; [|eexists; split; reflexivity].
  specialize (Ht v eq_refl). unfold Results.after_parse, Results.show.
  rewrite Ht.
  destruct v as [|b|n|s|l|d].
  - discriminate Ht.
  - eexists. split; reflexivity.
  - eexists. split; reflexivity.
  - destruct (ResultsFacts.show_results_texts industry country (Results.chars s))
      as (w & e & -> & Hr).
    + by destruct s.
    + apply ResultsFacts.chars_texts.
    + exists (exn_str e). split; [reflexivity|].
      unfold Results.widgets. cbn. by rewrite app_nil_r.
  - by destruct (Hl l).
  - destruct (ResultsFacts.show_results_texts industry country (Results.keys d))
      as (w & e & -> & Hr).
    + by destruct d.
    + apply ResultsFacts.keys_texts.
    + exists (exn_str e). split; [reflexivity|].
      unfold Results.widgets. cbn. by rewrite app_nil_r.
Qed.

Lemma unusable_output_gives_no_report_witness :
  exists message,
    Results.download
      (Results.after_parse "FinTech" "Norway"
         (Ok (Json.JDict (Schema.model_dump Drawable.quoting))))
    = Some ("Error generating report: " ++ message)
    /\ App.rendered
         (Results.widgets
            (Results.after_parse "FinTech" "Norway"
               (Ok (Json.JDict (Schema.model_dump Drawable.quoting)))))
       = [].
Proof.
  apply (unusable_output_gives_no_report "FinTech" "Norway"
           (Ok (Json.JDict (Schema.model_dump Drawable.quoting)))).
  - intros l H. discriminate H.
  - intros v H. injection H as <-. reflexivity.
Defined.

(** X17. When the output of the last task is one record of the schema,
    as [output_pydantic=LeadOutput] asks, and not a list of records, the
    page counts its eight fields as eight leads of average score 0, shows
    no lead, and offers an error text as the report. *)
Theorem single_record_is_not_a_list (industry country : string)
    (r : Schema.LeadOutput) :
  Results.show industry country (Json.JDict (Schema.model_dump r))
  = [Handler.Widgets
       [App.MetricTotalLeads 8;
        App.MetricAverageScore PyFloat.zero;
        App.MetricHighQuality 0;
        App.RawData (map Json.JStr Schema.declared_fields)];
     Handler.DownloadButton
       "Error generating report: 'str' object has no attribute 'get'"
       (Results.file_name industry country)].
Proof.
  unfold Results.show.
  change (Json.truthy (Json.JDict (Schema.model_dump r))) with true.
  change (Results.keys (Schema.model_dump r))
    with (map Json.JStr Schema.declared_fields).
  cbv iota. unfold Handler.show_results.
  change (App.display (map Json.JStr Schema.declared_fields))
    with ([App.MetricTotalLeads 8; App.MetricAverageScore PyFloat.zero;
           App.MetricHighQuality 0;
           App.RawData (map Json.JStr Schema.declared_fields)],
          Ok (map Json.JStr Schema.declared_fields)).
  reflexivity.
Qed.

(** X18. Only the output of the last task is read: the tasks before it
    do not count, and the output of the crew is read only when the last
    task has none; with neither, the empty list stands for the results. *)
Theorem only_the_last_task_is_read (loads : string -> result Json.json)
    (earlier : list Results.TaskOutput) (last_task : Results.TaskOutput)
    (crew_raw : option string) :
  Results.results_list loads
    {| Results.tasks_output := Some (earlier ++ [last_task])%list;
       Results.raw := crew_raw |}
  = match Results.task_raw last_task, crew_raw with
    | Some text, _ => loads text
    | None, Some text => loads text
    | None, None => Ok (Json.JList [])
    end.
Proof.
  unfold Results.results_list, Results.raw_text.
  cbn [Results.tasks_output Results.raw].
  assert (E : exists t ts, (earlier ++ [last_task])%list = t :: ts
                           /\ List.last ts t = last_task).
  { destruct earlier as [|t ts]; [by exists last_task, []|].
    exists t, (ts ++ [last_task])%list. split; [reflexivity|].
    apply last_last. }
  destruct E as (t & ts & -> & ->).
  destruct (Results.task_raw last_task); [reflexivity|].
  by destruct crew_raw.
Qed.

(** ** Scores as texts, whole lists of records, and sorting again *)

Module FloatTextFacts.
Import Json Digits Chars.

(** Digits have no underscore to take out. *)
Lemma drop_underscores_uint d : forall prev,
  In prev number_chars ->
  PyFloat.drop_underscores prev (NilEmpty.string_of_uint d)
  = Some (NilEmpty.string_of_uint d).
Proof.
  induction d; intros prev H;
    cbn [In] in H;
    repeat (destruct H as [<-|H]; [|]); try contradiction;
    cbn [NilEmpty.string_of_uint PyFloat.drop_underscores Ascii.eqb Bool.eqb
         PyStr.isdigit]; try reflexivity;
    (rewrite IHd; [reflexivity|cbn [In]; tauto]).
Qed.

Lemma lower_str_uint d :
  PyFloat.lower_str (NilEmpty.string_of_uint d) = NilEmpty.string_of_uint d.
Proof. induction d; [reflexivity|..]; cbn; by rewrite IHd. Qed.

Lemma parse_decimal_uint d :
  d <> Decimal.Nil ->
  PyFloat.parse_decimal (NilEmpty.string_of_uint d) = Some (uint_value 0 d, 0).
Proof.
  intros Hd. unfold PyFloat.parse_decimal.
  rewrite <- (StrFacts.append_nil_r (NilEmpty.string_of_uint d)).
  rewrite (NumberFacts.take_digits_uint d 0 "" I).
  cbv beta iota. rewrite Nat.add_0_r.
  by destruct d.
Qed.

(** [float] of the digits of a positive number, with or without a minus. *)
Lemma of_string_uint (p : positive) (neg : bool) :
  PyFloat.of_string ((if neg then "-" else "") ++ NilEmpty.string_of_uint (Pos.to_uint p))
  = Some (PyFloat.of_Z (if neg then Z.neg p else Z.pos p)).
Proof.
  assert (Hd : Pos.to_uint p <> Decimal.Nil).
  { pose proof (NumberFacts.to_uint_head p). by destruct (Pos.to_uint p). }
  assert (Hn : Usage.is_name ((if neg then "-" else "")
                              ++ NilEmpty.string_of_uint (Pos.to_uint p)) = true).
  { rewrite NameFacts.is_name_app, IntFacts.is_name_uint. by destruct neg. }
  unfold PyFloat.of_string. rewrite (IntFacts.strip_name _ Hn).
  assert (Hu : PyFloat.drop_underscores None
                 ((if neg then "-" else "") ++ NilEmpty.string_of_uint (Pos.to_uint p))
               = Some ((if neg then "-" else "")
                       ++ NilEmpty.string_of_uint (Pos.to_uint p))).
  { destruct neg.
    - change ("-" ++ NilEmpty.string_of_uint (Pos.to_uint p))
        with (String "-" (NilEmpty.string_of_uint (Pos.to_uint p))).
      cbn [PyFloat.drop_underscores Ascii.eqb Bool.eqb].
      rewrite drop_underscores_uint; [reflexivity|cbn [In]; tauto].
    - change ("" ++ NilEmpty.string_of_uint (Pos.to_uint p))
        with (NilEmpty.string_of_uint (Pos.to_uint p)).
      apply drop_underscores_uint. cbn [In]. tauto. }
  rewrite Hu. cbn [mbind option_bind].
  assert (Hs : PyStr.take_sign ((if neg then "-" else "")
                                ++ NilEmpty.string_of_uint (Pos.to_uint p))
               = (neg, NilEmpty.string_of_uint (Pos.to_uint p))).
  { destruct neg; [reflexivity|]. apply IntFacts.take_sign_digits. }
  rewrite Hs, lower_str_uint, (parse_decimal_uint _ Hd),
    NumberFacts.uint_value_to_uint.
  replace (String.eqb (NilEmpty.string_of_uint (Pos.to_uint p)) "inf"
           || String.eqb (NilEmpty.string_of_uint (Pos.to_uint p)) "infinity")
    with false by (by destruct (Pos.to_uint p)).
  replace (String.eqb (NilEmpty.string_of_uint (Pos.to_uint p)) "nan")
    with false by (by destruct (Pos.to_uint p)).
  f_equal. unfold PyFloat.of_decimal, PyFloat.of_Z.
  change (Z.pos p =? 0) with false. change (0 <=? 0) with true. cbv iota.
  f_equal. destruct neg; lia.
Qed.

End FloatTextFacts.

(** X19. A score that is the decimal text of an integer converts, and to
    the float of that integer: the lead is counted, sorted and drawn as
    with the integer itself. *)
Theorem text_score_converts (n : Z) :
  Json.py_float (Json.JStr (Json.str_of_Z n)) = Ok (PyFloat.of_Z n).
Proof.
  unfold Json.py_float. destruct n as [|p|p]; [reflexivity|..].
  - change (Json.str_of_Z (Z.pos p))
      with ("" ++ NilEmpty.string_of_uint (Pos.to_uint p)).
    by rewrite (FloatTextFacts.of_string_uint p false).
  - change (Json.str_of_Z (Z.neg p))
      with ("-" ++ NilEmpty.string_of_uint (Pos.to_uint p)).
    by rewrite (FloatTextFacts.of_string_uint p true).
Qed.

(** X20. A list of records whose scores are on the scale from 0 to 10
    is displayed to the end, whatever their other fields, null or not:
    one expander for each record, in the sorted order, and the report of
    the sorted list is built. *)
Theorem records_on_the_scale_are_displayed (records : list Schema.LeadOutput) :
  records <> [] ->
  Forall (fun r => exists n, Schema.score r = Some n /\ 0 <= n <= 10) records ->
  exists w sorted text,
    App.display (Schema.dump_all records) = (w, Ok sorted)
    /\ sorted ≡ₚ Schema.dump_all records
    /\ App.rendered w = Drawable.expanders 1 sorted
    /\ length (App.rendered w) = length records
    /\ Report.build sorted = Ok text.
Proof.
  intros Hne Hs.
  assert (Hd : Forall (fun x => Drawable.drawable x = true)
                      (Schema.dump_all records)).
  { unfold Schema.dump_all. apply Forall_fmap. eapply Forall_impl; [exact Hs|].
    intros r (n & Hr & Hn). by apply (scored_record_drawable r n). }
  assert (Hk : Forall (fun x => Reportable.ok x = true) (Schema.dump_all records)).
  { unfold Schema.dump_all. apply Forall_fmap. apply Forall_true. intros r.
    cbn. unfold Drawable.people_ok, Json.get.
    replace (Json.lookup (Schema.model_dump r) "key_decision_makers")
      with (Some (Schema.opt (fun l => Json.JList (map Schema.str_dict l))
                    (Schema.key_decision_makers r))) by reflexivity.
    destruct (Schema.key_decision_makers r) as [l|]; [|reflexivity].
    cbn [default Schema.opt Json.iter_dicts raises negb]. apply orb_true_r. }
  destruct (AppFacts.display_ok (Schema.dump_all records))
    as (w & sorted & Hw & _ & Hp & Hr); [by destruct records|exact Hd|].
  assert (Hb : raises (Report.lead_sections sorted) = false).
  { rewrite BuildFacts.lead_sections_raises. apply negb_false_iff.
    apply forallb_forall. intros x Hx. rewrite <- Hp in Hk.
    rewrite Forall_forall in Hk. apply Hk. by apply list_elem_of_In. }
  destruct (Report.lead_sections sorted) as [sections|e] eqn:E; [|discriminate].
  exists w, sorted. eexists. split; [exact Hw|]. split; [exact Hp|].
  split; [exact Hr|]. split.
  - rewrite Hr, expanders_length, (filter_length_perm _ _ _ Hp).
    unfold Schema.dump_all. clear. induction records as [|r rs IH]; [reflexivity|].
    cbn. by rewrite IH.
  - unfold Report.build. rewrite E. reflexivity.
Qed.

Lemma records_on_the_scale_are_displayed_witness :
  exists w sorted text,
    App.display (Schema.dump_all [Samples.bare; Drawable.quoting]) = (w, Ok sorted)
    /\ sorted ≡ₚ Schema.dump_all [Samples.bare; Drawable.quoting]
    /\ App.rendered w = Drawable.expanders 1 sorted
    /\ length (App.rendered w) = length [Samples.bare; Drawable.quoting]
    /\ Report.build sorted = Ok text.
Proof.
  apply (records_on_the_scale_are_displayed [Samples.bare; Drawable.quoting]).
  - discriminate.
  - repeat constructor.
    + exists 7. split; [reflexivity|lia].
    + exists 9. split; [reflexivity|lia].
Defined.

(** X21. Sorting again changes nothing: when every score converts to a
    number, the sorted list is its own sort, so that results taken from
    a display or from the raw data of a report keep their order. *)
Theorem sorting_again_changes_nothing (results_list sorted : list Json.json) :
  Forall (fun x => Leads.number_key x = true) results_list ->
  App.sort_leads results_list = Ok sorted ->
  App.sort_leads sorted = Ok sorted.
Proof.
  intros H Hs. unfold App.sort_leads in *.
  apply (OrderFacts.py_sorted_again PyFloat.ltb App.sort_key
           (fun f => PyFloat.is_nan f = false)
           FloatOrder.ltb_irrefl FloatOrder.ltb_trans FloatOrder.ltb_cotrans
           results_list sorted); [|exact Hs].
  by apply OrderFacts.number_keys.
Qed.

Lemma sorting_again_changes_nothing_witness :
  App.sort_leads
    [Leads.lead "Bolt" (Json.JInt 11); Leads.lead "Acme" (Json.JInt 8);
     Leads.lead "Core" (Json.JInt 3)]
  = Ok [Leads.lead "Bolt" (Json.JInt 11); Leads.lead "Acme" (Json.JInt 8);
        Leads.lead "Core" (Json.JInt 3)].
Proof.
  apply (sorting_again_changes_nothing Samples.above_scale).
  - repeat constructor.
  - vm_compute. reflexivity.
Defined.

Module CountFacts.
Import Json App.

Lemma high_quality_le l : forall n,
  high_quality l = Ok n -> (n <= length (List.filter is_dict l))%nat.
Proof.
  induction l as [|x l IH]; intros n H.
  - injection H as <-. reflexivity.
  - destruct x as [| | | | |d]; cbn [high_quality List.filter is_dict] in *;
      try by apply IH.
    apply bind_Ok in H as (s & _ & H). apply bind_Ok in H as (m & Hm & H).
    injection H as <-. specialize (IH m Hm). cbn [length].
    match goal with |- context [if ?b then _ else _] => destruct b end; lia.
Qed.

End CountFacts.

(** X22. The count of high-quality leads never exceeds the number of
    mappings in the list, which never exceeds the total of leads shown
    beside it: an item that is not a mapping is counted in the total
    only. *)
Theorem high_quality_is_bounded (results_list : list Json.json) (n : nat) :
  App.high_quality results_list = Ok n ->
  (n <= length (List.filter Json.is_dict results_list)
     <= length results_list)%nat.
Proof.
  intros H. split; [by apply CountFacts.high_quality_le|].
  apply List.filter_length_le.
Qed.

Lemma high_quality_is_bounded_witness :
  (2 <= length (List.filter Json.is_dict Drawable.mixed_results)
     <= length Drawable.mixed_results)%nat.
Proof.
  apply (high_quality_is_bounded Drawable.mixed_results 2).
  vm_compute. reflexivity.
Defined.

(** ** The thresholds on the scale *)

Module ScaleFacts.
Import Json App.

(** On the scale, the floats compare with 6, 7 and 8 as the integers. *)
Lemma scale_thresholds (n : Z) :
  0 <= n <= 10 ->
  PyFloat.leb (PyFloat.of_Z 6) (PyFloat.of_Z n) = (6 <=? n)
  /\ PyFloat.leb (PyFloat.of_Z 7) (PyFloat.of_Z n) = (7 <=? n)
  /\ PyFloat.leb (PyFloat.of_Z 8) (PyFloat.of_Z n) = (8 <=? n).
Proof.
  intros Hn.
  assert (E : n ∈ [0; 1; 2; 3; 4; 5; 6; 7; 8; 9; 10]).
  { rewrite !elem_of_cons. lia. }
  rewrite !elem_of_cons in E.
  destruct E as [->|[->|[->|[->|[->|[->|[->|[->|[->|[->|[->|E]]]]]]]]]]];
    [by repeat split..|by apply elem_of_nil in E].
Qed.

Lemma record_score (r : Schema.LeadOutput) (n : Z) :
  Schema.score r = Some n -> 0 <= n <= 10 ->
  lead_score (Schema.model_dump r) = Ok (PyFloat.of_Z n).
Proof.
  intros Hs Hn. unfold lead_score, get.
  replace (lookup (Schema.model_dump r) "score") with (Some (JInt n))
    by (cbn; by rewrite Hs).
  by destruct (RenderFacts.scale_score n Hn).
Qed.

End ScaleFacts.

(** X23. On the scale from 0 to 10, the header of a lead is green from
    the score 8 on, orange for 6 and 7, and gray below. *)
Theorem header_colors_on_the_scale (n : Z) :
  0 <= n <= 10 ->
  App.header_color_of (PyFloat.of_Z n) = Scale.color n.
Proof.
  intros Hn. destruct (ScaleFacts.scale_thresholds n Hn) as (H6 & _ & H8).
  unfold App.header_color_of, Scale.color. by rewrite H6, H8.
Qed.

Lemma header_colors_on_the_scale_witness :
  App.header_color_of (PyFloat.of_Z 7) = Scale.color 7.
Proof. apply (header_colors_on_the_scale 7). lia. Defined.

(** X24. For records whose scores are on the scale from 0 to 10, the
    metric of high-quality leads is the number of records with a score
    of 7 or more. *)
Theorem high_quality_counts_scores (records : list Schema.LeadOutput) :
  Forall (fun r => exists n, Schema.score r = Some n /\ 0 <= n <= 10) records ->
  App.high_quality (Schema.dump_all records)
  = Ok (length (List.filter Scale.high records)).
Proof.
  induction 1 as [|r records (n & Hs & Hn) _ IH]; [reflexivity|].
  change (Schema.dump_all (r :: records))
    with (Json.JDict (Schema.model_dump r) :: Schema.dump_all records).
  cbn [App.high_quality List.filter].
  rewrite (ScaleFacts.record_score r n Hs Hn), IH. cbn [mbind result_bind].
  destruct (ScaleFacts.scale_thresholds n Hn) as (_ & H7 & _). rewrite H7.
  unfold Scale.high. rewrite Hs. by destruct (7 <=? n).
Qed.

Lemma high_quality_counts_scores_witness :
  App.high_quality (Schema.dump_all [Samples.bare; Drawable.quoting])
  = Ok (length (List.filter Scale.high [Samples.bare; Drawable.quoting])).
Proof.
  apply (high_quality_counts_scores [Samples.bare; Drawable.quoting]).
  repeat constructor.
  - exists 7. split; [reflexivity|lia].
  - exists 9. split; [reflexivity|lia].
Defined.
